(** * AutoDocs: the repository scanner and README builder of [core.py]

    A shallow embedding of [DeepScanner] and [generate_readme] and the
    properties that the README-generator specification states about them.

    Conventions of the embedding.
    - A Python [str] is a Rocq [string] (its UTF-8 bytes).  White space is
      what [str.isspace] accepts; [upper] and [lower] write every ASCII
      letter that Python writes; [title] cases the ASCII letters only.
    - A Python [set] of strings is a [gset string]; a [dict] whose keys are
      fixed by the source is a record, any other dict an association list in
      insertion order.
    - Paths are POSIX paths ([os.sep] is [/]).
    - The file system, the codecs, [json], [re] and [git] are collaborators:
      a file carries what each reader returns for it, and the regular
      expression engine, the order in which a set is iterated and the
      rendering of non-string values are fields of an environment [pyenv]. *)

From Stdlib Require Import String Ascii List ZArith QArith Qabs Lqa Lia Bool.
From stdpp Require Import gmap strings list sorting pretty.

Set Warnings "-register-all".
Local Open Scope nat_scope.

(** ** Python string operations *)

Module PyStr.

Definition nl : string := String (ascii_of_nat 10) "".
Definition dq : string := String (ascii_of_nat 34) "".

(** [esc] reads the two characters backslash-n of a literal as a line feed,
    so that the literals below can be compared with the source's. *)
Fixpoint esc (s : string) : string :=
  match s with
  | String "\"%char (String "n"%char r) => String (ascii_of_nat 10) (esc r)
  | String c r => String c (esc r)
  | EmptyString => EmptyString
  end.

(** [s.startswith(p)] *)
Definition startswith (s p : string) : bool := String.prefix p s.

Fixpoint str_drop (n : nat) (s : string) : string :=
  match n, s with
  | S k, String _ r => str_drop k r
  | _, _ => s
  end.

(** [s.endswith(p)] *)
Definition endswith (s p : string) : bool :=
  (String.length p <=? String.length s) &&
  String.eqb (str_drop (String.length s - String.length p) s) p.

(** [sub in s] *)
Fixpoint contains (sub s : string) : bool :=
  String.prefix sub s ||
  match s with
  | EmptyString => false
  | String _ r => contains sub r
  end.

(** [s.split(sep)] for a non-empty [sep]: [skip] counts the characters of a
    separator that has just been matched and are still to be passed over,
    [acc] is the piece read so far. *)
Fixpoint split_aux (sep : string) (skip : nat) (acc s : string) : list string :=
  match s with
  | EmptyString => [acc]
  | String c r =>
      match skip with
      | S k => split_aux sep k acc r
      | O =>
          if String.prefix sep s
          then acc :: split_aux sep (String.length sep - 1) "" r
          else split_aux sep 0 (acc +:+ String c "") r
      end
  end.

Definition split (s sep : string) : list string := split_aux sep 0 "" s.

(** [s.replace(old, new)] for a non-empty [old]. *)
Fixpoint replace_aux (old new : string) (skip : nat) (s : string) : string :=
  match s with
  | EmptyString => EmptyString
  | String c r =>
      match skip with
      | S k => replace_aux old new k r
      | O =>
          if String.prefix old s
          then new +:+ replace_aux old new (String.length old - 1) r
          else String c (replace_aux old new 0 r)
      end
  end.

Definition replace (s old new : string) : string := replace_aux old new 0 s.

(** A text from its bytes. *)
Definition bytes (l : list nat) : string :=
  fold_right (fun n s => String (ascii_of_nat n) s) "" l.

(** Python's [str.isspace] on the ASCII range. *)
Definition is_space (c : ascii) : bool :=
  let n := nat_of_ascii c in
  ((9 <=? n) && (n <=? 13)) || ((28 <=? n) && (n <=? 32)).

(** The characters outside ASCII for which [str.isspace] holds, in UTF-8:
    U+0085, U+00A0, U+1680, U+2000 to U+200A, U+2028, U+2029, U+202F,
    U+205F and U+3000. *)
Definition WIDE_SPACES : list string :=
  [bytes [194; 133]; bytes [194; 160]; bytes [225; 154; 128];
   bytes [226; 128; 128]; bytes [226; 128; 129]; bytes [226; 128; 130];
   bytes [226; 128; 131]; bytes [226; 128; 132]; bytes [226; 128; 133];
   bytes [226; 128; 134]; bytes [226; 128; 135]; bytes [226; 128; 136];
   bytes [226; 128; 137]; bytes [226; 128; 138]; bytes [226; 128; 168];
   bytes [226; 128; 169]; bytes [226; 128; 175]; bytes [226; 129; 159];
   bytes [227; 128; 128]].

(** The number of bytes of the white-space character that starts [s]; 0
    when [s] does not start with white space. *)
Definition space_width (s : string) : nat :=
  match s with
  | String c _ =>
      if is_space c then 1
      else match List.find (fun w => String.prefix w s) WIDE_SPACES with
           | Some w => String.length w
           | None => 0
           end
  | EmptyString => 0
  end.

(** [s.lstrip()]: [skip] counts the bytes of a white-space character that
    are still to be passed over. *)
Fixpoint lstrip_aux (skip : nat) (s : string) : string :=
  match s with
  | EmptyString => EmptyString
  | String c r =>
      match skip with
      | S k => lstrip_aux k r
      | O =>
          match space_width s with
          | S k => lstrip_aux k r
          | O => s
          end
      end
  end.

Definition lstrip (s : string) : string := lstrip_aux 0 s.

(** Nothing but white space. *)
Definition blank (s : string) : bool := String.eqb (lstrip s) "".

(** [s.rstrip()]: the text up to the point after which nothing but white
    space follows. *)
Fixpoint rstrip (s : string) : string :=
  match s with
  | EmptyString => EmptyString
  | String c r => if blank s then EmptyString else String c (rstrip r)
  end.

Fixpoint lstrip_by (p : ascii -> bool) (s : string) : string :=
  match s with
  | String c r => if p c then lstrip_by p r else s
  | EmptyString => EmptyString
  end.

Fixpoint rstrip_by (p : ascii -> bool) (s : string) : string :=
  match s with
  | String c r =>
      match rstrip_by p r with
      | EmptyString => if p c then EmptyString else String c EmptyString
      | r' => String c r'
      end
  | EmptyString => EmptyString
  end.

Definition strip_by (p : ascii -> bool) (s : string) : string :=
  rstrip_by p (lstrip_by p s).

(** [s.strip()], on every character for which [str.isspace] holds. *)
Definition strip (s : string) : string := rstrip (lstrip s).

(** [s.rstrip(chars)], [s.strip(chars)] for ASCII [chars]. *)

Fixpoint char_in (chars : string) (c : ascii) : bool :=
  match chars with
  | String d r => Ascii.eqb c d || char_in r c
  | EmptyString => false
  end.

Definition rstrip_chars (s chars : string) : string := rstrip_by (char_in chars) s.
Definition strip_chars (s chars : string) : string := strip_by (char_in chars) s.

Definition is_upper (c : ascii) : bool :=
  let n := nat_of_ascii c in (65 <=? n) && (n <=? 90).
Definition is_lower (c : ascii) : bool :=
  let n := nat_of_ascii c in (97 <=? n) && (n <=? 122).
Definition to_lower (c : ascii) : ascii :=
  if is_upper c then ascii_of_nat (nat_of_ascii c + 32) else c.
Definition to_upper (c : ascii) : ascii :=
  if is_lower c then ascii_of_nat (nat_of_ascii c - 32) else c.

(** [recode table f s]: where an entry of [table] starts, its image is
    written and the entry passed over; any other byte [c] becomes [f c].
    The entries are whole UTF-8 characters, so in a UTF-8 text they start
    at the start of a character only. *)
Fixpoint recode_aux (table : list (string * string)) (f : ascii -> ascii)
    (skip : nat) (s : string) : string :=
  match s with
  | EmptyString => EmptyString
  | String c r =>
      match skip with
      | S k => recode_aux table f k r
      | O =>
          match List.find (fun e => String.prefix (fst e) s) table with
          | Some e => snd e +:+ recode_aux table f (String.length (fst e) - 1) r
          | None => String (f c) (recode_aux table f 0 r)
          end
      end
  end.

Definition recode (table : list (string * string)) (f : ascii -> ascii) (s : string)
  : string := recode_aux table f 0 s.

(** The characters outside ASCII whose upper case, by the Unicode case
    mappings that [str.upper] follows, holds an ASCII letter: U+00DF (SS),
    U+0131 (I), U+0149 (U+02BC N), U+017F (S), U+01F0 (J U+030C),
    U+1E96 to U+1E9A (H, T, W, Y, A with a mark after it) and the
    ligatures U+FB00 to U+FB06 (FF, FI, FL, FFI, FFL, ST, ST). *)
Definition UPPER_TO_ASCII : list (string * string) :=
  [(bytes [195; 159], "SS");
   (bytes [196; 177], "I");
   (bytes [197; 137], bytes [202; 188] +:+ "N");
   (bytes [197; 191], "S");
   (bytes [199; 176], "J" +:+ bytes [204; 140]);
   (bytes [225; 186; 150], "H" +:+ bytes [204; 177]);
   (bytes [225; 186; 151], "T" +:+ bytes [204; 136]);
   (bytes [225; 186; 152], "W" +:+ bytes [204; 138]);
   (bytes [225; 186; 153], "Y" +:+ bytes [204; 138]);
   (bytes [225; 186; 154], "A" +:+ bytes [202; 190]);
   (bytes [239; 172; 128], "FF");
   (bytes [239; 172; 129], "FI");
   (bytes [239; 172; 130], "FL");
   (bytes [239; 172; 131], "FFI");
   (bytes [239; 172; 132], "FFL");
   (bytes [239; 172; 133], "ST");
   (bytes [239; 172; 134], "ST")].

(** The characters outside ASCII whose lower case holds an ASCII letter:
    U+0130 (i U+0307) and the Kelvin sign U+212A (k). *)
Definition LOWER_TO_ASCII : list (string * string) :=
  [(bytes [196; 176], "i" +:+ bytes [204; 135]);
   (bytes [226; 132; 170], "k")].

(** [s.lower()], [s.upper()].  Every ASCII letter of the result, and every
    byte between two of them, is as Python writes it; a character whose
    image holds no ASCII letter is kept as it is, where Python writes
    another text outside ASCII.  No comparison that the scanner makes
    with the result (an ASCII text that it equals, starts with or holds)
    tells the two apart. *)
Definition lower (s : string) : string := recode LOWER_TO_ASCII to_lower s.
Definition upper (s : string) : string := recode UPPER_TO_ASCII to_upper s.

(** The first [n] characters of a UTF-8 text: a byte from 128 to 191
    continues the character before it. *)
Definition is_continuation (c : ascii) : bool :=
  let k := nat_of_ascii c in (128 <=? k) && (k <=? 191).

Fixpoint take_chars (n : nat) (s : string) : string :=
  match s with
  | EmptyString => EmptyString
  | String c r =>
      if is_continuation c then String c (take_chars n r)
      else match n with
           | O => EmptyString
           | S k => String c (take_chars k r)
           end
  end.

(** [s.title()]: a cased character is upper-cased after an uncased one and
    lower-cased after a cased one.  The cased characters are the ASCII
    letters: a letter outside ASCII is written as it stands. *)
Fixpoint title_aux (prev_cased : bool) (s : string) : string :=
  match s with
  | EmptyString => EmptyString
  | String c r =>
      let cased := is_upper c || is_lower c in
      String (if prev_cased then to_lower c else to_upper c) (title_aux cased r)
  end.

Definition title (s : string) : string := title_aux false s.

(** The text a loop builds with [out += piece]. *)
Definition cat (l : list string) : string := fold_right String.append "" l.

(** [sep.join(l)] *)
Definition join (sep : string) (l : list string) : string := String.concat sep l.

(** [sorted(l)] on strings: code-point order is byte order on UTF-8. *)
Definition sorted (l : list string) : list string := merge_sort String.le l.

End PyStr.

Import PyStr.

(** ** Values read from JSON, as [json.load] returns them *)

Inductive pyval : Type :=
| PNone
| PBool (b : bool)
| PInt (z : Z)
| PStr (s : string)
| PList (l : list pyval)
| PDict (kv : list (string * pyval)).

(** Python's truth value of an object. *)
Definition truthy (v : pyval) : bool :=
  match v with
  | PNone => false
  | PBool b => b
  | PInt z => negb (Z.eqb z 0)
  | PStr s => negb (String.eqb s "")
  | PList l => match l with [] => false | _ => true end
  | PDict kv => match kv with [] => false | _ => true end
  end.

(** [a or b] *)
Definition py_or (a b : pyval) : pyval := if truthy a then a else b.

Fixpoint assoc {A : Type} (k : string) (kv : list (string * A)) : option A :=
  match kv with
  | [] => None
  | (k', v) :: r => if String.eqb k k' then Some v else assoc k r
  end.

(** [d.get(k)] and [d.get(k, default)] on a dict. *)
Definition dict_get (kv : list (string * pyval)) (k : string) : pyval :=
  default PNone (assoc k kv).
Definition dict_get_or (kv : list (string * pyval)) (k : string) (d : pyval) : pyval :=
  default d (assoc k kv).

(** ** Exceptions and the state-and-exception monad

    A Python call either returns or raises, and what it wrote to the
    scanner before raising stays written. *)

Inductive exn : Type :=
| AttributeError
| TypeError
| IndexError
| OSError
| GitError (msg : string)
| Exception (msg : string) (context : option exn).

Inductive result (A : Type) : Type :=
| Ok (a : A)
| Raise (e : exn).
Arguments Ok {A} a.
Arguments Raise {A} e.

Definition M (S A : Type) : Type := S -> result A * S.

Definition ret {S A : Type} (a : A) : M S A := fun s => (Ok a, s).
Definition raise {S A : Type} (e : exn) : M S A := fun s => (Raise e, s).
Definition bind {S A B : Type} (m : M S A) (k : A -> M S B) : M S B :=
  fun s => match m s with
           | (Ok a, s') => k a s'
           | (Raise e, s') => (Raise e, s')
           end.
Definition modify {S : Type} (f : S -> S) : M S unit := fun s => (Ok tt, f s).
Definition gets {S A : Type} (f : S -> A) : M S A := fun s => (Ok (f s), s).

(** [try: body  except Exception: pass] *)
Definition try_pass {S : Type} (body : M S unit) : M S unit :=
  fun s => (Ok tt, snd (body s)).

(** [try: body  finally: fin] *)
Definition try_finally {S A : Type} (body : M S A) (fin : M S unit) : M S A :=
  fun s => match body s with
           | (r, s') => match fin s' with
                        | (Ok _, s'') => (r, s'')
                        | (Raise e, s'') => (Raise e, s'')
                        end
           end.

Declare Scope py_scope.
Delimit Scope py_scope with py.
Notation "x <- m ;; k" := (bind m (fun x => k))
  (at level 100, m at next level, right associativity) : py_scope.
Notation "m ;;; k" := (bind m (fun _ => k))
  (at level 100, right associativity) : py_scope.

(** [when c m]: [if c: m] *)
Definition when {S : Type} (c : bool) (m : M S unit) : M S unit :=
  if c then m else ret tt.

(** [for x in l: body x] *)
Fixpoint for_each {S A : Type} (l : list A) (body : A -> M S unit) : M S unit :=
  match l with
  | [] => ret tt
  | x :: r => bind (body x) (fun _ => for_each r body)
  end.

(** ** The scanner's metadata

    [self.metadata] of [DeepScanner.__init__], field by field.  The four
    dicts keyed by language ([dependencies], [entry_points],
    [stats.files]) are records [per_lang]; [items()] lists them in the order
    in which [__init__] writes the keys. *)

Record per_lang (A : Type) : Type := PerLang {
  Python : A;
  Node_js : A;
  Java : A;
  Go : A
}.
Arguments PerLang {A} _ _ _ _.
Arguments Python {A} _.
Arguments Node_js {A} _.
Arguments Java {A} _.
Arguments Go {A} _.

Definition pl_items {A : Type} (d : per_lang A) : list (string * A) :=
  [("Python", Python d); ("Node.js", Node_js d); ("Java", Java d); ("Go", Go d)].
Definition pl_values {A : Type} (d : per_lang A) : list A := map snd (pl_items d).
(** [d.get(k)] *)
Definition pl_get {A : Type} (d : per_lang A) (k : string) : option A := assoc k (pl_items d).
Definition upd_Python {A : Type} (f : A -> A) (d : per_lang A) : per_lang A :=
  PerLang (f (Python d)) (Node_js d) (Java d) (Go d).
Definition upd_Node_js {A : Type} (f : A -> A) (d : per_lang A) : per_lang A :=
  PerLang (Python d) (f (Node_js d)) (Java d) (Go d).
Definition upd_Java {A : Type} (f : A -> A) (d : per_lang A) : per_lang A :=
  PerLang (Python d) (Node_js d) (f (Java d)) (Go d).
Definition upd_Go {A : Type} (f : A -> A) (d : per_lang A) : per_lang A :=
  PerLang (Python d) (Node_js d) (Java d) (f (Go d)).

(** [metadata[tech_stack_details]] *)
Record tech_details : Type := TechDetails {
  frameworks : gset string;
  databases : gset string;
  auth : gset string;
  cache : gset string
}.
Definition upd_frameworks (f : (gset string) -> (gset string)) (m : tech_details) : tech_details :=
  {| frameworks := f (frameworks m); databases := databases m; auth := auth m; cache :=
     cache m |}.
Definition upd_databases (f : (gset string) -> (gset string)) (m : tech_details) : tech_details :=
  {| frameworks := frameworks m; databases := f (databases m); auth := auth m; cache :=
     cache m |}.
Definition upd_auth (f : (gset string) -> (gset string)) (m : tech_details) : tech_details :=
  {| frameworks := frameworks m; databases := databases m; auth := f (auth m); cache :=
     cache m |}.
Definition upd_cache (f : (gset string) -> (gset string)) (m : tech_details) : tech_details :=
  {| frameworks := frameworks m; databases := databases m; auth := auth m; cache := f (cache
     m) |}.

(** [metadata[docker]] *)
Record docker_t : Type := Docker {
  dockerfile : bool;
  compose_yml : bool
}.
Definition upd_dockerfile (f : bool -> bool) (m : docker_t) : docker_t :=
  {| dockerfile := f (dockerfile m); compose_yml := compose_yml m |}.
Definition upd_compose_yml (f : bool -> bool) (m : docker_t) : docker_t :=
  {| dockerfile := dockerfile m; compose_yml := f (compose_yml m) |}.

(** An entry of [metadata[services]]: keys [name], [path], [languages]. *)
Record service : Type := Service {
  svc_name : string;
  svc_path : string;
  svc_languages : list string
}.

(** [metadata[stats]] *)
Record stats_t : Type := Stats {
  files : per_lang nat;
  test_files : nat;
  has_ci : bool;
  linting : gset string
}.
Definition upd_files (f : (per_lang nat) -> (per_lang nat)) (m : stats_t) : stats_t :=
  {| files := f (files m); test_files := test_files m; has_ci := has_ci m; linting :=
     linting m |}.
Definition upd_test_files (f : nat -> nat) (m : stats_t) : stats_t :=
  {| files := files m; test_files := f (test_files m); has_ci := has_ci m; linting :=
     linting m |}.
Definition upd_has_ci (f : bool -> bool) (m : stats_t) : stats_t :=
  {| files := files m; test_files := test_files m; has_ci := f (has_ci m); linting :=
     linting m |}.
Definition upd_linting (f : (gset string) -> (gset string)) (m : stats_t) : stats_t :=
  {| files := files m; test_files := test_files m; has_ci := has_ci m; linting := f (linting
     m) |}.

(** [self.metadata].  The fields that [_parse_package_json] fills with whatever
    the manifest holds ([project_name], [scripts], [description],
    [entry_point], [entry_points]) are Python values; [None] is [PNone]. *)
Record metadata : Type := Metadata {
  project_name : pyval;
  username : string;
  repo_name : string;
  repo_url : string;
  languages : gset string;
  tech_stack : gset string;
  tech_stack_details : tech_details;
  dependencies : per_lang (gset string);
  scripts : pyval;
  structure : string;
  description : pyval;
  entry_point : pyval;
  entry_points : per_lang pyval;
  entry_point_cmd : pyval;
  api_endpoints : list string;
  license : string;
  modules : list string;
  env_vars : gset string;
  tests : list string;
  build_tools : gset string;
  python_requirements_path : option string;
  node_package_json_path : option string;
  go_mod_path : option string;
  docker : docker_t;
  services : list service;
  stats : stats_t
}.

Definition upd_project_name (f : pyval -> pyval) (m : metadata) : metadata :=
  {| project_name := f (project_name m); username := username m; repo_name := repo_name m;
     repo_url := repo_url m; languages := languages m; tech_stack := tech_stack m;
     tech_stack_details := tech_stack_details m; dependencies := dependencies m; scripts :=
     scripts m; structure := structure m; description := description m; entry_point :=
     entry_point m; entry_points := entry_points m; entry_point_cmd := entry_point_cmd m;
     api_endpoints := api_endpoints m; license := license m; modules := modules m; env_vars
     := env_vars m; tests := tests m; build_tools := build_tools m; python_requirements_path
     := python_requirements_path m; node_package_json_path := node_package_json_path m;
     go_mod_path := go_mod_path m; docker := docker m; services := services m; stats :=
     stats m |}.
Definition upd_username (f : string -> string) (m : metadata) : metadata :=
  {| project_name := project_name m; username := f (username m); repo_name := repo_name m;
     repo_url := repo_url m; languages := languages m; tech_stack := tech_stack m;
     tech_stack_details := tech_stack_details m; dependencies := dependencies m; scripts :=
     scripts m; structure := structure m; description := description m; entry_point :=
     entry_point m; entry_points := entry_points m; entry_point_cmd := entry_point_cmd m;
     api_endpoints := api_endpoints m; license := license m; modules := modules m; env_vars
     := env_vars m; tests := tests m; build_tools := build_tools m; python_requirements_path
     := python_requirements_path m; node_package_json_path := node_package_json_path m;
     go_mod_path := go_mod_path m; docker := docker m; services := services m; stats :=
     stats m |}.
Definition upd_repo_name (f : string -> string) (m : metadata) : metadata :=
  {| project_name := project_name m; username := username m; repo_name := f (repo_name m);
     repo_url := repo_url m; languages := languages m; tech_stack := tech_stack m;
     tech_stack_details := tech_stack_details m; dependencies := dependencies m; scripts :=
     scripts m; structure := structure m; description := description m; entry_point :=
     entry_point m; entry_points := entry_points m; entry_point_cmd := entry_point_cmd m;
     api_endpoints := api_endpoints m; license := license m; modules := modules m; env_vars
     := env_vars m; tests := tests m; build_tools := build_tools m; python_requirements_path
     := python_requirements_path m; node_package_json_path := node_package_json_path m;
     go_mod_path := go_mod_path m; docker := docker m; services := services m; stats :=
     stats m |}.
Definition upd_repo_url (f : string -> string) (m : metadata) : metadata :=
  {| project_name := project_name m; username := username m; repo_name := repo_name m;
     repo_url := f (repo_url m); languages := languages m; tech_stack := tech_stack m;
     tech_stack_details := tech_stack_details m; dependencies := dependencies m; scripts :=
     scripts m; structure := structure m; description := description m; entry_point :=
     entry_point m; entry_points := entry_points m; entry_point_cmd := entry_point_cmd m;
     api_endpoints := api_endpoints m; license := license m; modules := modules m; env_vars
     := env_vars m; tests := tests m; build_tools := build_tools m; python_requirements_path
     := python_requirements_path m; node_package_json_path := node_package_json_path m;
     go_mod_path := go_mod_path m; docker := docker m; services := services m; stats :=
     stats m |}.
Definition upd_languages (f : (gset string) -> (gset string)) (m : metadata) : metadata :=
  {| project_name := project_name m; username := username m; repo_name := repo_name m;
     repo_url := repo_url m; languages := f (languages m); tech_stack := tech_stack m;
     tech_stack_details := tech_stack_details m; dependencies := dependencies m; scripts :=
     scripts m; structure := structure m; description := description m; entry_point :=
     entry_point m; entry_points := entry_points m; entry_point_cmd := entry_point_cmd m;
     api_endpoints := api_endpoints m; license := license m; modules := modules m; env_vars
     := env_vars m; tests := tests m; build_tools := build_tools m; python_requirements_path
     := python_requirements_path m; node_package_json_path := node_package_json_path m;
     go_mod_path := go_mod_path m; docker := docker m; services := services m; stats :=
     stats m |}.
Definition upd_tech_stack (f : (gset string) -> (gset string)) (m : metadata) : metadata :=
  {| project_name := project_name m; username := username m; repo_name := repo_name m;
     repo_url := repo_url m; languages := languages m; tech_stack := f (tech_stack m);
     tech_stack_details := tech_stack_details m; dependencies := dependencies m; scripts :=
     scripts m; structure := structure m; description := description m; entry_point :=
     entry_point m; entry_points := entry_points m; entry_point_cmd := entry_point_cmd m;
     api_endpoints := api_endpoints m; license := license m; modules := modules m; env_vars
     := env_vars m; tests := tests m; build_tools := build_tools m; python_requirements_path
     := python_requirements_path m; node_package_json_path := node_package_json_path m;
     go_mod_path := go_mod_path m; docker := docker m; services := services m; stats :=
     stats m |}.
Definition upd_tech_stack_details (f : tech_details -> tech_details) (m : metadata) : metadata :=
  {| project_name := project_name m; username := username m; repo_name := repo_name m;
     repo_url := repo_url m; languages := languages m; tech_stack := tech_stack m;
     tech_stack_details := f (tech_stack_details m); dependencies := dependencies m; scripts
     := scripts m; structure := structure m; description := description m; entry_point :=
     entry_point m; entry_points := entry_points m; entry_point_cmd := entry_point_cmd m;
     api_endpoints := api_endpoints m; license := license m; modules := modules m; env_vars
     := env_vars m; tests := tests m; build_tools := build_tools m; python_requirements_path
     := python_requirements_path m; node_package_json_path := node_package_json_path m;
     go_mod_path := go_mod_path m; docker := docker m; services := services m; stats :=
     stats m |}.
Definition upd_dependencies (f : (per_lang (gset string)) -> (per_lang (gset string))) (m : metadata) : metadata :=
  {| project_name := project_name m; username := username m; repo_name := repo_name m;
     repo_url := repo_url m; languages := languages m; tech_stack := tech_stack m;
     tech_stack_details := tech_stack_details m; dependencies := f (dependencies m); scripts
     := scripts m; structure := structure m; description := description m; entry_point :=
     entry_point m; entry_points := entry_points m; entry_point_cmd := entry_point_cmd m;
     api_endpoints := api_endpoints m; license := license m; modules := modules m; env_vars
     := env_vars m; tests := tests m; build_tools := build_tools m; python_requirements_path
     := python_requirements_path m; node_package_json_path := node_package_json_path m;
     go_mod_path := go_mod_path m; docker := docker m; services := services m; stats :=
     stats m |}.
Definition upd_scripts (f : pyval -> pyval) (m : metadata) : metadata :=
  {| project_name := project_name m; username := username m; repo_name := repo_name m;
     repo_url := repo_url m; languages := languages m; tech_stack := tech_stack m;
     tech_stack_details := tech_stack_details m; dependencies := dependencies m; scripts :=
     f (scripts m); structure := structure m; description := description m; entry_point :=
     entry_point m; entry_points := entry_points m; entry_point_cmd := entry_point_cmd m;
     api_endpoints := api_endpoints m; license := license m; modules := modules m; env_vars
     := env_vars m; tests := tests m; build_tools := build_tools m; python_requirements_path
     := python_requirements_path m; node_package_json_path := node_package_json_path m;
     go_mod_path := go_mod_path m; docker := docker m; services := services m; stats :=
     stats m |}.
Definition upd_structure (f : string -> string) (m : metadata) : metadata :=
  {| project_name := project_name m; username := username m; repo_name := repo_name m;
     repo_url := repo_url m; languages := languages m; tech_stack := tech_stack m;
     tech_stack_details := tech_stack_details m; dependencies := dependencies m; scripts :=
     scripts m; structure := f (structure m); description := description m; entry_point :=
     entry_point m; entry_points := entry_points m; entry_point_cmd := entry_point_cmd m;
     api_endpoints := api_endpoints m; license := license m; modules := modules m; env_vars
     := env_vars m; tests := tests m; build_tools := build_tools m; python_requirements_path
     := python_requirements_path m; node_package_json_path := node_package_json_path m;
     go_mod_path := go_mod_path m; docker := docker m; services := services m; stats :=
     stats m |}.
Definition upd_description (f : pyval -> pyval) (m : metadata) : metadata :=
  {| project_name := project_name m; username := username m; repo_name := repo_name m;
     repo_url := repo_url m; languages := languages m; tech_stack := tech_stack m;
     tech_stack_details := tech_stack_details m; dependencies := dependencies m; scripts :=
     scripts m; structure := structure m; description := f (description m); entry_point :=
     entry_point m; entry_points := entry_points m; entry_point_cmd := entry_point_cmd m;
     api_endpoints := api_endpoints m; license := license m; modules := modules m; env_vars
     := env_vars m; tests := tests m; build_tools := build_tools m; python_requirements_path
     := python_requirements_path m; node_package_json_path := node_package_json_path m;
     go_mod_path := go_mod_path m; docker := docker m; services := services m; stats :=
     stats m |}.
Definition upd_entry_point (f : pyval -> pyval) (m : metadata) : metadata :=
  {| project_name := project_name m; username := username m; repo_name := repo_name m;
     repo_url := repo_url m; languages := languages m; tech_stack := tech_stack m;
     tech_stack_details := tech_stack_details m; dependencies := dependencies m; scripts :=
     scripts m; structure := structure m; description := description m; entry_point := f
     (entry_point m); entry_points := entry_points m; entry_point_cmd := entry_point_cmd m;
     api_endpoints := api_endpoints m; license := license m; modules := modules m; env_vars
     := env_vars m; tests := tests m; build_tools := build_tools m; python_requirements_path
     := python_requirements_path m; node_package_json_path := node_package_json_path m;
     go_mod_path := go_mod_path m; docker := docker m; services := services m; stats :=
     stats m |}.
Definition upd_entry_points (f : (per_lang pyval) -> (per_lang pyval)) (m : metadata) : metadata :=
  {| project_name := project_name m; username := username m; repo_name := repo_name m;
     repo_url := repo_url m; languages := languages m; tech_stack := tech_stack m;
     tech_stack_details := tech_stack_details m; dependencies := dependencies m; scripts :=
     scripts m; structure := structure m; description := description m; entry_point :=
     entry_point m; entry_points := f (entry_points m); entry_point_cmd := entry_point_cmd
     m; api_endpoints := api_endpoints m; license := license m; modules := modules m;
     env_vars := env_vars m; tests := tests m; build_tools := build_tools m;
     python_requirements_path := python_requirements_path m; node_package_json_path :=
     node_package_json_path m; go_mod_path := go_mod_path m; docker := docker m; services :=
     services m; stats := stats m |}.
Definition upd_entry_point_cmd (f : pyval -> pyval) (m : metadata) : metadata :=
  {| project_name := project_name m; username := username m; repo_name := repo_name m;
     repo_url := repo_url m; languages := languages m; tech_stack := tech_stack m;
     tech_stack_details := tech_stack_details m; dependencies := dependencies m; scripts :=
     scripts m; structure := structure m; description := description m; entry_point :=
     entry_point m; entry_points := entry_points m; entry_point_cmd := f (entry_point_cmd
     m); api_endpoints := api_endpoints m; license := license m; modules := modules m;
     env_vars := env_vars m; tests := tests m; build_tools := build_tools m;
     python_requirements_path := python_requirements_path m; node_package_json_path :=
     node_package_json_path m; go_mod_path := go_mod_path m; docker := docker m; services :=
     services m; stats := stats m |}.
Definition upd_api_endpoints (f : (list string) -> (list string)) (m : metadata) : metadata :=
  {| project_name := project_name m; username := username m; repo_name := repo_name m;
     repo_url := repo_url m; languages := languages m; tech_stack := tech_stack m;
     tech_stack_details := tech_stack_details m; dependencies := dependencies m; scripts :=
     scripts m; structure := structure m; description := description m; entry_point :=
     entry_point m; entry_points := entry_points m; entry_point_cmd := entry_point_cmd m;
     api_endpoints := f (api_endpoints m); license := license m; modules := modules m;
     env_vars := env_vars m; tests := tests m; build_tools := build_tools m;
     python_requirements_path := python_requirements_path m; node_package_json_path :=
     node_package_json_path m; go_mod_path := go_mod_path m; docker := docker m; services :=
     services m; stats := stats m |}.
Definition upd_license (f : string -> string) (m : metadata) : metadata :=
  {| project_name := project_name m; username := username m; repo_name := repo_name m;
     repo_url := repo_url m; languages := languages m; tech_stack := tech_stack m;
     tech_stack_details := tech_stack_details m; dependencies := dependencies m; scripts :=
     scripts m; structure := structure m; description := description m; entry_point :=
     entry_point m; entry_points := entry_points m; entry_point_cmd := entry_point_cmd m;
     api_endpoints := api_endpoints m; license := f (license m); modules := modules m;
     env_vars := env_vars m; tests := tests m; build_tools := build_tools m;
     python_requirements_path := python_requirements_path m; node_package_json_path :=
     node_package_json_path m; go_mod_path := go_mod_path m; docker := docker m; services :=
     services m; stats := stats m |}.
Definition upd_modules (f : (list string) -> (list string)) (m : metadata) : metadata :=
  {| project_name := project_name m; username := username m; repo_name := repo_name m;
     repo_url := repo_url m; languages := languages m; tech_stack := tech_stack m;
     tech_stack_details := tech_stack_details m; dependencies := dependencies m; scripts :=
     scripts m; structure := structure m; description := description m; entry_point :=
     entry_point m; entry_points := entry_points m; entry_point_cmd := entry_point_cmd m;
     api_endpoints := api_endpoints m; license := license m; modules := f (modules m);
     env_vars := env_vars m; tests := tests m; build_tools := build_tools m;
     python_requirements_path := python_requirements_path m; node_package_json_path :=
     node_package_json_path m; go_mod_path := go_mod_path m; docker := docker m; services :=
     services m; stats := stats m |}.
Definition upd_env_vars (f : (gset string) -> (gset string)) (m : metadata) : metadata :=
  {| project_name := project_name m; username := username m; repo_name := repo_name m;
     repo_url := repo_url m; languages := languages m; tech_stack := tech_stack m;
     tech_stack_details := tech_stack_details m; dependencies := dependencies m; scripts :=
     scripts m; structure := structure m; description := description m; entry_point :=
     entry_point m; entry_points := entry_points m; entry_point_cmd := entry_point_cmd m;
     api_endpoints := api_endpoints m; license := license m; modules := modules m; env_vars
     := f (env_vars m); tests := tests m; build_tools := build_tools m;
     python_requirements_path := python_requirements_path m; node_package_json_path :=
     node_package_json_path m; go_mod_path := go_mod_path m; docker := docker m; services :=
     services m; stats := stats m |}.
Definition upd_tests (f : (list string) -> (list string)) (m : metadata) : metadata :=
  {| project_name := project_name m; username := username m; repo_name := repo_name m;
     repo_url := repo_url m; languages := languages m; tech_stack := tech_stack m;
     tech_stack_details := tech_stack_details m; dependencies := dependencies m; scripts :=
     scripts m; structure := structure m; description := description m; entry_point :=
     entry_point m; entry_points := entry_points m; entry_point_cmd := entry_point_cmd m;
     api_endpoints := api_endpoints m; license := license m; modules := modules m; env_vars
     := env_vars m; tests := f (tests m); build_tools := build_tools m;
     python_requirements_path := python_requirements_path m; node_package_json_path :=
     node_package_json_path m; go_mod_path := go_mod_path m; docker := docker m; services :=
     services m; stats := stats m |}.
Definition upd_build_tools (f : (gset string) -> (gset string)) (m : metadata) : metadata :=
  {| project_name := project_name m; username := username m; repo_name := repo_name m;
     repo_url := repo_url m; languages := languages m; tech_stack := tech_stack m;
     tech_stack_details := tech_stack_details m; dependencies := dependencies m; scripts :=
     scripts m; structure := structure m; description := description m; entry_point :=
     entry_point m; entry_points := entry_points m; entry_point_cmd := entry_point_cmd m;
     api_endpoints := api_endpoints m; license := license m; modules := modules m; env_vars
     := env_vars m; tests := tests m; build_tools := f (build_tools m);
     python_requirements_path := python_requirements_path m; node_package_json_path :=
     node_package_json_path m; go_mod_path := go_mod_path m; docker := docker m; services :=
     services m; stats := stats m |}.
Definition upd_python_requirements_path (f : (option string) -> (option string)) (m : metadata) : metadata :=
  {| project_name := project_name m; username := username m; repo_name := repo_name m;
     repo_url := repo_url m; languages := languages m; tech_stack := tech_stack m;
     tech_stack_details := tech_stack_details m; dependencies := dependencies m; scripts :=
     scripts m; structure := structure m; description := description m; entry_point :=
     entry_point m; entry_points := entry_points m; entry_point_cmd := entry_point_cmd m;
     api_endpoints := api_endpoints m; license := license m; modules := modules m; env_vars
     := env_vars m; tests := tests m; build_tools := build_tools m; python_requirements_path
     := f (python_requirements_path m); node_package_json_path := node_package_json_path m;
     go_mod_path := go_mod_path m; docker := docker m; services := services m; stats :=
     stats m |}.
Definition upd_node_package_json_path (f : (option string) -> (option string)) (m : metadata) : metadata :=
  {| project_name := project_name m; username := username m; repo_name := repo_name m;
     repo_url := repo_url m; languages := languages m; tech_stack := tech_stack m;
     tech_stack_details := tech_stack_details m; dependencies := dependencies m; scripts :=
     scripts m; structure := structure m; description := description m; entry_point :=
     entry_point m; entry_points := entry_points m; entry_point_cmd := entry_point_cmd m;
     api_endpoints := api_endpoints m; license := license m; modules := modules m; env_vars
     := env_vars m; tests := tests m; build_tools := build_tools m; python_requirements_path
     := python_requirements_path m; node_package_json_path := f (node_package_json_path m);
     go_mod_path := go_mod_path m; docker := docker m; services := services m; stats :=
     stats m |}.
Definition upd_go_mod_path (f : (option string) -> (option string)) (m : metadata) : metadata :=
  {| project_name := project_name m; username := username m; repo_name := repo_name m;
     repo_url := repo_url m; languages := languages m; tech_stack := tech_stack m;
     tech_stack_details := tech_stack_details m; dependencies := dependencies m; scripts :=
     scripts m; structure := structure m; description := description m; entry_point :=
     entry_point m; entry_points := entry_points m; entry_point_cmd := entry_point_cmd m;
     api_endpoints := api_endpoints m; license := license m; modules := modules m; env_vars
     := env_vars m; tests := tests m; build_tools := build_tools m; python_requirements_path
     := python_requirements_path m; node_package_json_path := node_package_json_path m;
     go_mod_path := f (go_mod_path m); docker := docker m; services := services m; stats :=
     stats m |}.
Definition upd_docker (f : docker_t -> docker_t) (m : metadata) : metadata :=
  {| project_name := project_name m; username := username m; repo_name := repo_name m;
     repo_url := repo_url m; languages := languages m; tech_stack := tech_stack m;
     tech_stack_details := tech_stack_details m; dependencies := dependencies m; scripts :=
     scripts m; structure := structure m; description := description m; entry_point :=
     entry_point m; entry_points := entry_points m; entry_point_cmd := entry_point_cmd m;
     api_endpoints := api_endpoints m; license := license m; modules := modules m; env_vars
     := env_vars m; tests := tests m; build_tools := build_tools m; python_requirements_path
     := python_requirements_path m; node_package_json_path := node_package_json_path m;
     go_mod_path := go_mod_path m; docker := f (docker m); services := services m; stats :=
     stats m |}.
Definition upd_services (f : (list service) -> (list service)) (m : metadata) : metadata :=
  {| project_name := project_name m; username := username m; repo_name := repo_name m;
     repo_url := repo_url m; languages := languages m; tech_stack := tech_stack m;
     tech_stack_details := tech_stack_details m; dependencies := dependencies m; scripts :=
     scripts m; structure := structure m; description := description m; entry_point :=
     entry_point m; entry_points := entry_points m; entry_point_cmd := entry_point_cmd m;
     api_endpoints := api_endpoints m; license := license m; modules := modules m; env_vars
     := env_vars m; tests := tests m; build_tools := build_tools m; python_requirements_path
     := python_requirements_path m; node_package_json_path := node_package_json_path m;
     go_mod_path := go_mod_path m; docker := docker m; services := f (services m); stats :=
     stats m |}.
Definition upd_stats (f : stats_t -> stats_t) (m : metadata) : metadata :=
  {| project_name := project_name m; username := username m; repo_name := repo_name m;
     repo_url := repo_url m; languages := languages m; tech_stack := tech_stack m;
     tech_stack_details := tech_stack_details m; dependencies := dependencies m; scripts :=
     scripts m; structure := structure m; description := description m; entry_point :=
     entry_point m; entry_points := entry_points m; entry_point_cmd := entry_point_cmd m;
     api_endpoints := api_endpoints m; license := license m; modules := modules m; env_vars
     := env_vars m; tests := tests m; build_tools := build_tools m; python_requirements_path
     := python_requirements_path m; node_package_json_path := node_package_json_path m;
     go_mod_path := go_mod_path m; docker := docker m; services := services m; stats := f
     (stats m) |}.

(** [self.metadata] as [DeepScanner.__init__] builds it. *)
Definition initial_metadata : metadata :=
  {| project_name := PStr ""; username := "username"; repo_name := "repo";
     repo_url := "<repo_url>"; languages := ∅; tech_stack := ∅;
     tech_stack_details := TechDetails ∅ ∅ ∅ ∅;
     dependencies := PerLang ∅ ∅ ∅ ∅; scripts := PDict []; structure := "";
     description := PStr ""; entry_point := PNone;
     entry_points := PerLang PNone PNone PNone PNone; entry_point_cmd := PNone;
     api_endpoints := []; license := "Unlicensed"; modules := []; env_vars := ∅;
     tests := []; build_tools := ∅; python_requirements_path := None;
     node_package_json_path := None; go_mod_path := None;
     docker := Docker false false; services := [];
     stats := Stats (PerLang 0 0 0 0) 0 false ∅ |}.

(** A value of [self._service_info]. *)
Record service_info : Type := ServiceInfo {
  si_path : string;
  has_package_json : bool;
  has_requirements : bool;
  has_pom : bool;
  has_go_mod : bool
}.

(** The fields of a [DeepScanner] object. *)
Record scanner : Type := Scanner {
  original_path : string;
  path : string;
  custom_context : string;
  is_remote : bool;
  temp_dir : option string;
  _service_info : list (string * service_info);
  meta : metadata
}.

Definition upd_meta (f : metadata -> metadata) (s : scanner) : scanner :=
  {| original_path := original_path s; path := path s; custom_context := custom_context s;
     is_remote := is_remote s; temp_dir := temp_dir s; _service_info := _service_info s;
     meta := f (meta s) |}.
Definition upd_service_info
  (f : list (string * service_info) -> list (string * service_info)) (s : scanner) : scanner :=
  {| original_path := original_path s; path := path s; custom_context := custom_context s;
     is_remote := is_remote s; temp_dir := temp_dir s; _service_info := f (_service_info s);
     meta := meta s |}.
Definition upd_path (f : string -> string) (s : scanner) : scanner :=
  {| original_path := original_path s; path := f (path s); custom_context := custom_context s;
     is_remote := is_remote s; temp_dir := temp_dir s; _service_info := _service_info s;
     meta := meta s |}.
Definition upd_temp_dir (f : option string -> option string) (s : scanner) : scanner :=
  {| original_path := original_path s; path := path s; custom_context := custom_context s;
     is_remote := is_remote s; temp_dir := f (temp_dir s); _service_info := _service_info s;
     meta := meta s |}.

(** [DeepScanner.__init__]: the remote-or-local decision is taken here, from
    the spelling of the path alone. *)
Definition DeepScanner (p : string) (context : string) : scanner :=
  {| original_path := p; path := p; custom_context := context;
     is_remote := startswith p "http" || endswith p ".git";
     temp_dir := None; _service_info := []; meta := initial_metadata |}.

(** ** Configuration *)

Definition STD_LIBS_python : gset string :=
  list_to_set ["os"; "sys"; "re"; "json"; "math"; "datetime"; "time"; "random";
    "subprocess"; "typing"; "collections"; "threading"; "asyncio";
    "logging"; "argparse"; "itertools"; "functools"; "pathlib"; "http";
    "email"; "enum"; "statistics"; "fractions"].

Definition STD_LIBS_node : gset string :=
  list_to_set ["fs"; "path"; "http"; "https"; "os"; "util"; "events"; "crypto";
    "child_process"; "cluster"; "dns"; "net"; "stream"; "querystring";
    "url"; "zlib"; "timers"].

Definition IGNORE_DIRS : gset string :=
  list_to_set [".git"; "node_modules"; "venv"; ".env"; "__pycache__";
    "dist"; "build"; "target"; "vendor"; ".idea"; ".vscode";
    "coverage"; ".next"; "__mocks__"; "assets"; "bin"; "obj"; "out"; ".settings"].

(** [x in s] for a set and for a list of strings. *)
Definition in_set (x : string) (s : gset string) : bool := bool_decide (x ∈ s).
Definition in_list (x : string) (l : list string) : bool := existsb (String.eqb x) l.

(** ** The collaborators *)

(** The regular expressions of the source, by the place that uses them.
    In the comments [Q] stands for the character class of the two quote
    characters, single and double, and [D] for the double quote. *)
Inductive pattern : Type :=
| RePyClass        (* class\s+(\w+) *)
| RePyImport       (* ^(?:from|import)\s+([\w\.]+)   with re.MULTILINE *)
| ReNodeImport     (* (?:require|from)\s*Q([@\w./-]+)Q *)
| ReGoImport       (* D([\w/\.]+)D *)
| ReJavaImport     (* import\s+([\w\.]+); *)
| ReEnvVars        (* process\.env\.(N)|os\.environ\[\s*Q(N)Q\s*\]|os\.environ\.get\(\s*Q(N)Q|os\.getenv\(\s*Q(N)Q
                      with N = [A-Z_][A-Z0-9_]* : four groups *)
| ReFastApi        (* @app\.(get|post|put|delete|patch|options|head)\(\s*Q([^Q]+)Q   with re.IGNORECASE *)
| ReFlaskRoute     (* @app\.route\(\s*Q([^Q]+)Q\s*,\s*methods\s*=\s*\[([^\]]+)\] *)
| ReFlaskMethod    (* Q([A-Z]+)Q *)
| ReDjangoPath     (* path\(\s*Q([^Q]+)Q *)
| ReExpressApp     (* \bapp\.(get|post|put|delete|patch|options|head)\(\s*Q([^Q]+)Q   with re.IGNORECASE *)
| ReExpressRouter. (* \brouter\.(get|post|put|delete|patch|options|head)\(\s*Q([^Q]+)Q   with re.IGNORECASE *)

(** What the Python runtime decides: [re.findall] (a match is the list of
    its groups), the order in which a set of strings is iterated, and
    [str(v)] of a value that is not a [str]. *)
Record pyenv : Type := PyEnv {
  re_findall : pattern -> string -> list (list string);
  set_iter : gset string -> list string;
  py_str : pyval -> string
}.

(** [f"{v}"] *)
Definition fmt (E : pyenv) (v : pyval) : string :=
  match v with
  | PStr s => s
  | _ => py_str E v
  end.

(** A file of the scanned tree, seen through the three ways the scanner
    opens files: [None] stands for the exception the reader raises.  A
    text is what Python hands over in text mode: decoded, and with every
    line ending already a line feed.
    - [read_utf8]: [open(p, encoding=utf-8)] read to the end;
    - [read_json]: [json.load] of that stream;
    - [read_lossy]: [open(p, 'r', errors='ignore', encoding='utf-8').read()]. *)
Record file : Type := File {
  fname : string;
  read_utf8 : option string;
  read_json : option pyval;
  read_lossy : option string
}.

(** A directory entry, in the order in which the directory lists it: a
    file, a directory with its entries, or a directory that [os.walk]
    lists among [dirs] and does not enter (a symbolic link to a
    directory, or a directory that cannot be listed). *)
Inductive node : Type :=
| NFile (f : file)
| NDir (name : string) (entries : list node)
| NLink (name : string).

(** ** [os.path] on POSIX paths *)

(** [os.path.join(a, b)] for a name [b] (no leading separator). *)
Definition os_path_join (a b : string) : string :=
  if String.eqb a "" then b
  else if endswith a "/" then a +:+ b
  else a +:+ "/" +:+ b.

(** [os.path.basename(p)]: what follows the last separator. *)
Definition os_path_basename (p : string) : string := List.last (split p "/") "".

Fixpoint span_to_dot (acc s : string) : option (string * string) :=
  match s with
  | EmptyString => None
  | String c r =>
      if Ascii.eqb c "."%char then Some (acc, r) else span_to_dot (String c acc) r
  end.

Fixpoint has_non_dot (s : string) : bool :=
  match s with
  | EmptyString => false
  | String c r => negb (Ascii.eqb c "."%char) || has_non_dot r
  end.

(** [os.path.splitext(f)[1]] for a file name [f]: from the last dot on,
    unless only dots precede it. *)
Definition splitext_ext (f : string) : string :=
  match span_to_dot "" (String.rev f) with
  | Some (ext, before) => if has_non_dot before then String "."%char ext else ""
  | None => ""
  end.

(** [os.path.normpath(p)] *)
Definition normpath_step (absolute : bool) (acc : list string) (comp : string) : list string :=
  if String.eqb comp "" || String.eqb comp "." then acc
  else if negb (String.eqb comp "..")
          || (negb absolute && match acc with [] => true | _ => false end)
          || (match acc with [] => false | _ => String.eqb (List.last acc "") ".." end)
  then acc ++ [comp]
  else removelast acc.

Definition os_path_normpath (p : string) : string :=
  if String.eqb p "" then "."
  else
    let slashes :=
      if startswith p "/"
      then (if startswith p "//" && negb (startswith p "///") then 2 else 1)
      else 0 in
    let comps := fold_left (normpath_step (negb (slashes =? 0))) (split p "/") [] in
    let q := join "/" comps in
    let q := (match slashes with 0 => "" | 1 => "/" | _ => "//" end) +:+ q in
    if String.eqb q "" then "." else q.

(** [os.path.relpath(os.path.join(root, f), self.path)] inside the walk of
    [self.path]: the names from the walk's start down to [f]. *)
Definition relpath_of (rel : list string) (f : string) : string := join "/" (rel ++ [f]).

(** ** [os.walk], with the in-place filter of [_scan_tree] applied

    A visit is what one iteration of [for root, dirs, files in os.walk(..)]
    sees after [dirs[:] = [d for d in dirs if d not in IGNORE_DIRS]]:
    [v_root] is [root], [v_rel] the names from the start of the walk down
    to [root] ([os.path.relpath(root, root_path)], split at the separator).
    [os.walk] descends only into the names left in [dirs]: the visit list
    of an ignored child is empty.  A link to a directory and a directory
    that cannot be listed are among [dirs] and are not visited
    ([followlinks] is off and no [onerror] is given). *)
Record visit : Type := Visit {
  v_root : string;
  v_rel : list string;
  v_dirs : list string;
  v_files : list file
}.

Definition ignored (d : string) : bool := in_set d IGNORE_DIRS.

Fixpoint kept_dirs (entries : list node) : list string :=
  match entries with
  | [] => []
  | NDir d _ :: r => if ignored d then kept_dirs r else d :: kept_dirs r
  | NLink d :: r => if ignored d then kept_dirs r else d :: kept_dirs r
  | NFile _ :: r => kept_dirs r
  end.

Fixpoint files_of (entries : list node) : list file :=
  match entries with
  | [] => []
  | NFile f :: r => f :: files_of r
  | NDir _ _ :: r => files_of r
  | NLink _ :: r => files_of r
  end.

Fixpoint walk_node (root : string) (rel : list string) (n : node) {struct n} : list visit :=
  match n with
  | NFile _ => []
  | NLink _ => []
  | NDir d entries =>
      if ignored d then []
      else
        let root' := os_path_join root d in
        let rel' := rel ++ [d] in
        Visit root' rel' (kept_dirs entries) (files_of entries)
          :: List.flat_map (walk_node root' rel') entries
  end.

Definition walk (root_path : string) (entries : list node) : list visit :=
  Visit root_path [] (kept_dirs entries) (files_of entries)
    :: List.flat_map (walk_node root_path []) entries.

(** ** Parsing the manifests *)

Local Open Scope py_scope.

(** An exception raised while a file is opened, decoded or parsed
    ([OSError], [UnicodeDecodeError], [json.JSONDecodeError]). *)
Definition ReadError : exn := OSError.

(** [data.get(k)] and [data.get(k, d)]: only a dict has the method. *)
Definition attr_get {S : Type} (data : pyval) (k : string) : M S pyval :=
  match data with
  | PDict kv => ret (dict_get kv k)
  | _ => raise AttributeError
  end.
Definition attr_get_or {S : Type} (data : pyval) (k : string) (d : pyval) : M S pyval :=
  match data with
  | PDict kv => ret (dict_get_or kv k d)
  | _ => raise AttributeError
  end.

(** [list(v.keys())] *)
Definition dict_keys {S : Type} (v : pyval) : M S (list string) :=
  match v with
  | PDict kv => ret (map fst kv)
  | _ => raise AttributeError
  end.

Definition add_all (l : list string) (s : gset string) : gset string := s ∪ list_to_set l.
Definition add_one (x : string) (s : gset string) : gset string := s ∪ {[ x ]}.
Definition append_one {A : Type} (x : A) (l : list A) : list A := l ++ [x].

(** The body of the [try] of [_parse_package_json]. *)
Definition parse_package_json_body (f : file) : M metadata unit :=
  match read_json f with
  | None => raise ReadError
  | Some data =>
      name <- attr_get data "name" ;;
      when (truthy name) (modify (upd_project_name (fun _ => name))) ;;;
      main <- attr_get data "main" ;;
      when (truthy main)
        (ep <- gets (fun m => Node_js (entry_points m)) ;;
         when (negb (truthy ep)) (modify (upd_entry_points (upd_Node_js (fun _ => main)))) ;;;
         e <- gets entry_point ;;
         when (negb (truthy e)) (modify (upd_entry_point (fun _ => main)))) ;;;
      d <- attr_get_or data "dependencies" (PDict []) ;;
      deps <- dict_keys d ;;
      dd <- attr_get_or data "devDependencies" (PDict []) ;;
      devDeps <- dict_keys dd ;;
      modify (upd_dependencies (upd_Node_js (add_all deps))) ;;;
      sc <- attr_get_or data "scripts" (PDict []) ;;
      modify (upd_scripts (fun _ => sc)) ;;;
      desc <- attr_get data "description" ;;
      when (truthy desc) (modify (upd_description (fun _ => desc))) ;;;
      for_each (deps ++ devDeps) (fun d =>
        when (in_list d ["jest"; "mocha"; "chai"; "supertest"])
             (modify (upd_tests (append_one d))))
  end.

Definition _parse_package_json (f : file) : M metadata unit :=
  try_pass (parse_package_json_body f).

(** The lines a text file yields when it is iterated: each keeps its line
    feed, the last may have none. *)
Fixpoint readlines_aux (acc s : string) : list string :=
  match s with
  | EmptyString => if String.eqb acc "" then [] else [acc]
  | String c r =>
      if Ascii.eqb c (ascii_of_nat 10)
      then (acc +:+ nl) :: readlines_aux "" r
      else readlines_aux (acc +:+ String c "") r
  end.
Definition readlines (s : string) : list string := readlines_aux "" s.

(** [line.strip() and not line.strip().startswith('#')] *)
Definition requirement_line (line : string) : bool :=
  negb (String.eqb (strip line) "") && negb (startswith (strip line) "#").

(** [line.split('==')[0].strip()] *)
Definition requirement_name (line : string) : string :=
  strip (hd "" (split line "==")).

(** The list comprehension of [_parse_requirements]. *)
Definition requirement_names (lines : list string) : list string :=
  map requirement_name (List.filter requirement_line lines).

(** The body of the [try] of [_parse_requirements]. *)
Definition parse_requirements_body (f : file) : M metadata unit :=
  match read_utf8 f with
  | None => raise ReadError
  | Some text =>
      let deps := requirement_names (readlines text) in
      modify (upd_dependencies (upd_Python (add_all deps))) ;;;
      for_each deps (fun d =>
        when (in_list d ["pytest"; "unittest"; "nose"; "mock"])
             (modify (upd_tests (append_one d))))
  end.

Definition _parse_requirements (f : file) : M metadata unit :=
  try_pass (parse_requirements_body f).

(** Running a call that cannot raise, for its effect on the state. *)
Definition exec {S : Type} (m : M S unit) (s : S) : S := snd (m s).

(** ** Code analysis *)

Section Scan.

Variable E : pyenv.

(** [re.findall] for a pattern with one group. *)
Definition findall1 (p : pattern) (content : string) : list string :=
  map (hd "") (re_findall E p content).

(** [re.findall] for a pattern with two groups. *)
Definition findall2 (p : pattern) (content : string) : list (string * string) :=
  map (fun g => (nth 0 g "", nth 1 g "")) (re_findall E p content).

(** [if not entry_points[L]: entry_points[L] = fname] and the same for the
    legacy single [entry_point]. *)
Definition note_entry (get : per_lang pyval -> pyval)
    (upd : (pyval -> pyval) -> per_lang pyval -> per_lang pyval)
    (fname : string) (m : metadata) : metadata :=
  let m := if truthy (get (entry_points m)) then m
           else upd_entry_points (upd (fun _ => PStr fname)) m in
  if truthy (entry_point m) then m else upd_entry_point (fun _ => PStr fname) m.

Definition analyze_python (fname content : string) (m : metadata) : metadata :=
  let m := upd_languages (add_one "Python") m in
  let m :=
    if contains ("if __name__ == " +:+ dq +:+ "__main__" +:+ dq +:+ ":") content
       || contains "app.run(" content
    then note_entry Python upd_Python fname m else m in
  let m := upd_modules (fun l => l ++ findall1 RePyClass content) m in
  let roots := map (fun imp => hd "" (split imp ".")) (findall1 RePyImport content) in
  upd_dependencies
    (upd_Python (add_all (List.filter (fun r => negb (in_set r STD_LIBS_python)) roots))) m.

Definition analyze_node (fname content : string) (m : metadata) : metadata :=
  let m := upd_languages (add_one "Node.js") m in
  let m :=
    if contains "app.listen" content || contains "server.listen" content
    then note_entry Node_js upd_Node_js fname m else m in
  let imports := findall1 ReNodeImport content in
  let kept := List.filter (fun imp => negb (startswith imp ".")
                && negb (in_set (hd "" (split imp "/")) STD_LIBS_node)) imports in
  upd_dependencies (upd_Node_js (add_all (map (fun imp => hd "" (split imp "/")) kept))) m.

Definition analyze_go (fname content : string) (m : metadata) : metadata :=
  let m := upd_languages (add_one "Go") m in
  let m := if contains "func main()" content then note_entry Go upd_Go fname m else m in
  let imports := findall1 ReGoImport content in
  upd_dependencies
    (upd_Go (add_all (List.filter (fun imp => contains "." imp || contains "/" imp) imports))) m.

Definition analyze_java (fname content : string) (m : metadata) : metadata :=
  let m := upd_languages (add_one "Java") m in
  (* re.search: the first match of the pattern, if any *)
  let class_match := head (findall1 RePyClass content) in
  let m := match class_match with
           | Some c => upd_modules (append_one c) m
           | None => m
           end in
  let m :=
    if contains "public static void main" content
    then
      let m := note_entry Java upd_Java fname m in
      match class_match with
      | Some c => upd_entry_point_cmd (fun _ => PStr c) m
      | None => m
      end
    else m in
  let imports := findall1 ReJavaImport content in
  upd_dependencies
    (upd_Java (add_all (List.filter
       (fun imp => negb (existsb (startswith imp) ["java.lang"; "java.util"; "java.io"]))
       imports))) m.

Definition _detect_env_vars (content : string) (m : metadata) : metadata :=
  let names := List.filter (fun n => negb (String.eqb n "")) (concat (re_findall E ReEnvVars content)) in
  upd_env_vars (add_all names) m.

Definition method_path (mp : string * string) : string := upper (fst mp) +:+ " " +:+ snd mp.

Definition _detect_api_endpoints (content ext fname : string) (m : metadata) : metadata :=
  let endpoints : list string :=
    if String.eqb ext ".py" then
      map method_path (findall2 ReFastApi content)
      ++ List.flat_map (fun pm : string * string =>
           map (fun meth => upper meth +:+ " " +:+ fst pm) (findall1 ReFlaskMethod (snd pm)))
           (findall2 ReFlaskRoute content)
      ++ (if in_list fname ["urls.py"; "routes.py"]
          then map (fun p => "* " +:+ "/" +:+ strip_chars p "/ ") (findall1 ReDjangoPath content)
          else [])
    else if in_list ext [".js"; ".ts"] then
      map method_path (findall2 ReExpressApp content)
      ++ map method_path (findall2 ReExpressRouter content)
    else [] in
  let fresh := sorted (elements (list_to_set endpoints : gset string)) in
  upd_api_endpoints
    (fun eps => fold_left (fun acc ep => if in_list ep acc then acc else acc ++ [ep]) fresh eps) m.

(** The body of the [try] of [_analyze_code]. *)
Definition analyze_code_body (f : file) (ext : string) : M metadata unit :=
  match read_lossy f with
  | None => raise ReadError
  | Some content =>
      modify (if String.eqb ext ".py" then analyze_python (fname f) content
              else if in_list ext [".js"; ".ts"] then analyze_node (fname f) content
              else if String.eqb ext ".go" then analyze_go (fname f) content
              else if String.eqb ext ".java" then analyze_java (fname f) content
              else fun m => m) ;;;
      modify (_detect_env_vars content) ;;;
      modify (_detect_api_endpoints content ext (fname f))
  end.

Definition _analyze_code (f : file) (ext : string) : M metadata unit :=
  try_pass (analyze_code_body f ext).

(** ** [_scan_tree] *)

Fixpoint repeat_str (s : string) (n : nat) : string :=
  match n with
  | O => ""
  | S k => s +:+ repeat_str s k
  end.

Fixpoint assoc_alter {A : Type} (f : A -> A) (k : string) (l : list (string * A))
  : list (string * A) :=
  match l with
  | [] => []
  | (k', v) :: r => if String.eqb k k' then (k', f v) :: r else (k', v) :: assoc_alter f k r
  end.

Definition has_key {A : Type} (k : string) (l : list (string * A)) : bool :=
  existsb (fun kv => String.eqb k (fst kv)) l.

(** [if top_service: self._service_info[top_service][flag] = True] *)
Definition mark_service (top : option string) (f : service_info -> service_info)
    (s : scanner) : scanner :=
  match top with
  | Some t => upd_service_info (assoc_alter f t) s
  | None => s
  end.

Definition first_path (p : string) (old : option string) : option string :=
  match old with
  | None => Some p
  | Some _ => old
  end.

(** The [if f == 'package.json': .. elif ..] chain of the file loop. *)
Definition scan_manifest (top : option string) (rel : list string) (f : file)
    (s : scanner) : scanner :=
  let name := fname f in
  if String.eqb name "package.json" then
    let s := upd_meta (upd_node_package_json_path (first_path (relpath_of rel name))) s in
    let s := upd_meta (upd_languages (add_one "Node.js")) s in
    let s := mark_service top
               (fun i => ServiceInfo (si_path i) true (has_requirements i) (has_pom i) (has_go_mod i)) s in
    upd_meta (exec (_parse_package_json f)) s
  else if String.eqb name "requirements.txt" then
    let s := upd_meta (upd_python_requirements_path (first_path (relpath_of rel name))) s in
    let s := upd_meta (upd_languages (add_one "Python")) s in
    let s := mark_service top
               (fun i => ServiceInfo (si_path i) (has_package_json i) true (has_pom i) (has_go_mod i)) s in
    upd_meta (exec (_parse_requirements f)) s
  else if String.eqb name "pom.xml" then
    let s := upd_meta (upd_languages (add_one "Java")) s in
    let s := upd_meta (upd_build_tools (add_one "Maven")) s in
    mark_service top
      (fun i => ServiceInfo (si_path i) (has_package_json i) (has_requirements i) true (has_go_mod i)) s
  else if String.eqb name "build.gradle" then
    let s := upd_meta (upd_languages (add_one "Java")) s in
    upd_meta (upd_build_tools (add_one "Gradle")) s
  else if String.eqb name "go.mod" then
    let s := upd_meta (upd_languages (add_one "Go")) s in
    let s := upd_meta (upd_go_mod_path (first_path (relpath_of rel name))) s in
    mark_service top
      (fun i => ServiceInfo (si_path i) (has_package_json i) (has_requirements i) (has_pom i) true) s
  else s.

(** [stats[files][..] += 1] by extension. *)
Definition count_file (ext : string) (c : per_lang nat) : per_lang nat :=
  if String.eqb ext ".py" then upd_Python S c
  else if in_list ext [".js"; ".ts"] then upd_Node_js S c
  else if String.eqb ext ".java" then upd_Java S c
  else if String.eqb ext ".go" then upd_Go S c
  else c.

(** The test-file heuristics. *)
Definition is_test_file (root name ext : string) : bool :=
  if String.eqb ext ".py" then
    startswith name "test_" || endswith name "_test.py" || in_list "tests" (split root "/")
  else if in_list ext [".js"; ".ts"] then
    existsb (endswith name) [".test.js"; ".spec.js"; ".test.ts"; ".spec.ts"]
    || in_list "__tests__" (split root "/")
  else false.

(** The [if ext in [..]] block of the file loop. *)
Definition scan_code (root : string) (f : file) (s : scanner) : scanner :=
  let name := fname f in
  let ext := lower (splitext_ext name) in
  if in_list ext [".py"; ".js"; ".ts"; ".java"; ".go"] then
    let s := upd_meta (upd_stats (upd_files (count_file ext))) s in
    let s := if is_test_file root name ext
             then upd_meta (upd_stats (upd_test_files S)) s else s in
    upd_meta (exec (_analyze_code f ext)) s
  else s.

(** One iteration of [for f in files]. *)
Definition scan_file (root : string) (rel : list string) (top : option string)
    (s : scanner) (f : file) : scanner :=
  let name := fname f in
  let s := if in_list name ["circle.yml"; ".gitlab-ci.yml"; "azure-pipelines.yml";
                            "bitbucket-pipelines.yml"; ".travis.yml"]
           then upd_meta (upd_stats (upd_has_ci (fun _ => true))) s else s in
  let s := if startswith name ".eslintrc"
              || in_list name [".prettierrc"; ".prettierrc.js"; ".prettierrc.json"]
           then upd_meta (upd_stats (upd_linting (add_one "JavaScript/TypeScript"))) s else s in
  let s := if in_list name ["pylintrc"; ".flake8"]
           then upd_meta (upd_stats (upd_linting (add_one "Python"))) s else s in
  let s := if String.eqb name "pyproject.toml"
           then upd_meta (upd_stats (upd_linting (add_one "Python (pyproject)"))) s else s in
  let s := if String.eqb name "Dockerfile"
           then upd_meta (upd_docker (upd_dockerfile (fun _ => true))) s else s in
  let s := if in_list name ["docker-compose.yml"; "docker-compose.yaml"]
           then upd_meta (upd_docker (upd_compose_yml (fun _ => true))) s else s in
  let s := scan_manifest top rel f s in
  scan_code root f s.

Definition TREE_SUFFIXES : list string :=
  [".java"; ".py"; ".js"; ".ts"; ".go"; ".json"; ".xml"; ".md"; ".yml"; ".yaml"].

(** The lines one visit adds to [tree_lines]. *)
Definition tree_lines_of (v : visit) : list string :=
  let level := length (v_rel v) in
  if level <? 4 then
    let indent := repeat_str "‚îÇ   " level in
    let subindent := "‚îú‚îÄ‚îÄ " in
    (if 0 <? level
     then [indent +:+ subindent +:+ os_path_basename (v_root v) +:+ "/"] else [])
    ++ map (fun f => indent +:+ "‚îÇ   " +:+ fname f)
         (List.filter (fun f => existsb (endswith (fname f)) TREE_SUFFIXES) (v_files v))
  else [].

(** One iteration of [for root, dirs, files in os.walk(root_path)]. *)
Definition scan_visit (st : scanner * list string) (v : visit) : scanner * list string :=
  let (s, tree_lines) := st in
  let s := if endswith (v_root v) ".github" && in_list "workflows" (v_dirs v)
           then upd_meta (upd_stats (upd_has_ci (fun _ => true))) s else s in
  let tree_lines := tree_lines ++ tree_lines_of v in
  let top := head (v_rel v) in
  let s := match top with
           | Some t =>
               if has_key t (_service_info s) then s
               else upd_service_info
                      (fun i => i ++ [(t, ServiceInfo t false false false false)]) s
           | None => s
           end in
  (fold_left (scan_file (v_root v) (v_rel v) top) (v_files v) s, tree_lines).

Definition _scan_tree (entries : list node) (s : scanner) : scanner :=
  let (s', tree_lines) := fold_left scan_visit (walk (path s) entries) (s, []) in
  upd_meta (upd_structure (fun _ =>
    esc "```text\n.\n" +:+ join nl tree_lines +:+ esc "\n```")) s'.

(** ** The rest of [scan] *)

(** [_scan_license]: the first directory entry whose upper-cased name
    starts with LICENSE or COPYING decides; what cannot be opened (a
    directory, an unreadable file) leaves the license as it was. *)
Definition entry_name (n : node) : string :=
  match n with
  | NFile f => fname f
  | NDir d _ => d
  | NLink d => d
  end.

Definition is_license_name (n : string) : bool :=
  startswith (upper n) "LICENSE" || startswith (upper n) "COPYING".

Definition license_of (content : string) : string :=
  if contains "MIT" content then "MIT"
  else if contains "APACHE" content then "Apache 2.0"
  else if contains "GNU" content || contains "GPL" content then "GPL"
  else "See LICENSE file".

Definition _scan_license (entries : list node) (m : metadata) : metadata :=
  match List.find (fun n => is_license_name (entry_name n)) entries with
  | Some (NFile f) =>
      match read_lossy f with
      | Some text => upd_license (fun _ => license_of (upper (take_chars 200 text))) m
      | None => m
      end
  | _ => m
  end.

Definition _finalize_services (s : scanner) : scanner :=
  fold_left (fun s (ni : string * service_info) =>
    let info := snd ni in
    let langs := (if has_package_json info then ["Node.js"] else [])
                 ++ (if has_requirements info then ["Python"] else [])
                 ++ (if has_pom info then ["Java"] else [])
                 ++ (if has_go_mod info then ["Go"] else []) in
    upd_meta (upd_services (append_one (Service (fst ni) (si_path info) langs))) s)
    (_service_info s) s.

Definition lowered (s : gset string) : gset string := list_to_set (map lower (elements s)).

Definition add_if (c : bool) (x : string) (s : gset string) : gset string :=
  if c then add_one x s else s.

Definition with_prefix (p : string) (s : gset string) : gset string :=
  list_to_set (map (fun x => p +:+ x) (elements s)).

Definition _infer_tech_stack (m : metadata) : metadata :=
  let py_deps := lowered (Python (dependencies m)) in
  let node_deps := lowered (Node_js (dependencies m)) in
  let java_deps := lowered (Java (dependencies m)) in
  let go_deps := lowered (Go (dependencies m)) in
  let fw (s : gset string) :=
    add_if (in_set "echo" go_deps) "Echo"
    (add_if (in_set "gin" go_deps) "Gin"
    (add_if (existsb (contains "spring") (elements java_deps)) "Spring/Spring Boot"
    (add_if (in_set "koa" node_deps) "Koa"
    (add_if (in_set "nest" node_deps || in_set "nestjs" node_deps) "NestJS"
    (add_if (in_set "nuxt" node_deps || in_set "nuxt.js" node_deps) "Nuxt.js"
    (add_if (in_set "next" node_deps || in_set "next.js" node_deps) "Next.js"
    (add_if (in_set "express" node_deps) "Express"
    (add_if (in_set "fastapi" py_deps) "FastAPI"
    (add_if (in_set "flask" py_deps) "Flask"
    (add_if (in_set "django" py_deps) "Django" s)))))))))) in
  let db (s : gset string) :=
    add_if (in_set "redis" node_deps || in_set "ioredis" node_deps) "Redis"
    (add_if (in_set "mysql2" node_deps) "MySQL"
    (add_if (in_set "pg" node_deps || in_set "pg-promise" node_deps) "PostgreSQL"
    (add_if (in_set "mongoose" node_deps) "MongoDB"
    (add_if (in_set "sqlalchemy" py_deps) "SQL (SQLAlchemy)"
    (add_if (in_set "pymongo" py_deps || in_set "motor" py_deps) "MongoDB"
    (add_if (in_set "mysqlclient" py_deps || in_set "pymysql" py_deps) "MySQL"
    (add_if (in_set "psycopg2" py_deps || in_set "psycopg2-binary" py_deps) "PostgreSQL"
       s))))))) in
  let au (s : gset string) :=
    add_if (in_set "djangorestframework-simplejwt" py_deps) "DRF + JWT"
    (add_if (in_set "django-allauth" py_deps) "Django Allauth"
    (add_if (in_set "passport" node_deps) "Passport.js"
    (add_if (in_set "jsonwebtoken" node_deps || in_set "jwt" py_deps) "JWT" s))) in
  let ca (s : gset string) :=
    add_if (in_set "redis" node_deps || in_set "ioredis" node_deps || in_set "redis" py_deps)
      "Redis" s in
  let m := upd_tech_stack_details
             (fun d => TechDetails (fw (frameworks d)) (db (databases d))
                                   (au (auth d)) (ca (cache d))) m in
  let d := tech_stack_details m in
  upd_tech_stack (fun t =>
    t ∪ with_prefix "Framework: " (frameworks d) ∪ with_prefix "Database: " (databases d)
      ∪ with_prefix "Auth: " (auth d) ∪ with_prefix "Cache: " (cache d)) m.

(** [name.replace(..)]: only a [str] has the method. *)
Definition str_of {S : Type} (v : pyval) : M S string :=
  match v with
  | PStr s => ret s
  | _ => raise AttributeError
  end.

Definition project_kind (name : string) : string :=
  if contains "Api" name then "RESTful API"
  else if contains "Web" name || contains "Ui" name then "Web Application"
  else if contains "Lib" name || contains "Sdk" name then "Library"
  else if contains "Management" name || contains "System" name then "Management System"
  else "Software Solution".

Definition _generate_smart_description : M metadata string :=
  m <- gets (fun m => m) ;;
  pn <- str_of (project_name m) ;;
  let name := title (replace (replace pn "-" " ") "_" " ") in
  let desc := "**" +:+ name +:+ "** is a " +:+ project_kind name in
  let desc := match sorted (elements (languages m)) with
              | l :: _ => desc +:+ " built with **" +:+ l +:+ "**"
              | [] => desc
              end in
  let desc := match sorted (elements (frameworks (tech_stack_details m))) with
              | fw :: _ => desc +:+ ", leveraging **" +:+ fw +:+ "** for the architecture"
              | [] => desc
              end in
  let desc := match sorted (elements (databases (tech_stack_details m))) with
              | db :: _ => desc +:+ " and **" +:+ db +:+ "** for data storage"
              | [] => desc
              end in
  ret (desc +:+ ".").

(** What [self.path] names on disk when [scan] runs. *)
Inductive target : Type :=
| Directory (entries : list node)
| NotADirectory.

Definition lift_meta {A : Type} (c : M metadata A) : M scanner A :=
  fun s => match c (meta s) with
           | (r, m') => (r, upd_meta (fun _ => m') s)
           end.

(** [scan]: [os.listdir] of [_scan_license] raises when [self.path] is not
    a directory that can be listed. *)
Definition scan (t : target) : M scanner metadata :=
  match t with
  | NotADirectory => raise OSError
  | Directory entries =>
      modify (upd_meta (_scan_license entries)) ;;;
      modify (_scan_tree entries) ;;;
      modify _finalize_services ;;;
      modify (upd_meta _infer_tech_stack) ;;;
      d <- gets (fun s => description (meta s)) ;;
      when (negb (truthy d))
        (desc <- lift_meta _generate_smart_description ;;
         modify (upd_meta (upd_description (fun _ => PStr desc)))) ;;;
      gets meta
  end.

(** ** Diagrams *)

(** [x in l] for a list of strings and a list of Python values. *)
Definition pyval_eq_str (v : pyval) (s : string) : bool :=
  match v with
  | PStr t => String.eqb t s
  | _ => false
  end.

Definition DB_DEPS : list string := ["mongoose"; "mongodb"; "pg"; "mysql"; "mysql2"; "sequelize"].
Definition CACHE_DEPS : list string := ["redis"; "ioredis"].

(** The class diagram of scenario A. *)
Definition chart_classes (m : metadata) : string :=
  let entry := py_or (entry_point_cmd m) (py_or (entry_point m) (PStr "Main")) in
  let entry := match entry with
               | PStr e => if endswith e ".py" || endswith e ".java"
                           then PStr (hd "" (split e ".")) else entry
               | _ => entry
               end in
  esc "    " +:+ fmt E entry +:+ esc " --> Logic_Layer\n"
  +:+ cat
        (map (fun mod_ => esc "    Logic_Layer --> " +:+ mod_ +:+ nl)
             (List.filter (fun mod_ => negb (pyval_eq_str entry mod_)) (firstn 6 (modules m)))).

Definition chart_dep_line (backend dep : string) : string :=
  if in_list dep DB_DEPS
  then "    " +:+ backend +:+ " --> " +:+ dep +:+ "[(" +:+ dep +:+ " DB)]" +:+ nl
  else if in_list dep CACHE_DEPS
  then "    " +:+ backend +:+ " --> " +:+ dep +:+ "((" +:+ dep +:+ " Cache))" +:+ nl
  else "".

(** The component diagram of scenario B. *)
Definition chart_components (m : metadata) : string :=
  let backend := fmt E (py_or (entry_point m) (PStr "Server")) in
  esc "    User[User] --> UI[Client]\n"
  +:+ "    UI --> " +:+ backend +:+ nl
  +:+ cat
        (map (chart_dep_line backend)
             (set_iter E (Node_js (dependencies m) ∪ Python (dependencies m)))).

(** 1. Component Architecture (Graph) *)
Definition architecture_chart (m : metadata) : string :=
  esc "```mermaid\ngraph TD\n"
  +:+ (if (in_set "Java" (languages m) || in_set "Python" (languages m))
          && match modules m with [] => false | _ => true end
       then chart_classes m else chart_components m)
  +:+ esc "```\n\n".

Definition FLOW_DB_DEPS : list string :=
  ["mongoose"; "mongodb"; "sqlalchemy"; "pymongo"; "mysql"; "mysql2"; "pg"; "psycopg2";
   "psycopg2-binary"].

Definition has_db (m : metadata) : bool :=
  existsb (contains "Database") (elements (tech_stack m))
  || existsb (fun deps : gset string => existsb (fun d => in_list d FLOW_DB_DEPS) (elements deps))
       (pl_values (dependencies m)).

(** 2. Application Flow (Sequence) *)
Definition application_flow (m : metadata) : string :=
  esc "```mermaid\nsequenceDiagram\n    participant User\n    participant System\n"
  +:+ (if has_db m then esc "    participant DB as Database\n" else "")
  +:+ esc "    User->>System: Request\n"
  +:+ esc "    System->>System: Process Logic\n"
  +:+ (if has_db m then esc "    System->>DB: Query Data\n    DB-->>System: Return Data\n" else "")
  +:+ esc "    System-->>User: Response\n```".

Definition generate_diagrams (m : metadata) : string :=
  esc "### Component Architecture\n" +:+ architecture_chart m
  +:+ esc "### Application Flow\n" +:+ application_flow m.

(** ** Helper section generators *)

(** The truth value of a set and of a list. *)
Definition set_truthy (s : gset string) : bool :=
  match elements s with [] => false | _ => true end.
Definition list_truthy {A : Type} (l : list A) : bool :=
  match l with [] => false | _ => true end.

Definition _has_tech_stack_details (m : metadata) : bool :=
  let d := tech_stack_details m in
  set_truthy (frameworks d) || set_truthy (databases d)
  || set_truthy (auth d) || set_truthy (cache d).

Definition sorted_set (s : gset string) : list string := sorted (elements s).

Definition _generate_tech_stack_list (m : metadata) : string :=
  let d := tech_stack_details m in
  let lines :=
    (if set_truthy (frameworks d)
     then ["- **Frameworks:** " +:+ join ", " (sorted_set (frameworks d))] else [])
    ++ (if set_truthy (databases d)
        then ["- **Databases:** " +:+ join ", " (sorted_set (databases d))] else [])
    ++ (if set_truthy (auth d)
        then ["- **Auth:** " +:+ join ", " (sorted_set (auth d))] else [])
    ++ (if set_truthy (cache d)
        then ["- **Cache:** " +:+ join ", " (sorted_set (cache d))] else []) in
  match lines with
  | [] => "Languages: " +:+ join ", " (sorted_set (languages m)) +:+ nl
  | _ => join nl lines +:+ nl
  end.

Definition _generate_env_section (m : metadata) : string :=
  let envs := sorted_set (env_vars m) in
  match envs with
  | [] => ""
  | _ =>
      esc "## üîê Environment Variables\n\n"
      +:+ esc "Configure the following environment variables (e.g. in a `.env` file):\n\n"
      +:+ esc "```bash\n"
      +:+ cat (map (fun v => v +:+ esc "=\n") envs)
      +:+ esc "```\n\n"
  end.

Definition _generate_api_section (m : metadata) : string :=
  match api_endpoints m with
  | [] => ""
  | eps =>
      esc "## üì° API Endpoints (Auto-detected)\n\n"
      +:+ cat (map (fun ep => "- `" +:+ ep +:+ esc "`\n") eps)
      +:+ esc "\n> Note: This list is auto-generated and may be incomplete. Please review and update.\n\n"
  end.

Definition _generate_docker_section (m : metadata) : string :=
  let d := docker m in
  if negb (dockerfile d || compose_yml d) then ""
  else
    esc "## üê≥ Docker\n\n"
    +:+ (if dockerfile d
         then esc "Build and run using Docker:\n\n```bash\ndocker build -t my-app .\ndocker run -p 8000:8000 my-app\n```\n\n"
         else "")
    +:+ (if compose_yml d
         then esc "Or using Docker Compose:\n\n```bash\ndocker-compose up --build\n```\n\n"
         else "").

Definition service_le (a b : service) : Prop := String.le (svc_name a) (svc_name b).

Definition _generate_services_section (m : metadata) : string :=
  match services m with
  | [] => ""
  | svcs =>
      esc "## üß© Services / Packages (Detected)\n\n"
      +:+ cat
            (map (fun s =>
               let langs := match svc_languages s with
                            | [] => "Unknown"
                            | l => join ", " l
                            end in
               "### `" +:+ svc_name s +:+ esc "/`\n"
               +:+ "- Path: `" +:+ svc_path s +:+ esc "`\n"
               +:+ "- Languages: " +:+ langs +:+ esc "\n\n")
               (merge_sort service_le svcs))
  end.

Definition _generate_health_section (m : metadata) : string :=
  let st := stats m in
  let total_files := foldr plus 0 (pl_values (files st)) in
  esc "## üìä Project Health Snapshot\n\n"
  +:+ "- **Code Files (approx):** " +:+ pretty total_files +:+ nl
  +:+ cat
        (map (fun lc : string * nat =>
                match snd lc with
                | O => ""
                | c => "  - " +:+ fst lc +:+ ": " +:+ pretty c +:+ nl
                end) (pl_items (files st)))
  +:+ "- **Test Files (approx):** " +:+ pretty (test_files st) +:+ nl
  +:+ "- **CI/CD Config:** " +:+ (if has_ci st then "Yes" else "Not detected") +:+ nl
  +:+ (if set_truthy (linting st)
       then "- **Linting/Formatting:** " +:+ join ", " (sorted_set (linting st)) +:+ nl
       else esc "- **Linting/Formatting:** Not detected\n")
  +:+ nl.

(** [any(m[dependencies].values())] *)
Definition any_dependencies (m : metadata) : bool :=
  existsb set_truthy (pl_values (dependencies m)).

Definition _generate_next_steps_section (m : metadata) : string :=
  let st := stats m in
  let suggestions :=
    (if in_list (license m) ["Unlicensed"; "See LICENSE file"]
     then ["Add a proper LICENSE file (e.g., MIT, Apache 2.0)."] else [])
    ++ (if test_files st =? 0
        then ["Add automated tests (unit/integration) for critical parts."] else [])
    ++ (if negb (has_ci st)
        then ["Set up a CI pipeline (GitHub Actions, GitLab CI, etc.)."] else [])
    ++ (if negb (set_truthy (env_vars m))
        then ["Document required environment variables in the README or `.env.example`."] else [])
    ++ (if negb (any_dependencies m)
        then ["Add or document dependency management files (`requirements.txt`, `package.json`, etc.)."]
        else []) in
  let suggestions :=
    match suggestions with
    | [] => ["Project looks good! Consider improving documentation and adding more examples."]
    | _ => suggestions
    end in
  esc "## üîÆ Suggested Next Steps (Auto-generated)\n\n"
  +:+ cat (map (fun s => "- [ ] " +:+ s +:+ nl) suggestions)
  +:+ nl.

(** ** Installation and usage *)

Definition rbind {A B : Type} (r : result A) (k : A -> result B) : result B :=
  match r with
  | Ok a => k a
  | Raise e => Raise e
  end.

(** [x in v] for a string [x]: key of a dict, element of a list, substring
    of a [str]; any other value is not iterable. *)
Definition str_in_pyval (x : string) (v : pyval) : result bool :=
  match v with
  | PDict kv => Ok (has_key x kv)
  | PList l => Ok (existsb (fun e => pyval_eq_str e x) l)
  | PStr s => Ok (contains x s)
  | _ => Raise TypeError
  end.

(** [v.replace(old, new)]: only a [str] has the method. *)
Definition pyval_replace (v : pyval) (old new : string) : result string :=
  match v with
  | PStr s => Ok (replace s old new)
  | _ => Raise AttributeError
  end.

Definition opt_truthy (o : option string) : bool :=
  match o with
  | Some p => negb (String.eqb p "")
  | None => false
  end.

Definition _generate_strict_install (m : metadata) (langs : list string) : string :=
  esc "1. **Clone the repository**\n"
  +:+ esc "   ```bash\n"
  +:+ "   git clone " +:+ repo_url m +:+ nl
  +:+ "   cd " +:+ fmt E (project_name m) +:+ nl
  +:+ esc "   ```\n"
  +:+ (if in_list "Node.js" langs
       then esc "2. **Node.js Setup**\n   ```bash\n   npm install\n   ```\n" else "")
  +:+ (if in_list "Python" langs
       then esc "2. **Python Setup**\n   ```bash\n   python -m venv venv\n   source venv/bin/activate\n"
            +:+ (if opt_truthy (python_requirements_path m)
                 then "   pip install -r " +:+ default "" (python_requirements_path m) +:+ nl
                 else if set_truthy (Python (dependencies m))
                 then "   pip install "
                      +:+ join " " (firstn 5 (set_iter E (Python (dependencies m)))) +:+ nl
                 else "")
            +:+ esc "   ```\n"
       else "")
  +:+ (if in_list "Java" langs
       then esc "2. **Java Setup**\n"
            +:+ (if in_set "Maven" (build_tools m)
                 then esc "   ```bash\n   mvn clean install\n   ```\n"
                 else if in_set "Gradle" (build_tools m)
                 then esc "   ```bash\n   ./gradlew build\n   ```\n"
                 else esc "   ```bash\n   # Raw Java Project: Compile manually\n   javac *.java\n   ```\n")
       else "")
  +:+ (if in_list "Go" langs
       then esc "2. **Go Setup**\n   ```bash\n   go mod tidy\n   ```\n" else "").

Definition usage_node (m : metadata) : result string :=
  rbind (str_in_pyval "start" (scripts m)) (fun has_start =>
    Ok (esc "**Node.js:**\n"
        +:+ (if has_start then esc "```bash\nnpm start\n```\n"
             else
               let entry := py_or (Node_js (entry_points m))
                              (py_or (entry_point m) (PStr "index.js")) in
               esc "```bash\nnode " +:+ fmt E entry +:+ esc "\n```\n"))).

Definition usage_python (m : metadata) : result string :=
  let entry := py_or (Python (entry_points m)) (py_or (entry_point m) (PStr "main.py")) in
  if in_set "fastapi" (Python (dependencies m))
  then rbind (pyval_replace entry ".py" "") (fun e =>
         Ok (esc "**Python:**\n" +:+ esc "```bash\nuvicorn " +:+ e +:+ esc ":app --reload\n```\n"))
  else Ok (esc "**Python:**\n" +:+ esc "```bash\npython " +:+ fmt E entry +:+ esc "\n```\n").

Definition usage_java (m : metadata) : string :=
  esc "**Java:**\n"
  +:+ (if in_set "Maven" (build_tools m) then esc "```bash\nmvn spring-boot:run\n```\n"
       else if in_set "Gradle" (build_tools m) then esc "```bash\n./gradlew bootRun\n```\n"
       else
         let entry_cls := entry_point_cmd m in
         let entry_file := py_or (Java (entry_points m)) (entry_point m) in
         if truthy entry_cls && truthy entry_file
         then esc "```bash\njavac " +:+ fmt E entry_file +:+ esc "\njava "
              +:+ fmt E entry_cls +:+ esc "\n```\n"
         else esc "```bash\njavac Main.java\njava Main\n```\n").

Definition usage_go (m : metadata) : string :=
  let entry := py_or (Go (entry_points m)) (py_or (entry_point m) (PStr "main.go")) in
  esc "**Go:**\n" +:+ esc "```bash\ngo run " +:+ fmt E entry +:+ esc "\n```\n".

Definition _generate_strict_usage (m : metadata) (langs : list string) : result string :=
  rbind (if in_list "Node.js" langs then usage_node m else Ok "") (fun n =>
  rbind (if in_list "Python" langs then usage_python m else Ok "") (fun p =>
    Ok (n +:+ p
        +:+ (if in_list "Java" langs then usage_java m else "")
        +:+ (if in_list "Go" langs then usage_go m else "")))).

(** ** README generation *)

Definition language_badges (langs : list string) : string :=
  cat
    (map (fun l => "![" +:+ l +:+ "](https://img.shields.io/badge/Language-" +:+ l +:+ "-blue) ")
         langs).

Definition minimal_markdown (s : scanner) (langs : list string) (usage : string) : string :=
  let m := meta s in
  "# " +:+ fmt E (project_name m) +:+ esc "\n\n"
  +:+ language_badges langs
  +:+ esc "\n\n"
  +:+ esc "## üìù Description\n" +:+ fmt E (description m) +:+ esc "\n\n"
  +:+ (if negb (String.eqb (custom_context s) "")
       then "> **Context:** " +:+ custom_context s +:+ esc "\n\n" else "")
  +:+ esc "## üõ† Tech Stack\n"
  +:+ (if _has_tech_stack_details m then _generate_tech_stack_list m +:+ nl
       else join ", " langs +:+ esc "\n\n")
  +:+ esc "## ‚öôÔ∏è Installation\n" +:+ _generate_strict_install m langs
  +:+ esc "## üöÄ Usage\n" +:+ usage
  +:+ (if set_truthy (env_vars m) then _generate_env_section m else "")
  +:+ (if list_truthy (api_endpoints m) then _generate_api_section m else "")
  +:+ esc "## üìÑ License\n" +:+ license m.

Definition repo_badges (m : metadata) (langs : list string) : string :=
  (if negb (String.eqb (username m) "username")
   then
     let user := username m in
     let repo := repo_name m in
     "[![Stars](https://img.shields.io/github/stars/" +:+ user +:+ "/" +:+ repo
     +:+ "?style=social)]" +:+ "(https://github.com/" +:+ user +:+ "/" +:+ repo +:+ "/stargazers) "
     +:+ "[![Forks](https://img.shields.io/github/forks/" +:+ user +:+ "/" +:+ repo
     +:+ "?style=social)]" +:+ "(https://github.com/" +:+ user +:+ "/" +:+ repo
     +:+ esc "/network/members)\n"
   else language_badges langs)
  +:+ "![License](https://img.shields.io/badge/License-" +:+ replace (license m) " " "_"
  +:+ esc "-green)\n\n".

Definition has_tests (m : metadata) : bool :=
  list_truthy (tests m) || (0 <? test_files (stats m)).

Definition has_docker (m : metadata) : bool :=
  dockerfile (docker m) || compose_yml (docker m).

Definition table_of_contents (m : metadata) : string :=
  esc "## üìë Table of Contents\n"
  +:+ (if _has_tech_stack_details m then esc "- [Tech Stack](#-tech-stack)\n" else "")
  +:+ esc "- [Architecture](#-architecture)\n"
  +:+ esc "- [Project Structure](#-project-structure)\n"
  +:+ esc "- [Installation](#-installation)\n"
  +:+ esc "- [Usage](#-usage)\n"
  +:+ (if list_truthy (api_endpoints m) then esc "- [API Endpoints](#-api-endpoints)\n" else "")
  +:+ (if set_truthy (env_vars m)
       then esc "- [Environment Variables](#-environment-variables)\n" else "")
  +:+ (if has_docker m then esc "- [Docker](#-docker)\n" else "")
  +:+ (if list_truthy (services m) then esc "- [Services](#-services)\n" else "")
  +:+ (if truthy (scripts m) then esc "- [Scripts](#-scripts)\n" else "")
  +:+ (if any_dependencies m then esc "- [Dependencies](#-dependencies)\n" else "")
  +:+ (if has_tests m then esc "- [Testing](#-testing)\n" else "")
  +:+ esc "- [Project Health](#-project-health)\n"
  +:+ esc "- [Contributing](#-contributing)\n"
  +:+ esc "- [Next Steps](#-next-steps)\n"
  +:+ esc "- [License](#-license)\n\n".

(** The scripts table: [m[scripts].items()] needs a dict. *)
Definition scripts_section (m : metadata) : result string :=
  if truthy (scripts m) then
    match scripts m with
    | PDict kv =>
        Ok (esc "## üìú Scripts\n| Command | Description |\n|---|---|\n"
            +:+ cat
                  (map (fun kv : string * pyval =>
                          "| `npm run " +:+ fst kv +:+ "` | " +:+ fmt E (snd kv) +:+ esc " |\n") kv)
            +:+ nl)
    | _ => Raise AttributeError
    end
  else Ok "".

Definition dependencies_section (m : metadata) (langs : list string) : string :=
  if any_dependencies m then
    esc "## üì¶ Dependencies\n"
    +:+ cat
          (map (fun l =>
             match pl_get (dependencies m) l with
             | Some deps =>
                 if set_truthy deps
                 then "**" +:+ l +:+ esc "**\n"
                      +:+ cat
                            (map (fun d => "- `" +:+ d +:+ esc "`\n") (firstn 12 (sorted_set deps)))
                      +:+ nl
                 else ""
             | None => ""
             end) langs)
  else "".

Definition testing_section (m : metadata) (langs : list string) : string :=
  if has_tests m then
    esc "## üß™ Testing\n"
    +:+ (if list_truthy (tests m)
         then esc "Detected testing tools/frameworks:\n\n"
              +:+ join ", " (sorted_set (list_to_set (tests m))) +:+ esc "\n\n"
         else "")
    +:+ (if 0 <? test_files (stats m)
         then "- Approx. **" +:+ pretty (test_files (stats m)) +:+ esc "** test files detected\n\n"
         else "")
    +:+ esc "To run the tests, execute (adjust as needed):\n```bash\n"
    +:+ (if existsb (fun t => in_list t (tests m)) ["jest"; "mocha"] then esc "npm test\n"
         else if in_list "pytest" (tests m) then esc "pytest\n"
         else if in_list "Node.js" langs then esc "npm test\n"
         else if in_list "Python" langs then esc "pytest\n"
         else esc "# Run your test command here\n")
    +:+ esc "```\n\n"
  else "".

Definition contributing_section : string :=
  esc "## ü§ù Contributing\n1. Fork the Project\n2. Create your Feature Branch\n3. Commit your Changes\n4. Push to the Branch\n5. Open a Pull Request\n\n".

Definition detailed_markdown (s : scanner) (langs : list string) (usage scripts_table : string)
  : string :=
  let m := meta s in
  "# " +:+ fmt E (project_name m) +:+ esc "\n\n"
  +:+ repo_badges m langs
  +:+ esc "## üìù Description\n" +:+ fmt E (description m) +:+ esc "\n\n"
  +:+ (if negb (String.eqb (custom_context s) "")
       then "> **Developer Note:** " +:+ custom_context s +:+ esc "\n\n" else "")
  +:+ esc "## üì∏ Screenshot\n![App Screenshot](https://via.placeholder.com/800x400?text=Application+Screenshot)\n\n"
  +:+ table_of_contents m
  +:+ (if _has_tech_stack_details m
       then esc "## üõ† Tech Stack\n" +:+ _generate_tech_stack_list m +:+ nl else "")
  +:+ esc "## üèó Architecture\n" +:+ generate_diagrams m +:+ esc "\n\n"
  +:+ esc "## üìÇ Project Structure\n" +:+ structure m +:+ esc "\n\n"
  +:+ esc "## ‚öôÔ∏è Installation\n" +:+ _generate_strict_install m langs
  +:+ esc "## üöÄ Usage\n" +:+ usage
  +:+ (if list_truthy (api_endpoints m) then _generate_api_section m else "")
  +:+ (if set_truthy (env_vars m) then _generate_env_section m else "")
  +:+ (if has_docker m then _generate_docker_section m else "")
  +:+ (if list_truthy (services m) then _generate_services_section m else "")
  +:+ scripts_table
  +:+ dependencies_section m langs
  +:+ testing_section m langs
  +:+ _generate_health_section m
  +:+ contributing_section
  +:+ _generate_next_steps_section m
  +:+ esc "## üìÑ License\nThis project is licensed under the **" +:+ license m +:+ "**.".

(** [build_markdown(template)]: any template other than [Minimal] is the
    detailed one. *)
Definition build_markdown (s : scanner) (template : string) : result string :=
  let m := meta s in
  let langs := sorted_set (languages m) in
  if String.eqb template "Minimal" then
    rbind (_generate_strict_usage m langs) (fun usage =>
      Ok (minimal_markdown s langs usage))
  else
    rbind (_generate_strict_usage m langs) (fun usage =>
    rbind (scripts_section m) (fun scripts_table =>
      Ok (detailed_markdown s langs usage scripts_table))).

End Scan.

(** ** The host: file system, temporary directories and git *)

(** What a path names: a directory with its entries, or a regular file. *)
Inductive fsobj : Type :=
| FsDir (entries : list node)
| FsFile.

(** The paths that exist. *)
Abbreviation filesystem := (gmap string fsobj).

Inductive clone_result : Type :=
| Cloned (entries : list node)               (* the working tree git wrote *)
| CloneFailed (msg : string) (partial : list node).  (* str(e), and what was left behind *)

Record host : Type := Host {
  mkdtemp : string;                      (* the directory tempfile.mkdtemp() creates *)
  clone_from : string -> clone_result;   (* git.Repo.clone_from(url, temp_dir) *)
  origin_url : string -> option string;  (* git.Repo(path).remotes.origin.url, None when it raises *)
  rmtree_removes : bool                  (* whether shutil.rmtree gets the directory removed *)
}.

(** The calls made to the host, oldest first. *)
Inductive host_call : Type :=
| CallMkdtemp (d : string)
| CallClone (url d : string)
| CallRmtree (d : string).

Record state : Type := State {
  sc : scanner;
  fs : filesystem;
  calls : list host_call
}.

Definition upd_sc (f : scanner -> scanner) (st : state) : state :=
  State (f (sc st)) (fs st) (calls st).
Definition upd_fs (f : filesystem -> filesystem) (st : state) : state :=
  State (sc st) (f (fs st)) (calls st).
Definition called (c : host_call) (st : state) : state :=
  State (sc st) (fs st) (calls st ++ [c]).

Definition lift_sc {A : Type} (c : M scanner A) : M state A :=
  fun st => match c (sc st) with
            | (r, s') => (r, State s' (fs st) (calls st))
            end.

(** [str(e)] *)
Definition exn_str (e : exn) : string :=
  match e with
  | GitError msg => msg
  | Exception msg _ => msg
  | _ => ""
  end.

(** [l[-1]] and [l[-2]] *)
Definition last_item (l : list string) : string := List.last l "".
Definition item_before_last {S : Type} (l : list string) : M S string :=
  match rev l with
  | _ :: x :: _ => ret x
  | _ => raise IndexError
  end.

Section Pipeline.

Variable E : pyenv.
Variable H : host.

(** [os.path.exists(p)] *)
Definition path_exists (p : string) : M state bool :=
  gets (fun st => bool_decide (is_Some (fs st !! p))).

(** [cleanup]: removal is attempted once the temporary directory exists;
    an error of [shutil.rmtree] is swallowed. *)
Definition cleanup : M state unit :=
  t <- gets (fun st => temp_dir (sc st)) ;;
  match t with
  | Some d =>
      if String.eqb d "" then ret tt
      else
        e <- path_exists d ;;
        when e (try_pass (modify (called (CallRmtree d)) ;;;
                          if rmtree_removes H then modify (upd_fs (delete d))
                          else raise OSError))
  | None => ret tt
  end.

(** The [try] of the remote branch of [setup_path]. *)
Definition clone_body (d : string) : M state unit :=
  url <- gets (fun st => original_path (sc st)) ;;
  modify (called (CallClone url d)) ;;;
  match clone_from H url with
  | CloneFailed msg partial =>
      modify (upd_fs (<[ d := FsDir partial ]>)) ;;;
      raise (GitError msg)
  | Cloned entries =>
      modify (upd_fs (<[ d := FsDir entries ]>)) ;;;
      modify (upd_sc (upd_path (fun _ => d))) ;;;
      modify (upd_sc (upd_meta (upd_repo_url (fun _ => url)))) ;;;
      let parts := split (rstrip_chars url "/") "/" in
      when (2 <=? length parts)
        (let repo := replace (last_item parts) ".git" "" in
         modify (upd_sc (upd_meta (upd_repo_name (fun _ => repo)))) ;;;
         u <- item_before_last parts ;;
         modify (upd_sc (upd_meta (upd_username (fun _ => u)))) ;;;
         modify (upd_sc (upd_meta (upd_project_name (fun _ => PStr repo)))))
  end.

(** The [try] of the local branch of [setup_path]. *)
Definition origin_body : M state unit :=
  p <- gets (fun st => path (sc st)) ;;
  match origin_url H p with
  | None => raise (GitError "")
  | Some url =>
      modify (upd_sc (upd_meta (upd_repo_url (fun _ => url)))) ;;;
      let parts := split (replace (rstrip_chars url "/") ".git" "") "/" in
      modify (upd_sc (upd_meta (upd_repo_name (fun _ => last_item parts)))) ;;;
      u <- item_before_last parts ;;
      modify (upd_sc (upd_meta (upd_username (fun _ => last_item (split u ":")))))
  end.

Definition setup_path : M state string :=
  remote <- gets (fun st => is_remote (sc st)) ;;
  (if remote then
     let d := mkdtemp H in
     modify (called (CallMkdtemp d)) ;;;
     modify (upd_fs (<[ d := FsDir [] ]>)) ;;;
     modify (upd_sc (upd_temp_dir (fun _ => Some d))) ;;;
     (fun st =>
        match clone_body d st with
        | (Ok _, st') => (Ok tt, st')
        | (Raise e, st') =>
            match cleanup st' with
            | (Ok _, st'') =>
                (Raise (Exception ("Clone failed: " +:+ exn_str e) (Some e)), st'')
            | (Raise e', st'') => (Raise e', st'')
            end
        end)
   else
     p <- gets (fun st => path (sc st)) ;;
     e <- path_exists p ;;
     (if e then ret tt else raise (Exception "Local path does not exist." None)) ;;;
     modify (upd_sc (upd_meta (upd_project_name
       (fun _ => PStr (os_path_basename (os_path_normpath p)))))) ;;;
     try_pass origin_body) ;;;
  gets (fun st => path (sc st)).

Definition target_at (st : state) : target :=
  match fs st !! path (sc st) with
  | Some (FsDir entries) => Directory entries
  | _ => NotADirectory
  end.

Definition run_scan : M state metadata :=
  fun st => lift_sc (scan E (target_at st)) st.

Definition run_build (template : string) : M state string :=
  fun st => (build_markdown E (sc st) template, st).

(** [generate_readme(path, template, context)], started on the file system
    [fs0]: the result, and the state it leaves. *)
Definition generate_readme (p template context : string) (fs0 : filesystem)
  : result string * state :=
  let st0 := State (DeepScanner p context) fs0 [] in
  try_finally (setup_path ;;; run_scan ;;; run_build template) cleanup st0.

End Pipeline.

(** ** A concrete environment

    [str(v)] for the values JSON yields ([repr] of a string is shown for
    strings without quotes or escapes); [re.findall] on a text in which
    no pattern of the source matches; a set iterated in the order of
    [elements]. *)

Fixpoint py_repr (v : pyval) : string :=
  match v with
  | PNone => "None"
  | PBool true => "True"
  | PBool false => "False"
  | PInt z => pretty z
  | PStr s => "'" +:+ s +:+ "'"
  | PList l => "[" +:+ join ", " (map py_repr l) +:+ "]"
  | PDict kv =>
      "{" +:+ join ", " (map (fun e => match e with
                                       | (k, x) => "'" +:+ k +:+ "': " +:+ py_repr x
                                       end) kv) +:+ "}"
  end.

Definition plain_env : pyenv :=
  {| re_findall := fun _ _ => []; set_iter := elements; py_str := py_repr |}.

(** A file that holds the text [s]. *)
Definition text_file (name s : string) : file :=
  {| fname := name; read_utf8 := Some s; read_json := None; read_lossy := Some s |}.

(** A file whose text [s] is a JSON document that [json.load] reads as [v]. *)
Definition json_file (name s : string) (v : pyval) : file :=
  {| fname := name; read_utf8 := Some s; read_json := Some v; read_lossy := Some s |}.

(** A file that cannot be opened. *)
Definition unreadable_file (name : string) : file :=
  {| fname := name; read_utf8 := None; read_json := None; read_lossy := None |}.

(** * Properties *)

(** ** Running the monad *)

Ltac run :=
  repeat (progress (cbv beta iota delta
    [bind ret raise modify gets when try_pass try_finally lift_sc lift_meta exec fst snd]
    || cbn [fst snd sc fs calls upd_sc upd_fs called original_path path custom_context
            is_remote temp_dir _service_info meta upd_meta upd_path upd_temp_dir
            upd_service_info])).

Lemma try_pass_ok {S : Type} (body : M S unit) (s : S) : fst (try_pass body s) = Ok tt.
Proof. reflexivity. Qed.

Lemma exec_try_pass_ok {S : Type} (body : M S unit) (s s' : S) :
  body s = (Ok tt, s') -> exec (try_pass body) s = s'.
Proof. intros Hb. unfold exec, try_pass. simpl. now rewrite Hb. Qed.

Lemma exec_try_pass_raise {S : Type} (body : M S unit) (s s' : S) (e : exn) :
  body s = (Raise e, s') -> exec (try_pass body) s = s'.
Proof. intros Hb. unfold exec, try_pass. simpl. now rewrite Hb. Qed.

(** ** Remote or local: [__init__] and [setup_path] *)

Lemma item_before_last_ok {S : Type} (l : list string) (s : S) :
  2 <= length l -> exists x, item_before_last l s = (Ok x, s).
Proof.
  intros Hl. unfold item_before_last. rewrite <- length_rev in Hl.
  destruct (rev l) as [| a [| b r]]; simpl in Hl; try lia. now exists b.
Qed.

Section SetupPath.

Variable H : host.

Lemma setup_path_remote (s : scanner) (fs0 : filesystem) (log : list host_call) :
  is_remote s = true ->
  match clone_from H (original_path s) with
  | Cloned entries =>
      exists st, setup_path H (State s fs0 log) = (Ok (mkdtemp H), st)
                 /\ path (sc st) = mkdtemp H
                 /\ temp_dir (sc st) = Some (mkdtemp H)
                 /\ fs st = <[ mkdtemp H := FsDir entries ]> (<[ mkdtemp H := FsDir [] ]> fs0)
                 /\ calls st = log ++ [CallMkdtemp (mkdtemp H);
                                       CallClone (original_path s) (mkdtemp H)]
  | CloneFailed msg partial =>
      exists st, setup_path H (State s fs0 log)
                 = (Raise (Exception ("Clone failed: " +:+ msg) (Some (GitError msg))), st)
                 /\ temp_dir (sc st) = Some (mkdtemp H)
                 /\ In (CallClone (original_path s) (mkdtemp H)) (calls st)
  end.
Proof.
  intros Hr. unfold setup_path, clone_body. run. rewrite Hr. run.
  destruct (clone_from H (original_path s)) as [entries | msg partial]; run.
  - destruct (2 <=? length _) eqn:Hlen; run.
    + apply Nat.leb_le in Hlen.
      match goal with
      | |- context [item_before_last ?l ?st] =>
          destruct (item_before_last_ok l st Hlen) as [x Hx]; rewrite Hx
      end.
      run. eexists; repeat split; try reflexivity. cbn. rewrite <- app_assoc. reflexivity.
    + eexists; repeat split; try reflexivity. cbn. rewrite <- app_assoc. reflexivity.
  - unfold cleanup, path_exists. run.
    destruct (String.eqb (mkdtemp H) ""); run.
    + eexists; repeat split; try reflexivity. cbn. apply in_or_app. right. now left.
    + destruct (bool_decide _); run; destruct (rmtree_removes H); run;
        eexists; repeat split; try reflexivity; cbn;
        rewrite ?in_app_iff; cbn; tauto.
Qed.


Lemma setup_path_local_exists (s : scanner) (fs0 : filesystem) (log : list host_call) (o : fsobj) :
  is_remote s = false -> fs0 !! path s = Some o ->
  exists st, setup_path H (State s fs0 log) = (Ok (path s), st)
             /\ path (sc st) = path s /\ fs st = fs0 /\ calls st = log
             /\ temp_dir (sc st) = temp_dir s
             /\ project_name (meta (sc st)) = PStr (os_path_basename (os_path_normpath (path s))).
Proof.
  intros Hr Hp. unfold setup_path, path_exists, origin_body. run. rewrite Hr. run. rewrite Hp.
  rewrite bool_decide_eq_true_2 by eauto. run.
  destruct (origin_url H (path s)) as [url |]; run.
  - unfold item_before_last; destruct (@rev string _) as [| a [| b l]]; run; eexists; repeat split; reflexivity.
  - eexists; repeat split; reflexivity.
Qed.

End SetupPath.


Definition clone_host : host :=
  {| mkdtemp := "/tmp/tmpclone"; clone_from := fun _ => Cloned [];
     origin_url := fun _ => None; rmtree_removes := true |}.


(** ** What [scan] leaves alone

    [scan] writes [self.metadata] and [self._service_info] only. *)

Definition frame (s : scanner) : string * string * string * bool * option string :=
  (original_path s, path s, custom_context s, is_remote s, temp_dir s).

Lemma frame_upd_meta (f : metadata -> metadata) (s : scanner) : frame (upd_meta f s) = frame s.
Proof. reflexivity. Qed.

Lemma frame_upd_service_info f (s : scanner) : frame (upd_service_info f s) = frame s.
Proof. reflexivity. Qed.

Lemma frame_mark_service top f (s : scanner) : frame (mark_service top f s) = frame s.
Proof. destruct top; reflexivity. Qed.

Ltac split_ifs :=
  repeat match goal with
         | |- context [if ?c then _ else _] => destruct c
         end.

Lemma frame_scan_manifest top rel f (s : scanner) : frame (scan_manifest top rel f s) = frame s.
Proof.
  unfold scan_manifest. split_ifs;
    rewrite ?frame_upd_meta, ?frame_mark_service, ?frame_upd_meta; reflexivity.
Qed.

Lemma frame_scan_code E root f (s : scanner) : frame (scan_code E root f s) = frame s.
Proof. unfold scan_code. split_ifs; reflexivity. Qed.

Lemma frame_scan_file E root rel top (s : scanner) f :
  frame (scan_file E root rel top s f) = frame s.
Proof.
  unfold scan_file. rewrite frame_scan_code, frame_scan_manifest.
  split_ifs; reflexivity.
Qed.

Lemma frame_fold_scan_file E root rel top (fl : list file) (s : scanner) :
  frame (fold_left (scan_file E root rel top) fl s) = frame s.
Proof.
  revert s. induction fl as [| f fl IH]; intros s; [reflexivity |].
  cbn [fold_left]. now rewrite IH, frame_scan_file.
Qed.

Lemma frame_scan_visit E (st : scanner * list string) (v : visit) :
  frame (fst (scan_visit E st v)) = frame (fst st).
Proof.
  destruct st as [s tl]. unfold scan_visit. cbn [fst]. rewrite frame_fold_scan_file.
  destruct (head (v_rel v)); split_ifs; reflexivity.
Qed.

Lemma frame_fold_scan_visit E (vs : list visit) (st : scanner * list string) :
  frame (fst (fold_left (scan_visit E) vs st)) = frame (fst st).
Proof.
  revert st. induction vs as [| v vs IH]; intros st; [reflexivity |].
  cbn [fold_left]. now rewrite IH, frame_scan_visit.
Qed.

Lemma frame_scan_tree E entries (s : scanner) : frame (_scan_tree E entries s) = frame s.
Proof.
  unfold _scan_tree.
  pose proof (frame_fold_scan_visit E (walk (path s) entries) (s, [])) as Hf.
  destruct (fold_left _ _ _) as [s' tl]. cbn [fst] in Hf. now rewrite frame_upd_meta.
Qed.

Lemma frame_finalize_services (s : scanner) : frame (_finalize_services s) = frame s.
Proof.
  unfold _finalize_services. generalize (_service_info s) as l. intros l.
  revert s. induction l as [| x l IH]; intros s; [reflexivity |].
  cbn [fold_left]. now rewrite IH.
Qed.

Lemma frame_scan E (t : target) (s : scanner) : frame (snd (scan E t s)) = frame s.
Proof.
  destruct t as [entries |]; [| reflexivity].
  unfold scan. run.
  set (s1 := upd_meta _infer_tech_stack _).
  assert (Hs1 : frame s1 = frame s).
  { unfold s1. now rewrite frame_upd_meta, frame_finalize_services, frame_scan_tree. }
  destruct (negb (truthy _)); run; [| exact Hs1].
  unfold _generate_smart_description, str_of. run.
  destruct (project_name _); run; exact Hs1.
Qed.

(** ** Cleanup of the clone directory *)

Section Cleanup.

Variable E : pyenv.
Variable H : host.






End Cleanup.


Section Removal.

Variable E : pyenv.
Variable H : host.




End Removal.

Definition failing_host : host :=
  {| mkdtemp := "/tmp/tmpclone";
     clone_from := fun _ => CloneFailed "repository not found" [NDir ".git" []];
     origin_url := fun _ => None; rmtree_removes := true |}.





(** ** The deny-list of [_scan_tree] *)

(** The tree without its ignored directories, at every depth. *)
Fixpoint prune_node (n : node) : list node :=
  match n with
  | NFile f => [NFile f]
  | NDir d entries =>
      if ignored d then [] else [NDir d (List.flat_map prune_node entries)]
  | NLink d => if ignored d then [] else [NLink d]
  end.

Definition prune (entries : list node) : list node := List.flat_map prune_node entries.

Fixpoint node_rect' (P : node -> Prop)
    (Hf : forall f, P (NFile f))
    (Hd : forall d entries, Forall P entries -> P (NDir d entries))
    (Hl : forall d, P (NLink d)) (n : node) : P n :=
  match n with
  | NFile f => Hf f
  | NDir d entries =>
      Hd d entries
        ((fix go (l : list node) : Forall P l :=
            match l with
            | [] => List.Forall_nil P
            | x :: r => List.Forall_cons P x r (node_rect' P Hf Hd Hl x) (go r)
            end) entries)
  | NLink d => Hl d
  end.

Lemma kept_dirs_prune (entries : list node) : kept_dirs (prune entries) = kept_dirs entries.
Proof.
  induction entries as [| [f | d sub | d] r IH]; [reflexivity | exact IH | |];
    unfold prune in *; cbn [List.flat_map prune_node kept_dirs];
    destruct (ignored d) eqn:Hd; cbn [app kept_dirs]; rewrite ?Hd, IH; reflexivity.
Qed.

Lemma files_of_prune (entries : list node) : files_of (prune entries) = files_of entries.
Proof.
  induction entries as [| [f | d sub | d] r IH]; [reflexivity | | |].
  - unfold prune in *. cbn. now rewrite IH.
  - unfold prune in *. cbn [List.flat_map prune_node files_of].
    destruct (ignored d); cbn [app files_of]; exact IH.
  - unfold prune in *. cbn [List.flat_map prune_node files_of].
    destruct (ignored d); cbn [app files_of]; exact IH.
Qed.

Lemma walk_node_prune (n : node) :
  forall root rel,
    List.flat_map (walk_node root rel) (prune_node n) = walk_node root rel n.
Proof.
  induction n as [f | d entries IH | d] using node_rect'; intros root rel.
  - reflexivity.
  - cbn [prune_node walk_node]. destruct (ignored d) eqn:Hd; [reflexivity |].
    cbn [List.flat_map walk_node]. rewrite Hd, app_nil_r.
    fold (prune entries). rewrite kept_dirs_prune, files_of_prune. f_equal.
    unfold prune. induction IH as [| x r Hx _ IHr]; [reflexivity |].
    cbn [List.flat_map]. rewrite flat_map_app, Hx, IHr. reflexivity.
  - cbn [prune_node]. destruct (ignored d); reflexivity.
Qed.

Lemma walk_prune (root : string) (entries : list node) :
  walk root (prune entries) = walk root entries.
Proof.
  unfold walk. rewrite kept_dirs_prune, files_of_prune. f_equal.
  unfold prune. induction entries as [| x r IH]; [reflexivity |].
  cbn [List.flat_map]. now rewrite flat_map_app, walk_node_prune, IH.
Qed.

Lemma ignored_not_license (d : string) : ignored d = true -> is_license_name d = false.
Proof.
  unfold ignored, in_set, IGNORE_DIRS. intros Hd.
  apply bool_decide_eq_true_1 in Hd. apply elem_of_list_to_set in Hd.
  repeat (apply elem_of_cons in Hd as [-> | Hd]; [reflexivity |]).
  now apply elem_of_nil in Hd.
Qed.

Lemma scan_license_prune (entries : list node) (m : metadata) :
  _scan_license (prune entries) m = _scan_license entries m.
Proof.
  unfold _scan_license, prune.
  induction entries as [| [f | d sub | d] r IH]; [reflexivity | | |].
  - cbn [List.flat_map prune_node app find entry_name].
    destruct (is_license_name (fname f)); [reflexivity | exact IH].
  - cbn [List.flat_map prune_node find entry_name].
    destruct (ignored d) eqn:Hd.
    + rewrite (ignored_not_license d Hd). exact IH.
    + cbn [app find entry_name]. destruct (is_license_name d); [reflexivity | exact IH].
  - cbn [List.flat_map prune_node find entry_name].
    destruct (ignored d) eqn:Hd.
    + rewrite (ignored_not_license d Hd). exact IH.
    + cbn [app find entry_name]. destruct (is_license_name d); [reflexivity | exact IH].
Qed.

Lemma scan_tree_prune E (entries : list node) (s : scanner) :
  _scan_tree E (prune entries) s = _scan_tree E entries s.
Proof. unfold _scan_tree. now rewrite walk_prune. Qed.

(** No visit of the walk is at or below an ignored directory, and none
    lists one among the directories still to be visited. *)
Definition visit_allowed (v : visit) : Prop :=
  Forall (fun d => ignored d = false) (v_rel v)
  /\ Forall (fun d => ignored d = false) (v_dirs v).

Lemma kept_dirs_allowed (entries : list node) :
  Forall (fun d => ignored d = false) (kept_dirs entries).
Proof.
  induction entries as [| [f | d sub | d] r IH]; cbn [kept_dirs]; auto;
    destruct (ignored d) eqn:Hd; auto.
Qed.

Lemma walk_node_allowed (n : node) :
  forall root rel, Forall (fun d => ignored d = false) rel ->
    Forall visit_allowed (walk_node root rel n).
Proof.
  induction n as [f | d entries IH | d] using node_rect'; intros root rel Hrel;
    cbn [walk_node].
  - constructor.
  - destruct (ignored d) eqn:Hd; [constructor |].
    assert (Hrel' : Forall (fun d => ignored d = false) (rel ++ [d])).
    { apply Forall_app. split; [exact Hrel | now constructor]. }
    constructor.
    + split; [exact Hrel' | apply kept_dirs_allowed].
    + induction IH as [| x r Hx _ IHr]; cbn [List.flat_map]; [constructor |].
      apply Forall_app. split; [now apply Hx | exact IHr].
  - constructor.
Qed.

Lemma walk_allowed (root : string) (entries : list node) :
  Forall visit_allowed (walk root entries).
Proof.
  unfold walk. constructor.
  - split; [constructor | apply kept_dirs_allowed].
  - induction entries as [| x r IH]; cbn [List.flat_map]; [constructor |].
    apply Forall_app. split; [| exact IH]. apply walk_node_allowed. constructor.
Qed.

(** C5.  The traversal never visits an ignored directory nor anything
    below one, and what such a directory holds has no influence on the
    result of the scan: scanning the tree and scanning the tree with every
    ignored directory removed give the same metadata, the same scanner
    state and the same outcome. *)
Theorem C5_ignored_directories_invisible (E : pyenv) (entries : list node) (s : scanner) :
  Forall visit_allowed (walk (path s) entries)
  /\ walk (path s) (prune entries) = walk (path s) entries
  /\ scan E (Directory (prune entries)) s = scan E (Directory entries) s.
Proof.
  split; [apply walk_allowed |]. split; [apply walk_prune |].
  assert (Hl : upd_meta (_scan_license (prune entries)) s
               = upd_meta (_scan_license entries) s).
  { unfold upd_meta. now rewrite scan_license_prune. }
  unfold scan. run. now rewrite Hl, !scan_tree_prune.
Qed.

(** ** Facts about the string operations *)

Lemma append_nil_l (s : string) : "" +:+ s = s.
Proof. reflexivity. Qed.

Lemma append_cons (c : ascii) (a b : string) : String c a +:+ b = String c (a +:+ b).
Proof. reflexivity. Qed.

Lemma append_nil_r (s : string) : s +:+ "" = s.
Proof. induction s as [| c s IH]; [reflexivity |]. now rewrite append_cons, IH. Qed.

Lemma append_assoc (a b c : string) : (a +:+ b) +:+ c = a +:+ (b +:+ c).
Proof. induction a as [| x a IH]; [reflexivity |]. now rewrite !append_cons, IH. Qed.

Fixpoint str_forall (p : ascii -> bool) (s : string) : bool :=
  match s with
  | EmptyString => true
  | String c r => p c && str_forall p r
  end.

Lemma str_forall_app (p : ascii -> bool) (a b : string) :
  str_forall p (a +:+ b) = str_forall p a && str_forall p b.
Proof.
  induction a as [| c a IH]; [reflexivity |].
  rewrite append_cons. cbn [str_forall]. now rewrite IH, andb_assoc.
Qed.

Lemma prefix_cons_ne (a b : ascii) (p s : string) :
  a <> b -> String.prefix (String a p) (String b s) = false.
Proof. intros Hne. cbn. destruct (ascii_dec a b); [contradiction | reflexivity]. Qed.

Lemma prefix_app (p s : string) : String.prefix p (p +:+ s) = true.
Proof.
  induction p as [| c p IH]; [now destruct s |].
  rewrite append_cons. cbn [String.prefix].
  destruct (ascii_dec c c); [exact IH | contradiction].
Qed.

Lemma contains_here (h b : string) : contains h (h +:+ b) = true.
Proof.
  pose proof (prefix_app h b) as Hp.
  destruct (h +:+ b); cbn [contains]; now rewrite Hp.
Qed.

Lemma contains_app_r (h a b : string) : contains h b = true -> contains h (a +:+ b) = true.
Proof.
  intros Hb. induction a as [| c a IH]; [exact Hb |].
  rewrite append_cons. cbn [contains]. rewrite IH. apply orb_true_r.
Qed.

Lemma contains_mid (h a b : string) : contains h (a +:+ h +:+ b) = true.
Proof. apply contains_app_r, contains_here. Qed.





Lemma lstrip_by_keep (p : ascii -> bool) (c : ascii) (r : string) :
  p c = false -> lstrip_by p (String c r) = String c r.
Proof. intros Hc. cbn. now rewrite Hc. Qed.

Lemma rstrip_by_cons (p : ascii -> bool) (c : ascii) (r : string) :
  p c = false -> exists r', rstrip_by p (String c r) = String c r'.
Proof.
  intros Hc. cbn. destruct (rstrip_by p r); [rewrite Hc |]; eauto.
Qed.

Lemma rstrip_by_all (p : ascii -> bool) (w : string) :
  str_forall p w = true -> rstrip_by p w = "".
Proof.
  induction w as [| c w IH]; [reflexivity |]. cbn. intros Hw.
  apply andb_true_iff in Hw as [Hc Hw]. now rewrite IH, Hc.
Qed.

Lemma rstrip_by_app (p : ascii -> bool) (n w : string) :
  str_forall (fun c => negb (p c)) n = true -> str_forall p w = true ->
  rstrip_by p (n +:+ w) = n.
Proof.
  intros Hn Hw. induction n as [| c n IH].
  - rewrite append_nil_l. now apply rstrip_by_all.
  - cbn in Hn. apply andb_true_iff in Hn as [Hc Hn]. apply negb_true_iff in Hc.
    rewrite append_cons. cbn [rstrip_by]. rewrite IH by exact Hn.
    destruct n; [now rewrite Hc | reflexivity].
Qed.

(** ** Requirements manifests *)

(** What the specification asks of a line-oriented manifest, in its own
    words: split each non-comment, non-blank line on the first recognised
    comparison operator; the name is the left side, the version the right
    side when there is one; every entry is a runtime dependency. *)
Module Spec.







End Spec.



Lemma str_forall_impl (p q : ascii -> bool) (s : string) :
  (forall c, p c = true -> q c = true) -> str_forall p s = true -> str_forall q s = true.
Proof.
  intros Hpq. induction s as [| c s IH]; [reflexivity |]. cbn. intros Hs.
  apply andb_true_iff in Hs as [Hc Hs]. now rewrite (Hpq c Hc), IH.
Qed.












Lemma upd_tests_id (m : metadata) : upd_tests (fun t => t ++ []) m = m.
Proof. destruct m. unfold upd_tests. cbn. now rewrite app_nil_r. Qed.

Lemma upd_tests_twice (x : string) (l : list string) (m : metadata) :
  upd_tests (fun t => t ++ l) (upd_tests (append_one x) m) = upd_tests (fun t => t ++ x :: l) m.
Proof.
  destruct m. unfold upd_tests, append_one. cbn. f_equal. now rewrite <- app_assoc.
Qed.

(** The loop that records the test tools among the names just read. *)
Lemma for_each_tests (c : string -> bool) (l : list string) (m : metadata) :
  for_each l (fun d => when (c d) (modify (upd_tests (append_one d)))) m
  = (Ok tt, upd_tests (fun t => t ++ List.filter c l) m).
Proof.
  revert m. induction l as [| x l IH]; intros m.
  - cbn. now rewrite upd_tests_id.
  - cbn [for_each List.filter]. unfold bind, when. destruct (c x).
    + unfold modify at 1. rewrite IH. now rewrite upd_tests_twice.
    + unfold ret at 1. apply IH.
Qed.

Lemma parse_requirements_effect (f : file) (text : string) (m : metadata) :
  read_utf8 f = Some text ->
  let deps := requirement_names (readlines text) in
  _parse_requirements f m
  = (Ok tt,
     upd_tests (fun t => t ++ List.filter (fun d => in_list d ["pytest"; "unittest"; "nose"; "mock"]) deps)
       (upd_dependencies (upd_Python (add_all deps)) m)).
Proof.
  intros Hf deps. unfold _parse_requirements, try_pass, parse_requirements_body.
  rewrite Hf. unfold bind, modify. fold deps. now rewrite for_each_tests.
Qed.





(** ** Package manifests *)

(** What [_parse_package_json] writes before it reads the dependencies:
    the project name and the entry points. *)
Definition note_name_and_main (kv : list (string * pyval)) (m : metadata) : metadata :=
  let name := dict_get kv "name" in
  let main := dict_get kv "main" in
  let m := if truthy name then upd_project_name (fun _ => name) m else m in
  if truthy main then
    let m := if negb (truthy (Node_js (entry_points m)))
             then upd_entry_points (upd_Node_js (fun _ => main)) m else m in
    if negb (truthy (entry_point m)) then upd_entry_point (fun _ => main) m else m
  else m.

Lemma bind_step {S A B : Type} (c : M S A) (k : A -> M S B) (s s' : S) (a : A) :
  c s = (Ok a, s') -> bind c k s = k a s'.
Proof. intros Hc. unfold bind. now rewrite Hc. Qed.

Lemma when_modify {S : Type} (c : bool) (f : S -> S) (s : S) :
  when c (modify f) s = (Ok tt, if c then f s else s).
Proof. now destruct c. Qed.

Lemma note_main_block (main : pyval) (m : metadata) :
  (when (truthy main)
     (ep <- gets (fun m => Node_js (entry_points m)) ;;
      when (negb (truthy ep)) (modify (upd_entry_points (upd_Node_js (fun _ => main)))) ;;;
      e <- gets entry_point ;;
      when (negb (truthy e)) (modify (upd_entry_point (fun _ => main)))))%py m
  = (Ok tt,
     if truthy main then
       let m := if negb (truthy (Node_js (entry_points m)))
                then upd_entry_points (upd_Node_js (fun _ => main)) m else m in
       if negb (truthy (entry_point m)) then upd_entry_point (fun _ => main) m else m
     else m).
Proof.
  unfold when at 1. destruct (truthy main); [| reflexivity].
  erewrite bind_step by reflexivity.
  erewrite bind_step by apply when_modify.
  erewrite bind_step by reflexivity.
  apply when_modify.
Qed.

Lemma parse_package_json_effect (f : file) (kv deps devs : list (string * pyval))
    (m : metadata) :
  read_json f = Some (PDict kv) ->
  dict_get_or kv "dependencies" (PDict []) = PDict deps ->
  dict_get_or kv "devDependencies" (PDict []) = PDict devs ->
  let desc := dict_get kv "description" in
  let m1 := note_name_and_main kv m in
  let m2 := upd_scripts (fun _ => dict_get_or kv "scripts" (PDict []))
              (upd_dependencies (upd_Node_js (add_all (map fst deps))) m1) in
  let m3 := if truthy desc then upd_description (fun _ => desc) m2 else m2 in
  _parse_package_json f m
  = (Ok tt,
     upd_tests (fun t => t ++ List.filter
                  (fun d => in_list d ["jest"; "mocha"; "chai"; "supertest"])
                  (map fst deps ++ map fst devs)) m3).
Proof.
  intros Hf Hd Hv desc m1 m2 m3.
  unfold _parse_package_json, try_pass. f_equal.
  assert (Hb : parse_package_json_body f m
               = (Ok tt, upd_tests (fun t => t ++ List.filter
                    (fun d => in_list d ["jest"; "mocha"; "chai"; "supertest"])
                    (map fst deps ++ map fst devs)) m3)); [| now rewrite Hb].
  unfold parse_package_json_body. rewrite Hf.
  erewrite bind_step by reflexivity.
  erewrite bind_step by apply when_modify.
  erewrite bind_step by reflexivity.
  erewrite bind_step by apply note_main_block.
  erewrite bind_step by reflexivity. rewrite Hd.
  erewrite bind_step by reflexivity.
  erewrite bind_step by reflexivity. rewrite Hv.
  erewrite bind_step by reflexivity.
  erewrite bind_step by reflexivity.
  erewrite bind_step by reflexivity.
  erewrite bind_step by reflexivity.
  erewrite bind_step by reflexivity.
  erewrite bind_step by apply when_modify.
  rewrite for_each_tests. reflexivity.
Qed.

(** C3 (as amended).  For a package manifest whose [dependencies] and
    [devDependencies] are objects (or absent), every key under
    [dependencies] is added to the set of Node.js dependency names and
    nothing else is: the versions are not kept, the dependencies of the
    other languages stay as they were, and a key under [devDependencies]
    is not recorded as a dependency at all; the only trace the
    development dependencies leave is that the test frameworks among
    them (jest, mocha, chai, supertest) are appended to [tests].  The
    [scripts] object is stored as it is. *)
Theorem C3_package_json_dependencies (f : file) (kv deps devs : list (string * pyval))
    (m : metadata) :
  read_json f = Some (PDict kv) ->
  dict_get_or kv "dependencies" (PDict []) = PDict deps ->
  dict_get_or kv "devDependencies" (PDict []) = PDict devs ->
  let m' := exec (_parse_package_json f) m in
  Node_js (dependencies m') = Node_js (dependencies m) ∪ list_to_set (map fst deps)
  /\ Python (dependencies m') = Python (dependencies m)
  /\ Java (dependencies m') = Java (dependencies m)
  /\ Go (dependencies m') = Go (dependencies m)
  /\ tests m' = tests m ++ List.filter
                  (fun d => in_list d ["jest"; "mocha"; "chai"; "supertest"])
                  (map fst deps ++ map fst devs)
  /\ scripts m' = dict_get_or kv "scripts" (PDict []).
Proof.
  intros Hf Hd Hv m'. subst m'. unfold exec.
  rewrite (parse_package_json_effect f kv deps devs m Hf Hd Hv). cbn [snd].
  unfold note_name_and_main.
  repeat split; split_ifs; reflexivity.
Qed.

(** The manifest of the specification's scenario. *)
Definition express_manifest : list (string * pyval) :=
  [("dependencies", PDict [("express", PStr "^4.18.0")]);
   ("scripts", PDict [("start", PStr "node index.js")])].

Definition express_package_json : file :=
  json_file "package.json"
    ("{" +:+ dq +:+ "dependencies" +:+ dq +:+ ":{" +:+ dq +:+ "express" +:+ dq +:+ ":"
     +:+ dq +:+ "^4.18.0" +:+ dq +:+ "}," +:+ dq +:+ "scripts" +:+ dq +:+ ":{" +:+ dq
     +:+ "start" +:+ dq +:+ ":" +:+ dq +:+ "node index.js" +:+ dq +:+ "}}")
    (PDict express_manifest).

Lemma C3_witness :
  let m' := exec (_parse_package_json express_package_json) initial_metadata in
  Node_js (dependencies m') = {[ "express" ]}
  /\ tests m' = []
  /\ scripts m' = PDict [("start", PStr "node index.js")].
Proof.
  destruct (C3_package_json_dependencies express_package_json express_manifest
              [("express", PStr "^4.18.0")] [] initial_metadata eq_refl eq_refl eq_refl)
    as (Hnode & _ & _ & _ & Htests & Hscripts).
  split; [| split]; [rewrite Hnode | rewrite Htests | rewrite Hscripts];
    vm_compute; reflexivity.
Defined.

(** A manifest that declares only a development dependency, and its text. *)
Definition eslint_package_json : file :=
  json_file "package.json"
    ("{" +:+ dq +:+ "devDependencies" +:+ dq +:+ ":{" +:+ dq +:+ "eslint" +:+ dq +:+ ":"
     +:+ dq +:+ "^8.0.0" +:+ dq +:+ "}}")
    (PDict [("devDependencies", PDict [("eslint", PStr "^8.0.0")])]).

Definition express5_package_json : file :=
  json_file "package.json"
    ("{" +:+ dq +:+ "dependencies" +:+ dq +:+ ":{" +:+ dq +:+ "express" +:+ dq +:+ ":"
     +:+ dq +:+ "^5.0.0" +:+ dq +:+ "}," +:+ dq +:+ "scripts" +:+ dq +:+ ":{" +:+ dq
     +:+ "start" +:+ dq +:+ ":" +:+ dq +:+ "node index.js" +:+ dq +:+ "}}")
    (PDict [("dependencies", PDict [("express", PStr "^5.0.0")]);
            ("scripts", PDict [("start", PStr "node index.js")])]).

(** C3, the claim as stated: a development dependency leaves the metadata
    untouched, there is no development list for it to enter; and the
    metadata is the same whatever version a dependency is declared
    with. *)
Lemma C3_counterexample :
  exec (_parse_package_json eslint_package_json) initial_metadata = initial_metadata
  /\ exec (_parse_package_json express_package_json) initial_metadata
     = exec (_parse_package_json express5_package_json) initial_metadata.
Proof. split; vm_compute; reflexivity. Qed.

(** ** Files that fail to parse *)

(** Every per-file parser returns normally, whatever the file holds, and
    a file that cannot be read leaves the metadata as it was. *)
Lemma parsers_swallow_errors (E : pyenv) (f : file) (ext : string) (m : metadata) :
  fst (_parse_package_json f m) = Ok tt
  /\ fst (_parse_requirements f m) = Ok tt
  /\ fst (_analyze_code E f ext m) = Ok tt
  /\ (read_json f = None -> exec (_parse_package_json f) m = m)
  /\ (read_utf8 f = None -> exec (_parse_requirements f) m = m)
  /\ (read_lossy f = None -> exec (_analyze_code E f ext) m = m).
Proof.
  repeat split; try reflexivity; intros Hf; unfold exec, try_pass;
    [unfold _parse_package_json, parse_package_json_body
    | unfold _parse_requirements, parse_requirements_body
    | unfold _analyze_code, analyze_code_body]; unfold try_pass; now rewrite Hf.
Qed.

(** Three manifests that are valid JSON and not what [build_markdown] and
    [scan] expect: [scripts] that is null, [scripts] that is an array, a
    [name] that is a number. *)
Definition null_scripts_package_json : file :=
  json_file "package.json"
    ("{" +:+ dq +:+ "scripts" +:+ dq +:+ ": null}")
    (PDict [("scripts", PNone)]).

Definition list_scripts_package_json : file :=
  json_file "package.json"
    ("{" +:+ dq +:+ "scripts" +:+ dq +:+ ": [" +:+ dq +:+ "build" +:+ dq +:+ "]}")
    (PDict [("scripts", PList [PStr "build"])]).

Definition number_name_package_json : file :=
  json_file "package.json"
    ("{" +:+ dq +:+ "name" +:+ dq +:+ ": 5}")
    (PDict [("name", PInt 5)]).

Definition project_with (f : file) : filesystem := {[ "proj" := FsDir [NFile f] ]}.

(** C4.  A single malformed manifest does abort the pipeline.  The parser
    swallows nothing here, for nothing is raised while the file is read:
    [_parse_package_json] stores the value of [scripts] and of [name] as
    it finds them, and the error comes later, out of [build_markdown]
    ([start in None], [items] of a list) or out of [scan] ([replace] of a
    number), and out of [generate_readme]. *)
Theorem C4_malformed_manifest_aborts :
  fst (generate_readme plain_env clone_host "proj" "Minimal" ""
         (project_with null_scripts_package_json)) = Raise TypeError
  /\ fst (generate_readme plain_env clone_host "proj" "Detailed" ""
            (project_with list_scripts_package_json)) = Raise AttributeError
  /\ fst (generate_readme plain_env clone_host "proj" "Minimal" ""
            (project_with number_name_package_json)) = Raise AttributeError.
Proof. repeat split; vm_compute; reflexivity. Qed.

(** ** Diagrams: fences, declaration, direction *)

(** [s.count(sub)] for a non-empty [sub]. *)
Fixpoint count_aux (sub : string) (skip : nat) (s : string) : nat :=
  match s with
  | EmptyString => 0
  | String c r =>
      match skip with
      | S k => count_aux sub k r
      | O => if String.prefix sub s then S (count_aux sub (String.length sub - 1) r)
             else count_aux sub 0 r
      end
  end.

Definition count (s sub : string) : nat := count_aux sub 0 s.

Definition not_backtick (c : ascii) : bool := negb (Ascii.eqb c "`"%char).

(** A name that can stand in a line of a diagram: no backtick, no line
    feed. *)
Definition word_char (c : ascii) : bool :=
  not_backtick c && negb (Ascii.eqb c (ascii_of_nat 10)).

Definition plain_word (s : string) : Prop := str_forall word_char s = true.

(** A statement line of a diagram: indented by four spaces. *)
Definition statement (t : string) : string := "    " +:+ t +:+ nl.

Definition statements (ts : list string) : string := cat (map statement ts).

(** A diagram block: the opening fence, one declaration line, statement
    lines that hold no backtick, the closing fence, and a tail of line
    feeds. *)
Definition diagram_block (decl : string) (ts : list string) (tail : string) : string :=
  "```mermaid" +:+ nl +:+ decl +:+ nl +:+ statements ts +:+ "```" +:+ tail.

Definition DIRECTIONS : list string := ["TD"; "TB"; "BT"; "LR"; "RL"].

(** The block declares a graph or a flowchart with a direction token. *)
Definition declares_direction (d : string) : bool :=
  existsb (fun kw => existsb (fun dir => contains (kw +:+ " " +:+ dir) d) DIRECTIONS)
    ["graph"; "flowchart"].

Lemma str_forall_word_backtick (s : string) :
  plain_word s -> str_forall not_backtick s = true.
Proof.
  apply str_forall_impl. intros c Hc. now apply andb_true_iff in Hc as [Hc _].
Qed.

Lemma count_free (a s : string) :
  str_forall not_backtick a = true ->
  count_aux "```" 0 (a +:+ s) = count_aux "```" 0 s.
Proof.
  intros Ha. induction a as [| c a IH]; [reflexivity |].
  cbn in Ha. apply andb_true_iff in Ha as [Hc Ha].
  rewrite append_cons. cbn [count_aux]. rewrite prefix_cons_ne; [now apply IH |].
  intros <-. discriminate.
Qed.

Lemma count_fence (s : string) :
  count_aux "```" 0 ("```" +:+ s) = S (count_aux "```" 0 s).
Proof.
  pose proof (prefix_app "```" s) as Hp.
  change ("```" +:+ s) with (String "`"%char (String "`"%char (String "`"%char s))) in *.
  cbn [count_aux]. now rewrite Hp.
Qed.

Lemma count_free_end (a : string) :
  str_forall not_backtick a = true -> count_aux "```" 0 a = 0.
Proof. intros Ha. rewrite <- (append_nil_r a). now rewrite count_free. Qed.

Lemma statements_free (ts : list string) :
  Forall plain_word ts -> str_forall not_backtick (statements ts) = true.
Proof.
  unfold statements, cat. induction 1 as [| t ts Ht _ IH]; [reflexivity |].
  cbn [map fold_right]. rewrite str_forall_app, IH. unfold statement.
  rewrite !str_forall_app, (str_forall_word_backtick t Ht). reflexivity.
Qed.

(** A diagram block holds exactly two fences, the opening one first. *)
Lemma diagram_block_fences (decl : string) (ts : list string) (tail : string) :
  plain_word decl -> Forall plain_word ts -> str_forall not_backtick tail = true ->
  count (diagram_block decl ts tail) "```" = 2.
Proof.
  intros Hd Hts Ht. unfold count, diagram_block.
  change ("```mermaid" +:+ nl +:+ decl +:+ nl +:+ statements ts +:+ "```" +:+ tail)
    with ("```" +:+ (("mermaid" +:+ nl) +:+ decl +:+ nl +:+ statements ts +:+ "```" +:+ tail)).
  rewrite count_fence. f_equal.
  rewrite <- !append_assoc.
  rewrite (append_assoc _ "```" tail).
  rewrite count_free.
  - rewrite count_fence, count_free_end by exact Ht. reflexivity.
  - rewrite !str_forall_app, (str_forall_word_backtick decl Hd), statements_free by exact Hts.
    reflexivity.
Qed.

Lemma statements_app (a b : list string) :
  statements (a ++ b) = statements a +:+ statements b.
Proof.
  unfold statements, cat. induction a as [| t a IH]; [reflexivity |].
  cbn [app map fold_right]. now rewrite IH, append_assoc.
Qed.

Lemma in_list_In (x : string) (l : list string) : in_list x l = true -> In x l.
Proof.
  unfold in_list. intros Hx. apply existsb_exists in Hx as (y & Hy & Heq).
  apply String.eqb_eq in Heq. now subst.
Qed.

Lemma plain_word_app (a b : string) : plain_word a -> plain_word b -> plain_word (a +:+ b).
Proof. unfold plain_word. intros Ha Hb. now rewrite str_forall_app, Ha, Hb. Qed.

(** The pieces of a split hold only characters of the text that is split. *)
Lemma split_aux_forall (p : ascii -> bool) (sep : string) (s : string) :
  forall skip acc, str_forall p acc = true -> str_forall p s = true ->
    Forall (fun piece => str_forall p piece = true) (split_aux sep skip acc s).
Proof.
  induction s as [| c s IH]; intros skip acc Hacc Hs.
  - cbn. now constructor.
  - cbn in Hs. apply andb_true_iff in Hs as [Hc Hs]. cbn [split_aux].
    destruct skip as [| k]; [| now apply IH].
    destruct (String.prefix sep (String c s)).
    + constructor; [exact Hacc | now apply IH].
    + apply IH; [| exact Hs]. rewrite str_forall_app, Hacc. cbn. now rewrite Hc.
Qed.

Lemma split_head_plain (e sep : string) : plain_word e -> plain_word (hd "" (split e sep)).
Proof.
  intros He. unfold split.
  pose proof (split_aux_forall word_char sep e 0 "" eq_refl He) as Hf.
  destruct (split_aux sep 0 "" e); [reflexivity | now inversion Hf].
Qed.

(** The statement lines of the two diagrams. *)
Definition flow_lines (db : bool) : list string :=
  ["participant User"; "participant System"]
  ++ (if db then ["participant DB as Database"] else [])
  ++ ["User->>System: Request"; "System->>System: Process Logic"]
  ++ (if db then ["System->>DB: Query Data"; "DB-->>System: Return Data"] else [])
  ++ ["System-->>User: Response"].

Definition dep_statement (backend dep : string) : list string :=
  if in_list dep DB_DEPS then [backend +:+ " --> " +:+ dep +:+ "[(" +:+ dep +:+ " DB)]"]
  else if in_list dep CACHE_DEPS then [backend +:+ " --> " +:+ dep +:+ "((" +:+ dep +:+ " Cache))"]
  else [].

Lemma application_flow_block (m : metadata) :
  application_flow m = diagram_block "sequenceDiagram" (flow_lines (has_db m)) "".
Proof. unfold application_flow. destruct (has_db m); reflexivity. Qed.

Lemma flow_lines_plain (db : bool) : Forall plain_word (flow_lines db).
Proof. destruct db; repeat constructor. Qed.

Lemma chart_dep_lines (backend : string) (deps : list string) :
  cat (map (chart_dep_line backend) deps)
  = statements (List.flat_map (dep_statement backend) deps).
Proof.
  induction deps as [| d deps IH]; [reflexivity |].
  cbn [map List.flat_map]. rewrite statements_app. unfold cat in *. cbn [fold_right].
  rewrite IH. f_equal. unfold chart_dep_line, dep_statement.
  destruct (in_list d DB_DEPS); [| destruct (in_list d CACHE_DEPS)];
    unfold statements, statement, cat; cbn [map fold_right];
    rewrite ?append_nil_r, ?append_assoc; reflexivity.
Qed.

Lemma dep_statement_plain (backend : string) (deps : list string) :
  plain_word backend -> Forall plain_word (List.flat_map (dep_statement backend) deps).
Proof.
  intros Hb. induction deps as [| d deps IH]; [constructor |].
  cbn [List.flat_map]. apply Forall_app. split; [| exact IH].
  unfold dep_statement.
  destruct (in_list d DB_DEPS) eqn:Hdb; [| destruct (in_list d CACHE_DEPS) eqn:Hc].
  - constructor; [| constructor]. apply in_list_In in Hdb.
    repeat (destruct Hdb as [<- | Hdb]; [now apply plain_word_app |]). contradiction.
  - constructor; [| constructor]. apply in_list_In in Hc.
    repeat (destruct Hc as [<- | Hc]; [now apply plain_word_app |]). contradiction.
  - constructor.
Qed.

(** The entry of the class diagram, as it is displayed. *)
Definition displayed_entry (m : metadata) : pyval :=
  match py_or (entry_point_cmd m) (py_or (entry_point m) (PStr "Main")) with
  | PStr e => if endswith e ".py" || endswith e ".java" then PStr (hd "" (split e ".")) else PStr e
  | v => v
  end.

Definition class_lines (E : pyenv) (m : metadata) : list string :=
  (fmt E (displayed_entry m) +:+ " --> Logic_Layer")
  :: map (fun mod_ => "Logic_Layer --> " +:+ mod_)
       (List.filter (fun mod_ => negb (pyval_eq_str (displayed_entry m) mod_))
          (firstn 6 (modules m))).

Definition component_lines (E : pyenv) (m : metadata) : list string :=
  let backend := fmt E (py_or (entry_point m) (PStr "Server")) in
  ["User[User] --> UI[Client]"; "UI --> " +:+ backend]
  ++ List.flat_map (dep_statement backend)
       (set_iter E (Node_js (dependencies m) ∪ Python (dependencies m))).

Lemma chart_classes_lines (E : pyenv) (m : metadata) :
  chart_classes E m = statements (class_lines E m).
Proof.
  unfold chart_classes, class_lines, displayed_entry.
  destruct (py_or (entry_point_cmd m) (py_or (entry_point m) (PStr "Main"))) as [| | | e | |];
    try destruct (endswith e ".py" || endswith e ".java");
    unfold statements, cat; cbn [map fold_right]; rewrite map_map; unfold statement;
    rewrite !append_assoc; reflexivity.
Qed.

Lemma chart_components_lines (E : pyenv) (m : metadata) :
  chart_components E m = statements (component_lines E m).
Proof.
  unfold chart_components, component_lines. cbv zeta.
  rewrite statements_app, chart_dep_lines.
  set (backend := fmt E (py_or (entry_point m) (PStr "Server"))).
  assert (Hh : statements ["User[User] --> UI[Client]"; "UI --> " +:+ backend]
               = esc "    User[User] --> UI[Client]\n" +:+ "    UI --> " +:+ backend +:+ nl).
  { unfold statements, statement, cat. cbn [map fold_right].
    rewrite ?append_assoc, append_nil_r. reflexivity. }
  rewrite Hh, ?append_assoc. reflexivity.
Qed.

Lemma py_or_plain (E : pyenv) (a b : pyval) :
  plain_word (fmt E a) -> plain_word (fmt E b) -> plain_word (fmt E (py_or a b)).
Proof. unfold py_or. now destruct (truthy a). Qed.

Lemma class_lines_plain (E : pyenv) (m : metadata) :
  plain_word (fmt E (entry_point_cmd m)) -> plain_word (fmt E (entry_point m)) ->
  Forall plain_word (modules m) -> Forall plain_word (class_lines E m).
Proof.
  intros Hcmd Hep Hmods. unfold class_lines. constructor.
  - apply plain_word_app; [| reflexivity]. unfold displayed_entry.
    pose proof (py_or_plain E _ _ Hcmd (py_or_plain E _ (PStr "Main") Hep eq_refl)) as Hp.
    destruct (py_or (entry_point_cmd m) (py_or (entry_point m) (PStr "Main")))
      as [| | | e | |]; try exact Hp.
    destruct (endswith e ".py" || endswith e ".java"); [| exact Hp].
    now apply split_head_plain.
  - apply List.Forall_forall. intros t Ht. apply in_map_iff in Ht as (mod_ & <- & Hin).
    apply plain_word_app; [reflexivity |].
    apply filter_In in Hin as [Hin _].
    assert (Hin' : In mod_ (modules m)).
    { rewrite <- (firstn_skipn 6 (modules m)). apply in_or_app. now left. }
    rewrite List.Forall_forall in Hmods. now apply Hmods.
Qed.

Lemma component_lines_plain (E : pyenv) (m : metadata) :
  plain_word (fmt E (entry_point m)) -> Forall plain_word (component_lines E m).
Proof.
  intros Hep. unfold component_lines. cbv zeta.
  pose proof (py_or_plain E _ (PStr "Server") Hep eq_refl) as Hb.
  apply Forall_app. split; [| now apply dep_statement_plain].
  repeat constructor. now apply plain_word_app.
Qed.

(** The statement lines of the architecture diagram. *)
Definition chart_lines (E : pyenv) (m : metadata) : list string :=
  if (in_set "Java" (languages m) || in_set "Python" (languages m))
     && match modules m with [] => false | _ => true end
  then class_lines E m else component_lines E m.

Lemma architecture_chart_block (E : pyenv) (m : metadata) :
  architecture_chart E m = diagram_block "graph TD" (chart_lines E m) (nl +:+ nl).
Proof.
  unfold architecture_chart, chart_lines, diagram_block.
  rewrite chart_classes_lines, chart_components_lines.
  destruct ((in_set "Java" (languages m) || in_set "Python" (languages m))
            && match modules m with [] => false | _ => true end); reflexivity.
Qed.

Lemma contains_graph_td (ts : list string) (tail : string) :
  declares_direction (diagram_block "graph TD" ts tail) = true.
Proof.
  unfold declares_direction, diagram_block. cbn [existsb DIRECTIONS].
  change ("graph" +:+ " " +:+ "TD") with "graph TD".
  rewrite (contains_app_r "graph TD" "```mermaid"), !orb_true_l; [reflexivity |].
  apply contains_app_r, contains_here.
Qed.

(** C8 (as amended).  When the entry point and the module names written
    into the architecture diagram hold no backtick and no line feed, each
    of the two diagrams is one fenced block: the opening fence, one
    declaration line, indented statement lines without a fence, the
    closing fence; so it holds exactly two fence markers, the opening one
    first, and exactly one diagram-type declaration.  The architecture
    diagram declares [graph TD], a graph with the direction token TD; the
    workflow diagram declares [sequenceDiagram] and no direction token. *)
Theorem C8_diagram_blocks (E : pyenv) (m : metadata) :
  plain_word (fmt E (entry_point_cmd m)) ->
  plain_word (fmt E (entry_point m)) ->
  Forall plain_word (modules m) ->
  (architecture_chart E m = diagram_block "graph TD" (chart_lines E m) (nl +:+ nl)
   /\ Forall plain_word (chart_lines E m)
   /\ count (architecture_chart E m) "```" = 2
   /\ declares_direction (architecture_chart E m) = true)
  /\ (application_flow m = diagram_block "sequenceDiagram" (flow_lines (has_db m)) ""
      /\ Forall plain_word (flow_lines (has_db m))
      /\ count (application_flow m) "```" = 2
      /\ declares_direction (application_flow m) = false).
Proof.
  intros Hcmd Hep Hmods.
  assert (Hlines : Forall plain_word (chart_lines E m)).
  { unfold chart_lines. destruct (_ && _);
      [now apply class_lines_plain | now apply component_lines_plain]. }
  split; [split; [| split; [| split]] | split; [| split; [| split]]].
  - apply architecture_chart_block.
  - exact Hlines.
  - rewrite architecture_chart_block. now apply diagram_block_fences.
  - rewrite architecture_chart_block. apply contains_graph_td.
  - apply application_flow_block.
  - apply flow_lines_plain.
  - rewrite application_flow_block.
    apply diagram_block_fences; [reflexivity | apply flow_lines_plain | reflexivity].
  - rewrite application_flow_block. destruct (has_db m); vm_compute; reflexivity.
Qed.

Lemma C8_witness :
  count (architecture_chart plain_env initial_metadata) "```" = 2
  /\ count (application_flow initial_metadata) "```" = 2
  /\ chart_lines plain_env initial_metadata = ["User[User] --> UI[Client]"; "UI --> Server"].
Proof.
  destruct (C8_diagram_blocks plain_env initial_metadata) as ((_ & _ & Hc & _) & (_ & _ & Hf & _)).
  - reflexivity.
  - reflexivity.
  - constructor.
  - split; [exact Hc | split; [exact Hf | vm_compute; reflexivity]].
Defined.

(** A manifest whose [main] is a fence marker. *)
Definition fence_main_package_json : file :=
  json_file "package.json"
    ("{" +:+ dq +:+ "main" +:+ dq +:+ ": " +:+ dq +:+ "```" +:+ dq +:+ "}")
    (PDict [("main", PStr "```")]).

(** C8, the claim as stated: the workflow diagram of any project declares
    no direction token; and an entry point that holds a fence marker puts
    a third fence marker into the architecture diagram. *)
Lemma C8_counterexample :
  declares_direction (application_flow initial_metadata) = false
  /\ count (architecture_chart plain_env
              (exec (_parse_package_json fence_main_package_json) initial_metadata)) "```" = 3.
Proof. split; vm_compute; reflexivity. Qed.

(** ** The tech stack as two updates *)

(** The four chains of [if ...: details[kind].add(label)] of
    [_infer_tech_stack], each as a function of the lower-cased dependency
    names and of the set it adds to. *)
Definition framework_labels (py_deps node_deps java_deps go_deps s : gset string)
  : gset string :=
  add_if (in_set "echo" go_deps) "Echo"
  (add_if (in_set "gin" go_deps) "Gin"
  (add_if (existsb (contains "spring") (elements java_deps)) "Spring/Spring Boot"
  (add_if (in_set "koa" node_deps) "Koa"
  (add_if (in_set "nest" node_deps || in_set "nestjs" node_deps) "NestJS"
  (add_if (in_set "nuxt" node_deps || in_set "nuxt.js" node_deps) "Nuxt.js"
  (add_if (in_set "next" node_deps || in_set "next.js" node_deps) "Next.js"
  (add_if (in_set "express" node_deps) "Express"
  (add_if (in_set "fastapi" py_deps) "FastAPI"
  (add_if (in_set "flask" py_deps) "Flask"
  (add_if (in_set "django" py_deps) "Django" s)))))))))).

Definition database_labels (py_deps node_deps s : gset string) : gset string :=
  add_if (in_set "redis" node_deps || in_set "ioredis" node_deps) "Redis"
  (add_if (in_set "mysql2" node_deps) "MySQL"
  (add_if (in_set "pg" node_deps || in_set "pg-promise" node_deps) "PostgreSQL"
  (add_if (in_set "mongoose" node_deps) "MongoDB"
  (add_if (in_set "sqlalchemy" py_deps) "SQL (SQLAlchemy)"
  (add_if (in_set "pymongo" py_deps || in_set "motor" py_deps) "MongoDB"
  (add_if (in_set "mysqlclient" py_deps || in_set "pymysql" py_deps) "MySQL"
  (add_if (in_set "psycopg2" py_deps || in_set "psycopg2-binary" py_deps) "PostgreSQL"
     s))))))).

Definition auth_labels (py_deps node_deps s : gset string) : gset string :=
  add_if (in_set "djangorestframework-simplejwt" py_deps) "DRF + JWT"
  (add_if (in_set "django-allauth" py_deps) "Django Allauth"
  (add_if (in_set "passport" node_deps) "Passport.js"
  (add_if (in_set "jsonwebtoken" node_deps || in_set "jwt" py_deps) "JWT" s))).

Definition cache_labels (py_deps node_deps s : gset string) : gset string :=
  add_if (in_set "redis" node_deps || in_set "ioredis" node_deps || in_set "redis" py_deps)
    "Redis" s.

(** [_infer_tech_stack] as two updates: the structured details grow by
    the labels that the dependencies call for, the flat labels by the
    structured ones, prefixed. *)
Lemma infer_tech_stack_shape (m : metadata) :
  let py := lowered (Python (dependencies m)) in
  let nd := lowered (Node_js (dependencies m)) in
  let jv := lowered (Java (dependencies m)) in
  let go := lowered (Go (dependencies m)) in
  let d := tech_stack_details m in
  let d' := TechDetails (framework_labels py nd jv go (frameworks d))
              (database_labels py nd (databases d)) (auth_labels py nd (auth d))
              (cache_labels py nd (cache d)) in
  _infer_tech_stack m
  = upd_tech_stack
      (fun t => t ∪ with_prefix "Framework: " (frameworks d')
                  ∪ with_prefix "Database: " (databases d')
                  ∪ with_prefix "Auth: " (auth d') ∪ with_prefix "Cache: " (cache d'))
      (upd_tech_stack_details (fun _ => d') m).
Proof. reflexivity. Qed.

(** ** A tree without signal: no manifest, no source file *)

Definition MANIFESTS : list string :=
  ["package.json"; "requirements.txt"; "pom.xml"; "build.gradle"; "go.mod"].

Definition SOURCE_EXTS : list string := [".py"; ".js"; ".ts"; ".java"; ".go"].

Definition no_signal_file (f : file) : bool :=
  negb (in_list (fname f) MANIFESTS)
  && negb (in_list (lower (splitext_ext (fname f))) SOURCE_EXTS).

(** No file that the walk reaches is a manifest or a source file. *)
Definition no_signal (root : string) (entries : list node) : Prop :=
  Forall (fun v => Forall (fun f => no_signal_file f = true) (v_files v)) (walk root entries).

(** The part of the metadata that only manifests and source files write. *)
Definition core (m : metadata)
  : gset string * pyval * pyval * pyval * per_lang (gset string) * tech_details :=
  (languages m, description m, project_name m, scripts m, dependencies m,
   tech_stack_details m).

Lemma core_scan_file (E : pyenv) root rel top (s : scanner) (f : file) :
  no_signal_file f = true -> core (meta (scan_file E root rel top s f)) = core (meta s).
Proof.
  intros Hf. unfold no_signal_file in Hf. apply andb_true_iff in Hf as [Hm Hx].
  apply negb_true_iff in Hm, Hx. unfold in_list, MANIFESTS in Hm. cbn [existsb] in Hm.
  repeat (apply orb_false_iff in Hm as [?Hn Hm]).
  unfold scan_file, scan_code, scan_manifest.
  change (in_list (lower (splitext_ext (fname f))) [".py"; ".js"; ".ts"; ".java"; ".go"])
    with (in_list (lower (splitext_ext (fname f))) SOURCE_EXTS).
  rewrite Hx, Hn, Hn0, Hn1, Hn2, Hn3.
  split_ifs; reflexivity.
Qed.

Lemma core_fold_scan_file (E : pyenv) root rel top (fl : list file) (s : scanner) :
  Forall (fun f => no_signal_file f = true) fl ->
  core (meta (fold_left (scan_file E root rel top) fl s)) = core (meta s).
Proof.
  intros Hfl. revert s. induction Hfl as [| f fl Hf _ IH]; intros s; [reflexivity |].
  cbn [fold_left]. now rewrite IH, core_scan_file.
Qed.

Lemma core_scan_visit (E : pyenv) (st : scanner * list string) (v : visit) :
  Forall (fun f => no_signal_file f = true) (v_files v) ->
  core (meta (fst (scan_visit E st v))) = core (meta (fst st)).
Proof.
  intros Hv. destruct st as [s tl]. unfold scan_visit. cbn [fst].
  rewrite core_fold_scan_file by exact Hv.
  destruct (head (v_rel v)); split_ifs; reflexivity.
Qed.

Lemma core_fold_scan_visit (E : pyenv) (vs : list visit) (st : scanner * list string) :
  Forall (fun v => Forall (fun f => no_signal_file f = true) (v_files v)) vs ->
  core (meta (fst (fold_left (scan_visit E) vs st))) = core (meta (fst st)).
Proof.
  intros Hvs. revert st. induction Hvs as [| v vs Hv _ IH]; intros st; [reflexivity |].
  cbn [fold_left]. now rewrite IH, core_scan_visit.
Qed.

Lemma core_scan_tree (E : pyenv) (entries : list node) (s : scanner) :
  no_signal (path s) entries -> core (meta (_scan_tree E entries s)) = core (meta s).
Proof.
  intros Hq. unfold _scan_tree.
  pose proof (core_fold_scan_visit E (walk (path s) entries) (s, []) Hq) as Hc.
  destruct (fold_left _ _ _) as [s' tl]. cbn [fst] in Hc. rewrite <- Hc. reflexivity.
Qed.

Lemma core_scan_license (entries : list node) (m : metadata) :
  core (_scan_license entries m) = core m.
Proof.
  unfold _scan_license. destruct (find _ entries) as [[f | d sub | d] |]; try reflexivity.
  destruct (read_lossy f); reflexivity.
Qed.

Lemma core_finalize_services (s : scanner) : core (meta (_finalize_services s)) = core (meta s).
Proof.
  unfold _finalize_services. generalize (_service_info s) as l. intros l.
  revert s. induction l as [| x l IH]; intros s; [reflexivity |].
  cbn [fold_left]. now rewrite IH.
Qed.

Lemma lowered_empty : lowered ∅ = ∅.
Proof. unfold lowered. now rewrite elements_empty. Qed.

Lemma in_set_empty (x : string) : in_set x ∅ = false.
Proof. unfold in_set. apply bool_decide_eq_false_2, not_elem_of_empty. Qed.

(** Without dependencies [_infer_tech_stack] detects nothing. *)
Lemma core_infer_tech_stack (m : metadata) :
  dependencies m = dependencies initial_metadata -> core (_infer_tech_stack m) = core m.
Proof.
  intros Hd. rewrite infer_tech_stack_shape. cbv zeta. rewrite Hd.
  cbn [dependencies initial_metadata Python Node_js Java Go].
  rewrite lowered_empty.
  unfold framework_labels, database_labels, auth_labels, cache_labels.
  rewrite !in_set_empty, elements_empty. cbn [existsb orb add_if].
  unfold core. cbn [languages description project_name scripts dependencies
                    tech_stack_details upd_tech_stack upd_tech_stack_details].
  rewrite Hd. now destruct (tech_stack_details m).
Qed.

Lemma setup_path_local_core (H : host) (s : scanner) (fs0 : filesystem)
    (log : list host_call) (o : fsobj) :
  is_remote s = false -> fs0 !! path s = Some o ->
  exists st, setup_path H (State s fs0 log) = (Ok (path s), st)
    /\ frame (sc st) = frame s /\ fs st = fs0 /\ calls st = log
    /\ languages (meta (sc st)) = languages (meta s)
    /\ description (meta (sc st)) = description (meta s)
    /\ scripts (meta (sc st)) = scripts (meta s)
    /\ project_name (meta (sc st)) = PStr (os_path_basename (os_path_normpath (path s)))
    /\ dependencies (meta (sc st)) = dependencies (meta s)
    /\ tech_stack_details (meta (sc st)) = tech_stack_details (meta s).
Proof.
  intros Hr Hp. unfold setup_path, path_exists, origin_body. run. rewrite Hr. run. rewrite Hp.
  rewrite bool_decide_eq_true_2 by eauto. run.
  destruct (origin_url H (path s)) as [url |]; run.
  - unfold item_before_last. destruct (@rev string _) as [| a [| b l]]; run;
      eexists; repeat split; reflexivity.
  - eexists; repeat split; reflexivity.
Qed.

(** The description [scan] synthesizes when nothing supplied one. *)
Definition smart_description (m : metadata) : result string :=
  fst (_generate_smart_description m).

Lemma smart_description_nonempty (m : metadata) (pn : string) :
  project_name m = PStr pn ->
  exists d, _generate_smart_description m = (Ok ("**" +:+ d), m).
Proof.
  intros Hpn. unfold _generate_smart_description, str_of. run. rewrite Hpn. run.
  destruct (sorted (elements (databases _))); destruct (sorted (elements (frameworks _)));
    destruct (sorted (elements (languages m)));
    eexists; rewrite ?append_assoc; reflexivity.
Qed.

(** The fallback sentence: a name, made from the project name, and the
    kind of project that the name suggests. *)
Definition fallback_description (name : string) : string :=
  "**" +:+ name +:+ "** is a " +:+ project_kind name +:+ ".".

(** With no language, framework or database to mention, the description
    is the fallback sentence. *)
Lemma smart_description_plain (m : metadata) (pn : string) :
  project_name m = PStr pn -> languages m = ∅ ->
  tech_stack_details m = tech_stack_details initial_metadata ->
  _generate_smart_description m
  = (Ok (fallback_description (title (replace (replace pn "-" " ") "_" " "))), m).
Proof.
  intros Hpn Hl Ht. unfold _generate_smart_description, str_of, fallback_description. run.
  rewrite Hpn, Hl, Ht. run.
  cbn [tech_stack_details initial_metadata frameworks databases].
  rewrite elements_empty. change (sorted []) with (@nil string). cbv iota.
  now rewrite !append_assoc.
Qed.

(** [scan] of a tree without signal: it returns, no language is detected,
    and the description is the fallback sentence. *)
Lemma scan_no_signal (E : pyenv) (entries : list node) (s : scanner) (pn : string) :
  no_signal (path s) entries ->
  languages (meta s) = ∅ -> description (meta s) = PStr "" ->
  project_name (meta s) = PStr pn ->
  dependencies (meta s) = dependencies initial_metadata ->
  tech_stack_details (meta s) = tech_stack_details initial_metadata ->
  exists s', scan E (Directory entries) s = (Ok (meta s'), s')
    /\ frame s' = frame s
    /\ languages (meta s') = ∅
    /\ description (meta s')
       = PStr (fallback_description (title (replace (replace pn "-" " ") "_" " "))).
Proof.
  intros Hq Hl Hd Hn Hdep Htech. unfold scan. run.
  set (s1 := upd_meta _infer_tech_stack _).
  assert (Hf1 : frame s1 = frame s).
  { unfold s1. now rewrite frame_upd_meta, frame_finalize_services, frame_scan_tree. }
  assert (Hc1 : core (meta s1) = core (meta s)).
  { unfold s1. cbn [meta upd_meta].
    assert (Hc0 : core (meta (_finalize_services
                     (_scan_tree E entries (upd_meta (_scan_license entries) s))))
                  = core (meta s)).
    { rewrite core_finalize_services, core_scan_tree by exact Hq.
      cbn [meta upd_meta]. apply core_scan_license. }
    rewrite core_infer_tech_stack; [exact Hc0 |].
    unfold core in Hc0. injection Hc0 as _ _ _ _ Hc0 _. now rewrite Hc0. }
  match goal with
  | |- context [truthy (description ?m1)] => change (description m1) with (description (meta s1))
  end.
  clearbody s1.
  unfold core in Hc1. injection Hc1 as Hl2 Hd2 Hn2 _ _ Ht2.
  rewrite Hl in Hl2. rewrite Hd in Hd2. rewrite Hn in Hn2. rewrite Htech in Ht2.
  rewrite Hd2. cbn [truthy String.eqb negb]. run.
  rewrite (smart_description_plain (meta s1) pn Hn2 Hl2 Ht2). run.
  eexists (upd_meta (upd_description (fun _ => PStr _)) (upd_meta (fun _ => meta s1) s1)).
  split; [reflexivity |]. split; [exact Hf1 |]. split; [exact Hl2 | reflexivity].
Qed.

(** ** The minimal template *)

Lemma build_minimal_no_language (E : pyenv) (s : scanner) :
  languages (meta s) = ∅ ->
  build_markdown E s "Minimal" = Ok (minimal_markdown E s [] "").
Proof.
  intros Hl. unfold build_markdown. rewrite Hl. reflexivity.
Qed.

Lemma contains_here3 (a b c r : string) :
  contains (a +:+ b +:+ c) (a +:+ b +:+ c +:+ r) = true.
Proof.
  rewrite <- (append_assoc b c r), <- (append_assoc a (b +:+ c) r). apply contains_here.
Qed.

Lemma minimal_markdown_contains (E : pyenv) (s : scanner) (langs : list string)
    (usage : string) :
  let md := minimal_markdown E s langs usage in
  contains "# " md = true
  /\ contains (esc "## üìù Description\n" +:+ fmt E (description (meta s)) +:+ esc "\n\n") md
     = true
  /\ contains (esc "## ‚öôÔ∏è Installation\n") md = true
  /\ contains (esc "## üöÄ Usage\n") md = true.
Proof.
  cbv zeta. unfold minimal_markdown. cbv zeta. repeat split.
  - apply contains_here.
  - do 5 apply contains_app_r. apply contains_here3.
  - do 11 apply contains_app_r. apply contains_here.
  - do 13 apply contains_app_r. apply contains_here.
Qed.

(** [s.isascii()] *)
Definition isascii (s : string) : bool := str_forall (fun c => nat_of_ascii c <? 128) s.

(** The name that the description gives a project read at [p]: the last
    component of the path, dashes and underscores replaced by spaces, in
    title case. *)
Definition display_name (p : string) : string :=
  title (replace (replace (os_path_basename (os_path_normpath p)) "-" " ") "_" " ").

(** C7 (as amended).  For a local directory that is read in place (its
    path is not taken for a remote address) and in which the walk finds
    no manifest and no source file, [generate_readme] with the minimal
    template returns a document that holds a title header [# ], the
    installation header and the usage header, each with the pictogram the
    template writes between [## ] and the word, and under the description
    header the fallback sentence, [**name** is a kind.], followed by an
    empty line.  For a path of ASCII characters the name is the last
    component of the path, dashes and underscores replaced by spaces, in
    title case. *)
Theorem C7_minimal_of_empty_project (E : pyenv) (H : host) (p ctx : string)
    (fs0 : filesystem) (entries : list node) :
  is_remote (DeepScanner p ctx) = false ->
  fs0 !! p = Some (FsDir entries) ->
  no_signal p entries ->
  exists md name, fst (generate_readme E H p "Minimal" ctx fs0) = Ok md
    /\ (isascii p = true -> name = display_name p)
    /\ contains "# " md = true
    /\ contains (esc "## ‚öôÔ∏è Installation\n") md = true
    /\ contains (esc "## üöÄ Usage\n") md = true
    /\ contains (esc "## üìù Description\n" +:+ fallback_description name +:+ esc "\n\n") md
       = true.
Proof.
  intros Hr Hp Hq. unfold generate_readme, try_finally.
  set (s := DeepScanner p ctx) in *.
  destruct (setup_path_local_core H s fs0 [] (FsDir entries) Hr Hp)
    as (st1 & Hs & Hf1 & Hfs & _ & Hl & Hd & _ & Hn & Hdep & Htech).
  unfold bind at 1. rewrite Hs.
  assert (Hpath : path (sc st1) = p).
  { unfold frame in Hf1. now injection Hf1 as _ Hpath _ _ _. }
  assert (Ht : temp_dir (sc st1) = None).
  { unfold frame in Hf1. now injection Hf1 as _ _ _ _ Ht. }
  assert (Htarget : target_at st1 = Directory entries).
  { unfold target_at. now rewrite Hfs, Hpath, Hp. }
  rewrite <- Hpath in Hq.
  destruct (scan_no_signal E entries (sc st1) _ Hq Hl Hd Hn Hdep Htech)
    as (s2 & Hscan & Hf2 & Hl2 & Hd2).
  unfold bind, run_scan, run_build, lift_sc. rewrite Htarget, Hscan. cbn [sc].
  rewrite (build_minimal_no_language E s2 Hl2).
  assert (Ht2 : temp_dir s2 = None).
  { rewrite <- Ht. unfold frame in Hf2. now injection Hf2 as _ _ _ _ Ht2. }
  unfold cleanup, bind, gets. cbn [sc]. rewrite Ht2. cbn [fst].
  destruct (minimal_markdown_contains E s2 [] "") as (H1 & H2 & H3 & H4).
  rewrite Hd2 in H2. cbn [fmt] in H2. eexists _, _. split; [reflexivity |].
  split; [intros _; reflexivity |]. eauto.
Qed.

Definition notes_project : filesystem :=
  {[ "proj" := FsDir [NFile (text_file "notes.txt" "remember the milk")] ]}.

Lemma C7_witness :
  exists md,
    fst (generate_readme plain_env clone_host "proj" "Minimal" "" notes_project) = Ok md
    /\ contains "# " md = true
    /\ contains (esc "## ‚öôÔ∏è Installation\n") md = true
    /\ contains (esc "## üöÄ Usage\n") md = true
    /\ contains (esc "## üìù Description\n" +:+ "**Proj** is a Software Solution." +:+ esc "\n\n") md
       = true.
Proof.
  destruct (C7_minimal_of_empty_project plain_env clone_host "proj" "" notes_project
              [NFile (text_file "notes.txt" "remember the milk")])
    as (md & name & Hmd & Hname & H1 & H2 & H3 & H4).
  - reflexivity.
  - reflexivity.
  - unfold no_signal. vm_compute. repeat constructor.
  - exists md. rewrite (Hname eq_refl) in H4. repeat split; assumption.
Defined.

(** What a test on the document yields: [None] when no document is
    returned. *)
Definition document_test (p : string -> bool) (r : result string) : option bool :=
  match r with
  | Ok md => Some (p md)
  | Raise _ => None
  end.

(** C7, the claim as stated: the minimal document of an empty directory is
    returned, and it holds neither of the substrings [## Installation] and
    [## Usage]; and for an empty directory whose name ends in [.git] no
    document is returned at all, for the directory is not read in place:
    a clone is attempted, and it fails where there is no repository. *)
Lemma C7_counterexample :
  document_test (fun md => contains "## Installation" md || contains "## Usage" md)
    (fst (generate_readme plain_env clone_host "proj" "Minimal" "" {[ "proj" := FsDir [] ]}))
  = Some false
  /\ fst (generate_readme plain_env failing_host "site.git" "Minimal" ""
            {[ "site.git" := FsDir [] ]})
     = Raise (Exception "Clone failed: repository not found"
                (Some (GitError "repository not found"))).
Proof. split; vm_compute; reflexivity. Qed.

(** ** The detailed template *)

(** The texts [hs] occur in [s] one after the other, without overlap. *)
Fixpoint in_order (hs : list string) (s : string) : Prop :=
  match hs with
  | [] => True
  | h :: r => exists a b, s = a +:+ h +:+ b /\ in_order r b
  end.

Lemma in_order_skip (hs : list string) (a b : string) :
  in_order hs b -> in_order hs (a +:+ b).
Proof.
  destruct hs as [| h r]; [trivial |]. intros (a' & b' & -> & Hr).
  exists (a +:+ a'), b'. now rewrite append_assoc.
Qed.

Lemma in_order_here (h : string) (r : list string) (b : string) :
  in_order r b -> in_order (h :: r) (h +:+ b).
Proof. intros Hr. now exists "", b. Qed.

Lemma in_order_last (h : string) : in_order [h] h.
Proof. exists "", "". split; [now rewrite append_nil_r | exact I]. Qed.

Lemma in_order_here2 (h1 h2 : string) (r : list string) (b : string) :
  in_order r b -> in_order ((h1 +:+ h2) :: r) (h1 +:+ h2 +:+ b).
Proof. intros Hr. exists "", b. now rewrite append_assoc. Qed.

Ltac find_in_order :=
  repeat first [ exact I | apply in_order_last | apply in_order_here
               | apply in_order_here2 | apply in_order_skip ].

(** A value that is a string or [None]. *)
Definition text_or_none (v : pyval) : Prop :=
  match v with
  | PNone | PStr _ => True
  | _ => False
  end.

(** The scripts table of the detailed template: nothing at all for an
    empty [scripts] object. *)
Definition scripts_table (E : pyenv) (kv : list (string * pyval)) : string :=
  match kv with
  | [] => ""
  | _ =>
      esc "## üìú Scripts\n| Command | Description |\n|---|---|\n"
      +:+ cat (map (fun kv : string * pyval =>
                      "| `npm run " +:+ fst kv +:+ "` | " +:+ fmt E (snd kv) +:+ esc " |\n") kv)
      +:+ nl
  end.

Lemma scripts_section_dict (E : pyenv) (m : metadata) (kv : list (string * pyval)) :
  scripts m = PDict kv -> scripts_section E m = Ok (scripts_table E kv).
Proof. intros Hs. unfold scripts_section. rewrite Hs. now destruct kv. Qed.

Lemma py_or_text (a b : pyval) :
  text_or_none a -> (exists x, b = PStr x) -> exists x, py_or a b = PStr x.
Proof.
  intros Ha [x ->]. unfold py_or. destruct a; try contradiction; cbn; eauto.
  destruct (negb (s =? "")%string); eauto.
Qed.

Lemma usage_returns (E : pyenv) (m : metadata) (langs : list string)
    (kv : list (string * pyval)) :
  scripts m = PDict kv ->
  text_or_none (Python (entry_points m)) -> text_or_none (entry_point m) ->
  exists u, _generate_strict_usage E m langs = Ok u.
Proof.
  intros Hs Hp He. unfold _generate_strict_usage.
  assert (Hn : exists n, (if in_list "Node.js" langs then usage_node E m else Ok "") = Ok n).
  { destruct (in_list "Node.js" langs); [| eauto].
    unfold usage_node. rewrite Hs. cbn. eauto. }
  destruct Hn as [n ->]. cbn [rbind].
  assert (Hy : exists y, (if in_list "Python" langs then usage_python E m else Ok "") = Ok y).
  { destruct (in_list "Python" langs); [| eauto]. unfold usage_python.
    destruct (in_set "fastapi" (Python (dependencies m))); [| eauto].
    destruct (py_or_text (Python (entry_points m))
                (py_or (entry_point m) (PStr "main.py")) Hp) as [x ->]; [| cbn; eauto].
    apply py_or_text; eauto. }
  destruct Hy as [y ->]. cbn [rbind]. eauto.
Qed.

(** The headers and diagrams of the detailed document that are written
    whatever the scan found, in the order in which [build_markdown] writes
    them. *)
Definition detailed_outline (E : pyenv) (m : metadata) : list string :=
  [
    "# ";
    esc "## üìù Description\n";
    esc "## üì∏ Screenshot\n![App Screenshot](https://via.placeholder.com/800x400?text=Application+Screenshot)\n\n";
    esc "## üìë Table of Contents\n";
    esc "## üèó Architecture\n";
    esc "### Component Architecture\n"; architecture_chart E m;
    esc "### Application Flow\n"; application_flow m;
    esc "## üìÇ Project Structure\n" +:+ structure m;
    esc "## ‚öôÔ∏è Installation\n";
    esc "## üöÄ Usage\n";
    esc "## üìä Project Health Snapshot\n\n";
    contributing_section;
    esc "## üîÆ Suggested Next Steps (Auto-generated)\n\n";
    esc "## üìÑ License\nThis project is licensed under the **" ].

(** The detailed document, part by part, up to the services section: the
    title, the badges, the description, the developer note, the
    screenshot placeholder, the table of contents, the tech stack, the
    architecture diagrams, the project structure, the installation steps,
    the usage text, and the API, environment, Docker and services
    sections. *)
Definition detailed_head (E : pyenv) (s : scanner) (usage : string) : list string :=
  let m := meta s in
  let langs := sorted_set (languages m) in
  [
    "# " +:+ fmt E (project_name m) +:+ esc "\n\n";
    repo_badges m langs;
    esc "## üìù Description\n" +:+ fmt E (description m) +:+ esc "\n\n";
    (if negb (String.eqb (custom_context s) "")
     then "> **Developer Note:** " +:+ custom_context s +:+ esc "\n\n" else "");
    esc "## üì∏ Screenshot\n![App Screenshot](https://via.placeholder.com/800x400?text=Application+Screenshot)\n\n";
    table_of_contents m;
    (if _has_tech_stack_details m
     then esc "## üõ† Tech Stack\n" +:+ _generate_tech_stack_list m +:+ nl else "");
    esc "## üèó Architecture\n" +:+ generate_diagrams E m +:+ esc "\n\n";
    esc "## üìÇ Project Structure\n" +:+ structure m +:+ esc "\n\n";
    esc "## ‚öôÔ∏è Installation\n" +:+ _generate_strict_install E m langs;
    esc "## üöÄ Usage\n" +:+ usage;
    (if list_truthy (api_endpoints m) then _generate_api_section m else "");
    (if set_truthy (env_vars m) then _generate_env_section m else "");
    (if has_docker m then _generate_docker_section m else "");
    (if list_truthy (services m) then _generate_services_section m else "") ].

(** The parts that close the detailed document: project health, the
    contributing section, the next steps and the license. *)
Definition detailed_tail (s : scanner) : list string :=
  let m := meta s in
  [
    _generate_health_section m;
    contributing_section;
    _generate_next_steps_section m;
    esc "## üìÑ License\nThis project is licensed under the **" +:+ license m +:+ "**." ].

Lemma cat_app (a b : list string) : cat (a ++ b) = cat a +:+ cat b.
Proof.
  induction a as [| x a IH]; [reflexivity |]. cbn [app cat fold_right].
  fold (cat (a ++ b)). fold (cat a). now rewrite IH, append_assoc.
Qed.

Lemma detailed_markdown_parts (E : pyenv) (s : scanner) (usage table : string) :
  let m := meta s in
  let langs := sorted_set (languages m) in
  detailed_markdown E s langs usage table
  = cat (detailed_head E s usage
         ++ [table; dependencies_section m langs; testing_section m langs]
         ++ detailed_tail s).
Proof.
  cbv zeta. unfold detailed_markdown, detailed_head, detailed_tail, cat. cbv zeta.
  cbn [app fold_right]. rewrite !append_assoc, append_nil_r. reflexivity.
Qed.

(** C6 (as amended).  For a build context whose [scripts] is an object
    and whose entry points are strings or absent, the detailed template
    returns a document that is made of exactly these parts, in this
    order: the title, the badges, the description, the developer note,
    the screenshot placeholder, the table of contents, the tech stack,
    the architecture header with the two diagrams, the project structure
    header with the tree text of the scan, the installation steps, the
    usage text, the API, environment, Docker and services sections, the
    scripts table, the dependencies list, the testing section, the
    project health section, the contributing section (five steps, from
    forking the project to opening a pull request), the suggested next
    steps and the license; the headers that are always written occur in
    this order.  Without scripts, dependencies and tests the three parts
    in the middle are the empty text: the document is the parts before
    them followed at once by the parts after them, and no sentinel takes
    their place. *)
Theorem C6_detailed_sections (E : pyenv) (s : scanner) (kv : list (string * pyval)) :
  scripts (meta s) = PDict kv ->
  text_or_none (Python (entry_points (meta s))) ->
  text_or_none (entry_point (meta s)) ->
  let m := meta s in
  let langs := sorted_set (languages m) in
  exists md usage,
    build_markdown E s "Detailed" = Ok md
    /\ _generate_strict_usage E m langs = Ok usage
    /\ md = cat (detailed_head E s usage
                 ++ [scripts_table E kv; dependencies_section m langs;
                     testing_section m langs]
                 ++ detailed_tail s)
    /\ in_order (detailed_outline E m) md
    /\ (kv = [] -> any_dependencies m = false -> has_tests m = false ->
        md = cat (detailed_head E s usage ++ detailed_tail s)).
Proof.
  intros Hs Hp He m langs.
  destruct (usage_returns E m langs kv Hs Hp He) as [u Hu].
  unfold build_markdown. fold m langs. cbn [String.eqb Ascii.eqb Bool.eqb].
  rewrite Hu. cbn [rbind]. rewrite (scripts_section_dict E m kv Hs). cbn [rbind].
  exists (detailed_markdown E s langs u (scripts_table E kv)), u.
  split; [reflexivity |]. split; [reflexivity |]. split; [| split].
  - apply detailed_markdown_parts.
  - unfold detailed_outline, detailed_markdown, table_of_contents, generate_diagrams,
      _generate_health_section, _generate_next_steps_section. cbv zeta. fold m langs.
    rewrite ?append_assoc.
    find_in_order.
  - intros -> Hd Ht. subst m langs.
    rewrite (detailed_markdown_parts E s u (scripts_table E [])). cbv zeta.
    rewrite !cat_app. f_equal.
    unfold dependencies_section, testing_section. rewrite Hd, Ht. reflexivity.
Qed.

(** A build context as a scan of a small Node.js project leaves it: one
    script and one dependency. *)
Definition node_scanner : scanner :=
  upd_meta
    (fun m =>
       upd_scripts (fun _ => PDict [("start", PStr "node index.js")])
         (upd_languages (fun _ => {["Node.js"]})
            (upd_dependencies (upd_Node_js (fun _ => {["express"]})) m)))
    (DeepScanner "proj" "").

Lemma C6_witness :
  exists md usage,
    build_markdown plain_env node_scanner "Detailed" = Ok md
    /\ _generate_strict_usage plain_env (meta node_scanner)
         (sorted_set (languages (meta node_scanner))) = Ok usage
    /\ md = cat (detailed_head plain_env node_scanner usage
                 ++ [scripts_table plain_env [("start", PStr "node index.js")];
                     dependencies_section (meta node_scanner)
                       (sorted_set (languages (meta node_scanner)));
                     testing_section (meta node_scanner)
                       (sorted_set (languages (meta node_scanner)))]
                 ++ detailed_tail node_scanner)
    /\ in_order (detailed_outline plain_env (meta node_scanner)) md
    /\ ([("start", PStr "node index.js")] = [] ->
        any_dependencies (meta node_scanner) = false ->
        has_tests (meta node_scanner) = false ->
        md = cat (detailed_head plain_env node_scanner usage ++ detailed_tail node_scanner)).
Proof.
  apply (C6_detailed_sections plain_env node_scanner [("start", PStr "node index.js")]).
  - reflexivity.
  - exact I.
  - exact I.
Defined.

(** C6, the claim as stated: the detailed document of an empty project is
    returned, and it holds no features header, no scripts or dependencies
    text of any kind, no usage sub-sections and no code-style guidance. *)
Lemma C6_counterexample :
  document_test
    (fun md => existsb (fun w => contains w md)
                 ["eatures"; "cripts"; "ependencies"; "one found"; "asic"; "ommon";
                  "ode style"; "ode Style"; "uidelines"])
    (fst (generate_readme plain_env clone_host "proj" "Detailed" "" {[ "proj" := FsDir [] ]}))
  = Some false.
Proof. vm_compute. reflexivity. Qed.

(** ** Language detection *)

(** Modelled from the spec: the language detector ([detect_languages] and
    [get_primary_language] of [app.detectors]) is not among the sources;
    [core.py] keeps a set of language names and per-language file counts,
    without confidences.  The data are those that the tests of the
    detector build: a [ProjectStructure] of [FileInfo] records, each with
    the extension that the scanner gave it, and [Language] records with a
    name, a confidence and indicators.  The rule is the one of the
    specification: the weight of a language is the number of its source
    files, or, when it has none, the number of its indicator files; its
    confidence is the quotient of its weight and the total weight.

    Two things are left open, so that nothing below depends on them: the
    table of the ecosystems, with the way each recognises its source files
    and its indicator files, and the rounding [rnd] of the floating-point
    division and addition (the confidences are Python floats, and the sum
    is the one of [sum], from the left, starting at 0). *)
Module LanguageDetector.

Record FileInfo : Type := mkFileInfo
  { path : string; name : string; extension : string; size : nat }.

Record ProjectStructure : Type := mkProjectStructure
  { root_path : string; files : list FileInfo; directories : list string; tree : string }.

Record Language : Type := mkLanguage
  { language_name : string; confidence : Q; indicators : list string }.

Record ecosystem : Type := mkEcosystem
  { language : string; is_source : FileInfo -> bool; is_indicator : FileInfo -> bool }.

(** An ecosystem given by extensions and by names of indicator files. *)
Definition by_names (lang : string) (extensions indicator_files : list string) : ecosystem :=
  mkEcosystem lang (fun f => in_list (extension f) extensions)
    (fun f => in_list (name f) indicator_files).

Section Detector.

Variable ECOSYSTEMS : list ecosystem.
Variable rnd : Q -> Q.

(** The files that speak for a language: its source files, or its
    indicator files when it has no source file. *)
Definition signal (e : ecosystem) (structure : ProjectStructure) : list FileInfo :=
  match List.filter (is_source e) (files structure) with
  | [] => List.filter (is_indicator e) (files structure)
  | srcs => srcs
  end.

Definition weight (e : ecosystem) (structure : ProjectStructure) : nat :=
  length (signal e structure).

Definition total (structure : ProjectStructure) : nat :=
  list_sum (map (fun e => weight e structure) ECOSYSTEMS).

(** The quotient [w / t] of two counts, before it is rounded. *)
Definition share (w t : nat) : Q := Z.of_nat w # Pos.of_nat t.

Definition detect_languages (structure : ProjectStructure) : list Language :=
  map (fun e => mkLanguage (language e)
                  (rnd (share (weight e structure) (total structure)))
                  (map path (signal e structure)))
    (List.filter (fun e => 0 <? weight e structure) ECOSYSTEMS).

(** [sum(lang.confidence for lang in languages)]. *)
Definition total_confidence (languages : list Language) : Q :=
  fold_left (fun acc l => rnd (acc + confidence l)%Q) languages 0%Q.

End Detector.

(** The language of highest confidence; of two equal ones, the earlier. *)
Fixpoint get_primary_language (languages : list Language) : option Language :=
  match languages with
  | [] => None
  | l :: r =>
      match get_primary_language r with
      | Some b => if Qle_bool (confidence b) (confidence l) then Some l else Some b
      | None => Some l
      end
  end.

(** The rule of the specification on indicators, for any detector: every
    language of a result carries an indicator, and every indicator is the
    path of a file of the structure. *)
Definition indicators_present (detect : ProjectStructure -> list Language) : Prop :=
  forall structure l,
    In l (detect structure) ->
    indicators l <> []
    /\ forall i, In i (indicators l) -> In i (map path (files structure)).

(** The sum of the confidences is within 0.01 of 1. *)
Definition normalised (rnd : Q -> Q) (languages : list Language) : Prop :=
  (Qabs (total_confidence rnd languages - 1) < 1 # 100)%Q.

(** The ecosystems that the tests of the detector exercise. *)
Definition TESTED_ECOSYSTEMS : list ecosystem :=
  [ by_names "Python" [".py"] ["requirements.txt"; "setup.py"; "pyproject.toml"; "Pipfile"];
    by_names "JavaScript" [".js"] ["package.json"];
    by_names "Rust" [".rs"] ["Cargo.toml"] ].

End LanguageDetector.

(** *** Rounding errors of a sum

    A sum of [n] rounded terms, added from the left with one rounding
    each, lies between [(1 - u)^(n + 1)] and [(1 + u)^(n + 1)] times the
    exact sum, when every rounding has a relative error of at most [u]. *)

Fixpoint qpow (x : Q) (n : nat) : Q :=
  match n with
  | O => 1%Q
  | S k => (x * qpow x k)%Q
  end.

(** A count as a rational number. *)
Definition qnat (n : nat) : Q := inject_Z (Z.of_nat n).

Lemma qnat_S (n : nat) : (qnat (S n) == qnat n + 1)%Q.
Proof.
  unfold qnat. rewrite Nat2Z.inj_succ. unfold Z.succ. rewrite inject_Z_plus. reflexivity.
Qed.

Lemma qnat_nonneg (n : nat) : (0 <= qnat n)%Q.
Proof. unfold qnat. change 0%Q with (inject_Z 0). rewrite <- Zle_Qle. lia. Qed.

Lemma qnat_le (n m : nat) : n <= m -> (qnat n <= qnat m)%Q.
Proof. intros H. unfold qnat. rewrite <- Zle_Qle. lia. Qed.

Section Rounding.

Variable rnd : Q -> Q.
Variable u : Q.
Hypothesis u_nonneg : (0 <= u)%Q.
Hypothesis u_small : (u <= 1)%Q.
Hypothesis rnd_error : forall x : Q, (0 <= x)%Q -> ((1 - u) * x <= rnd x /\ rnd x <= (1 + u) * x)%Q.

Lemma qpow_lo_range (j : nat) : (0 <= qpow (1 - u) j /\ qpow (1 - u) j <= 1)%Q.
Proof.
  induction j as [| j [IH0 IH1]]; cbn [qpow]; [lra |]. split; nra.
Qed.

Lemma qpow_hi_range (j : nat) : (1 <= qpow (1 + u) j)%Q.
Proof. induction j as [| j IH]; cbn [qpow]; [lra | nra]. Qed.

Lemma bernoulli_lo (m : nat) : (1 - qnat m * u <= qpow (1 - u) m)%Q.
Proof.
  induction m as [| m IH]; cbn [qpow].
  - change (qnat 0) with 0%Q. lra.
  - rewrite qnat_S. pose proof (qnat_nonneg m) as Hq.
    pose proof (qpow_lo_range m) as [? ?].
    assert (0 <= qnat m * (u * u))%Q by (apply Qmult_le_0_compat; [exact Hq | nra]).
    nra.
Qed.

Lemma bernoulli_hi (m : nat) :
  (2 * (qnat m * u) <= 1)%Q -> (qpow (1 + u) m <= 1 + 2 * (qnat m * u))%Q.
Proof.
  induction m as [| m IH]; cbn [qpow].
  - intros _. change (qnat 0) with 0%Q. lra.
  - rewrite qnat_S. intros Hm. pose proof (qnat_nonneg m) as Hq.
    assert (Hm' : (2 * (qnat m * u) <= 1)%Q) by nra.
    specialize (IH Hm'). nra.
Qed.

(** The exact sum. *)
Definition qsum (l : list Q) : Q := fold_right Qplus 0%Q l.

Lemma fold_bounds (cs : list Q) :
  forall (a T : Q) (j : nat),
    List.Forall (fun c => (0 <= c)%Q) cs -> (0 <= T)%Q -> 1 <= j ->
    (qpow (1 - u) j * T <= a)%Q -> (a <= qpow (1 + u) j * T)%Q ->
    (qpow (1 - u) (j + length cs) * (T + qsum cs)
     <= fold_left (fun acc c => rnd (acc + rnd c)) cs a)%Q
    /\ (fold_left (fun acc c => rnd (acc + rnd c)) cs a
        <= qpow (1 + u) (j + length cs) * (T + qsum cs))%Q.
Proof.
  induction cs as [| c cs IH]; intros a T j Hcs HT Hj Hlo Hhi.
  - cbn [fold_left length qsum fold_right]. rewrite Nat.add_0_r. split; lra.
  - inversion Hcs as [| ? ? Hc Hcs']; subst.
    cbn [fold_left length qsum fold_right].
    replace (j + S (length cs)) with (S j + length cs) by lia.
    assert (Heq : (T + (c + qsum cs) == (T + c) + qsum cs)%Q) by ring.
    destruct (rnd_error c Hc) as [Hc1 Hc2].
    pose proof (qpow_lo_range j) as [HL0 HL1].
    pose proof (qpow_hi_range j) as HH.
    assert (HLlo : (qpow (1 - u) j <= 1 - u)%Q).
    { destruct j as [| j]; [lia |]. cbn [qpow]. pose proof (qpow_lo_range j) as [? ?]. nra. }
    assert (HHhi : (1 + u <= qpow (1 + u) j)%Q).
    { destruct j as [| j]; [lia |]. cbn [qpow]. pose proof (qpow_hi_range j). nra. }
    assert (Hin_lo : (qpow (1 - u) j * (T + c) <= a + rnd c)%Q) by nra.
    assert (Hin_hi : (a + rnd c <= qpow (1 + u) j * (T + c))%Q) by nra.
    assert (Hin0 : (0 <= a + rnd c)%Q) by nra.
    destruct (rnd_error (a + rnd c) Hin0) as [Hr1 Hr2].
    destruct (IH (rnd (a + rnd c)) (T + c)%Q (S j) Hcs') as [I1 I2];
      [lra | lia | cbn [qpow]; nra | cbn [qpow]; nra |].
    rewrite Heq. split; assumption.
Qed.

End Rounding.

(** *** The shares of the languages *)

Section Shares.

Import LanguageDetector.

Lemma share_add (a b t : nat) : (share a t + share b t == share (a + b) t)%Q.
Proof.
  unfold share, Qeq, Qplus. cbn [Qnum Qden].
  rewrite Nat2Z.inj_add, Pos2Z.inj_mul. ring.
Qed.

Lemma share_all (t : nat) : 0 < t -> (share t t == 1)%Q.
Proof.
  intros Ht. unfold share, Qeq. cbn [Qnum Qden].
  rewrite <- (positive_nat_Z (Pos.of_nat t)), Nat2Pos.id by lia. ring.
Qed.

Lemma share_nonneg (w t : nat) : (0 <= share w t)%Q.
Proof. unfold share, Qle. cbn [Qnum Qden]. lia. Qed.

Lemma qsum_shares {A : Type} (w : A -> nat) (t : nat) (l : list A) :
  (qsum (map (fun e => share (w e) t) l) == share (list_sum (map w l)) t)%Q.
Proof.
  induction l as [| a l IH]; cbn [map qsum fold_right list_sum].
  - reflexivity.
  - fold (qsum (map (fun e => share (w e) t) l)). rewrite IH. apply share_add.
Qed.

Lemma list_sum_positive {A : Type} (w : A -> nat) (l : list A) :
  list_sum (map w (List.filter (fun e => 0 <? w e) l)) = list_sum (map w l).
Proof.
  induction l as [| a l IH]; [reflexivity |]. cbn [List.filter].
  change (list_sum (map w (a :: l))) with (w a + list_sum (map w l)).
  destruct (0 <? w a) eqn:Hw.
  - change (list_sum (map w (a :: ?r))) with (w a + list_sum (map w r)).
    now rewrite <- IH.
  - rewrite IH. apply Nat.ltb_ge in Hw. lia.
Qed.

Lemma total_confidence_fold {A : Type} (rnd : Q -> Q) (n : A -> string) (c : A -> Q)
    (sg : A -> list string) (l : list A) (a : Q) :
  fold_left (fun acc x => rnd (acc + confidence x)%Q)
    (map (fun e => mkLanguage (n e) (rnd (c e)) (sg e)) l) a
  = fold_left (fun acc x => rnd (acc + rnd x)%Q) (map c l) a.
Proof.
  revert a. induction l as [| e l IH]; intros a; [reflexivity |].
  cbn [map fold_left confidence]. apply IH.
Qed.

Lemma primary_is_highest (ls : list Language) :
  ls <> [] ->
  exists p, get_primary_language ls = Some p
    /\ In p ls
    /\ List.Forall (fun l => (confidence l <= confidence p)%Q) ls.
Proof.
  induction ls as [| l r IH]; [congruence |]. intros _. cbn [get_primary_language].
  destruct r as [| l' r'].
  - exists l. cbn. repeat split; auto. constructor; [apply Qle_refl | constructor].
  - destruct IH as (b & -> & Hin & Hall); [congruence |].
    destruct (Qle_bool (confidence b) (confidence l)) eqn:Hle.
    + apply Qle_bool_iff in Hle. exists l. repeat split; [now left |].
      constructor; [apply Qle_refl |].
      eapply List.Forall_impl; [| exact Hall]. cbn. intros x Hx. now apply Qle_trans with (1 := Hx).
    + exists b. repeat split; [now right |].
      constructor; [| exact Hall].
      apply Qlt_le_weak, Qnot_le_lt. intros Hc. apply Qle_bool_iff in Hc. congruence.
Qed.

Lemma no_files_no_language (detect : ProjectStructure -> list Language)
    (structure : ProjectStructure) :
  indicators_present detect -> files structure = [] -> detect structure = [].
Proof.
  intros Hind Hf. destruct (detect structure) as [| l r] eqn:Hd; [reflexivity |].
  destruct (Hind structure l) as [Hne Hin]; [rewrite Hd; now left |].
  destruct (LanguageDetector.indicators l) as [| i r0]; [congruence |].
  specialize (Hin i (or_introl eq_refl)). rewrite Hf in Hin. destruct Hin.
Qed.

Lemma detect_languages_indicators (ECOSYSTEMS : list ecosystem) (rnd : Q -> Q) :
  indicators_present (detect_languages ECOSYSTEMS rnd).
Proof.
  intros structure l Hl. unfold detect_languages in Hl.
  apply in_map_iff in Hl as (e & <- & He). apply filter_In in He as [_ He].
  apply Nat.ltb_lt in He. unfold weight in He. cbn [indicators]. split.
  - destruct (signal e structure); [cbn in He; lia | discriminate].
  - intros i Hi. apply in_map_iff in Hi as (f & <- & Hf). apply in_map.
    unfold signal in Hf.
    destruct (List.filter (is_source e) (files structure)) eqn:Hs.
    + now apply filter_In in Hf as [Hf _].
    + rewrite <- Hs in Hf. now apply filter_In in Hf as [Hf _].
Qed.

End Shares.

(** *** A rounding *)

Local Open Scope Z_scope.

(** Rounding towards zero that keeps 54 or 55 significant bits of a
    positive number: the number is scaled by the power of two that brings it
    between 2^53 and 2^55, cut to an integer and scaled back. *)
Definition chop (x : Q) : Q :=
  let n := Qnum x in
  let d := Zpos (Qden x) in
  if n <=? 0 then 0%Q
  else
    let k := 54 + Z.log2 d - Z.log2 n in
    if 0 <=? k then (n * 2 ^ k / d) # Z.to_pos (2 ^ k)
    else inject_Z (n / (d * 2 ^ (- k)) * 2 ^ (- k)).

Definition unit_roundoff : Q := 1 # 9007199254740992.

Lemma chop_cut (C n D m : Z) :
  0 < C -> 0 < D -> C <= m -> D * m <= n -> n < D * (m + 1) ->
  (C - 1) * n <= C * (m * D).
Proof. intros HC HD Hm H1 H2. nia. Qed.

Lemma chop_error (x : Q) :
  (0 <= x)%Q ->
  ((1 - unit_roundoff) * x <= chop x /\ chop x <= (1 + unit_roundoff) * x)%Q.
Proof.
  destruct x as [n d]. intros Hx. unfold Qle in Hx. cbn [Qnum Qden] in Hx.
  unfold chop. cbn [Qnum Qden].
  destruct (n <=? 0) eqn:Hn.
  - apply Z.leb_le in Hn. assert (n = 0) by lia. subst n.
    unfold Qle, Qmult, Qminus, Qplus, Qopp, unit_roundoff. cbn [Qnum Qden]. split; lia.
  - apply Z.leb_gt in Hn.
    set (C := 9007199254740992).
    assert (HC : C = 2 ^ 53) by reflexivity.
    assert (HC0 : 0 < C) by reflexivity.
    destruct (Z.log2_spec n Hn) as [Hn1 _].
    destruct (Z.log2_spec (Z.pos d) (Pos2Z.is_pos d)) as [_ Hd2].
    pose proof (Z.log2_nonneg n) as Hln. pose proof (Z.log2_nonneg (Z.pos d)) as Hld.
    set (ln := Z.log2 n) in *. set (ld := Z.log2 (Z.pos d)) in *.
    destruct (0 <=? 54 + ld - ln) eqn:Hk.
    + apply Z.leb_le in Hk. set (k := 54 + ld - ln) in *.
      set (P := 2 ^ k). assert (HP : 0 < P) by (apply Z.pow_pos_nonneg; lia).
      set (m := n * P / Z.pos d).
      assert (H1 : Z.pos d * m <= n * P) by (apply Z.mul_div_le; lia).
      assert (H2 : n * P < Z.pos d * (m + 1)).
      { change (m + 1) with (Z.succ m). apply Z.mul_succ_div_gt. lia. }
      assert (Hm : C <= m).
      { apply Z.div_le_lower_bound; [lia |].
        assert (Hpow : 2 ^ ln * P = C * 2 ^ Z.succ ld).
        { unfold P. rewrite HC, <- !Z.pow_add_r by lia. f_equal. lia. }
        nia. }
      pose proof (chop_cut C (n * P) (Z.pos d) m HC0 (Pos2Z.is_pos d) Hm H1 H2) as Hcut.
      unfold Qle, Qmult, Qminus, Qplus, Qopp, unit_roundoff. cbn [Qnum Qden].
      rewrite !Pos2Z.inj_mul, Z2Pos.id by exact HP. fold C. split; nia.
    + apply Z.leb_gt in Hk. set (j := - (54 + ld - ln)) in *.
      assert (Hj : 0 < j) by lia.
      set (P := 2 ^ j). assert (HP : 0 < P) by (apply Z.pow_pos_nonneg; lia).
      set (D := Z.pos d * P). assert (HD : 0 < D) by nia.
      set (m := n / D).
      assert (H1 : D * m <= n) by (apply Z.mul_div_le; lia).
      assert (H2 : n < D * (m + 1)).
      { change (m + 1) with (Z.succ m). apply Z.mul_succ_div_gt. lia. }
      assert (Hm : C <= m).
      { apply Z.div_le_lower_bound; [lia |].
        assert (Hpow : 2 ^ ln = C * (2 ^ Z.succ ld * P)).
        { unfold P. rewrite HC, <- !Z.pow_add_r by lia. f_equal. lia. }
        unfold D. nia. }
      pose proof (chop_cut C n D m HC0 HD Hm H1 H2) as Hcut.
      unfold Qle, Qmult, Qminus, Qplus, Qopp, unit_roundoff, inject_Z. cbn [Qnum Qden].
      rewrite !Pos2Z.inj_mul. fold C. unfold D in *. split; nia.
Qed.

Local Close Scope Z_scope.

(** C1 (as amended).  Take any table of ecosystems and any rounding
    [rnd] whose relative error on a non-negative number is at most [u],
    with [u] so small that one more than the number of ecosystems, times
    [u], is below 1/200 (for double precision [u] is 2^-53).  Then for
    every structure in which at least one language is detected, the
    confidences of the detected languages are non-negative, their sum,
    added from the left as [sum] does, is within 0.01 of 1, and the
    primary-language query returns a language of the result whose
    confidence no other exceeds. *)
Theorem C1_confidences_normalised (ECOSYSTEMS : list LanguageDetector.ecosystem)
    (rnd : Q -> Q) (u : Q) (structure : LanguageDetector.ProjectStructure) :
  (0 <= u)%Q ->
  (qnat (S (length ECOSYSTEMS)) * u < 1 # 200)%Q ->
  (forall x : Q, (0 <= x)%Q -> ((1 - u) * x <= rnd x /\ rnd x <= (1 + u) * x)%Q) ->
  LanguageDetector.detect_languages ECOSYSTEMS rnd structure <> [] ->
  let languages := LanguageDetector.detect_languages ECOSYSTEMS rnd structure in
  List.Forall (fun l => (0 <= LanguageDetector.confidence l)%Q) languages
  /\ LanguageDetector.normalised rnd languages
  /\ exists p,
       LanguageDetector.get_primary_language languages = Some p
       /\ In p languages
       /\ List.Forall
            (fun l => (LanguageDetector.confidence l <= LanguageDetector.confidence p)%Q)
            languages.
Proof.
  intros Hu0 Hfew Hrnd Hne. cbv zeta.
  assert (Hn1 : (1 <= qnat (S (length ECOSYSTEMS)))%Q).
  { change 1%Q with (qnat 1). apply qnat_le. lia. }
  assert (Hu1 : (u <= 1)%Q) by nra.
  split; [| split].
  - unfold LanguageDetector.detect_languages. apply List.Forall_forall. intros l Hl.
    apply in_map_iff in Hl as (e & <- & _). cbn [LanguageDetector.confidence].
    pose proof (share_nonneg (LanguageDetector.weight e structure)
                  (LanguageDetector.total ECOSYSTEMS structure)) as Hs.
    destruct (Hrnd _ Hs) as [Hlo _]. nra.
  - unfold LanguageDetector.normalised, LanguageDetector.total_confidence,
      LanguageDetector.detect_languages in *.
    set (es := List.filter _ ECOSYSTEMS) in *.
    rewrite (total_confidence_fold rnd LanguageDetector.language
               (fun e => LanguageDetector.share (LanguageDetector.weight e structure)
                           (LanguageDetector.total ECOSYSTEMS structure))).
    set (cs := map _ es).
    assert (Hcs : List.Forall (fun c => (0 <= c)%Q) cs).
    { apply List.Forall_forall. intros c Hc. apply in_map_iff in Hc as (e & <- & _).
      apply share_nonneg. }
    assert (Hsum : (qsum cs == 1)%Q).
    { unfold cs. rewrite qsum_shares. unfold es.
      rewrite (list_sum_positive (fun e => LanguageDetector.weight e structure)).
      apply share_all. fold (LanguageDetector.total ECOSYSTEMS structure).
      unfold LanguageDetector.total.
      rewrite <- (list_sum_positive (fun e => LanguageDetector.weight e structure)).
      fold es. assert (Hpos : forall e, In e es -> 0 < LanguageDetector.weight e structure).
      { intros e He. apply filter_In in He as [_ He]. now apply Nat.ltb_lt in He. }
      clearbody es. destruct es as [| e r]; [now cbn in Hne |].
      specialize (Hpos e (or_introl eq_refl)). cbn. lia. }
    assert (Hlen : length cs <= length ECOSYSTEMS).
    { unfold cs. rewrite length_map. unfold es. apply List.filter_length_le. }
    destruct (fold_bounds rnd u Hu0 Hu1 Hrnd cs 0%Q 0%Q 1 Hcs) as [Hlo Hhi];
      [lra | lia | lra | lra |].
    set (acc := fold_left _ cs 0%Q) in *.
    pose proof (qnat_le (1 + length cs) (S (length ECOSYSTEMS)) ltac:(lia)) as Hq.
    pose proof (qnat_nonneg (1 + length cs)) as Hq0.
    assert (Hm : (qnat (1 + length cs) * u < 1 # 200)%Q) by nra.
    pose proof (bernoulli_lo u Hu0 Hu1 (1 + length cs)) as Hb1.
    pose proof (bernoulli_hi u Hu0 Hu1 (1 + length cs) ltac:(lra)) as Hb2.
    apply Qabs_Qlt_condition. split; nra.
  - now apply primary_is_highest.
Qed.

(** A structure with two Python files, one JavaScript file and the
    manifest of a Rust crate. *)
Definition polyglot : LanguageDetector.ProjectStructure :=
  LanguageDetector.mkProjectStructure "/tmp/polyglot"
    [ LanguageDetector.mkFileInfo "src/app.py" "app.py" ".py" 120;
      LanguageDetector.mkFileInfo "src/util.py" "util.py" ".py" 64;
      LanguageDetector.mkFileInfo "web/index.js" "index.js" ".js" 300;
      LanguageDetector.mkFileInfo "Cargo.toml" "Cargo.toml" ".toml" 80;
      LanguageDetector.mkFileInfo "README.md" "README.md" ".md" 10 ]
    ["src"; "web"] "".

Lemma C1_witness :
  let languages := LanguageDetector.detect_languages LanguageDetector.TESTED_ECOSYSTEMS chop polyglot in
  map LanguageDetector.language_name languages = ["Python"; "JavaScript"; "Rust"]
  /\ List.Forall (fun l => (0 <= LanguageDetector.confidence l)%Q) languages
  /\ LanguageDetector.normalised chop languages
  /\ exists p,
       LanguageDetector.get_primary_language languages = Some p
       /\ In p languages
       /\ List.Forall
            (fun l => (LanguageDetector.confidence l <= LanguageDetector.confidence p)%Q)
            languages.
Proof.
  split; [vm_compute; reflexivity |].
  apply (C1_confidences_normalised LanguageDetector.TESTED_ECOSYSTEMS chop unit_roundoff polyglot).
  - unfold Qle. cbn. lia.
  - vm_compute. reflexivity.
  - exact chop_error.
  - vm_compute. discriminate.
Defined.

(** A structure without files, and one with files that no ecosystem of
    the tests recognises. *)
Definition empty_project : LanguageDetector.ProjectStructure :=
  LanguageDetector.mkProjectStructure "/tmp/empty" [] [] "".

Definition notes_only : LanguageDetector.ProjectStructure :=
  LanguageDetector.mkProjectStructure "/tmp/notes"
    [ LanguageDetector.mkFileInfo "README.md" "README.md" ".md" 10;
      LanguageDetector.mkFileInfo "docs/notes.txt" "notes.txt" ".txt" 25 ]
    ["docs"] "".

(** C1, the claim as stated.  A detector that keeps the rule on
    indicators finds no language in a tree without files, whatever its
    table and its arithmetic: a language would need an indicator among the
    files.  The confidences then sum to 0, which is not within 0.01 of 1,
    and there is no primary language.  The detector modelled here keeps
    that rule, and it also finds nothing in a tree of notes. *)
Lemma C1_counterexample :
  (forall (detect : LanguageDetector.ProjectStructure -> list LanguageDetector.Language)
          (rnd : Q -> Q),
      LanguageDetector.indicators_present detect ->
      detect empty_project = []
      /\ LanguageDetector.total_confidence rnd (detect empty_project) = 0%Q
      /\ ~ LanguageDetector.normalised rnd (detect empty_project)
      /\ LanguageDetector.get_primary_language (detect empty_project) = None)
  /\ (forall ECOSYSTEMS rnd,
        LanguageDetector.indicators_present
          (LanguageDetector.detect_languages ECOSYSTEMS rnd))
  /\ LanguageDetector.detect_languages LanguageDetector.TESTED_ECOSYSTEMS chop notes_only = []
  /\ ~ LanguageDetector.normalised chop
        (LanguageDetector.detect_languages LanguageDetector.TESTED_ECOSYSTEMS chop notes_only).
Proof.
  split; [| split; [| split]].
  - intros detect rnd Hind.
    rewrite (no_files_no_language detect empty_project Hind eq_refl).
    repeat split. intros Hn. vm_compute in Hn. discriminate.
  - exact detect_languages_indicators.
  - vm_compute. reflexivity.
  - intros Hn. vm_compute in Hn. discriminate.
Qed.

(** * Further properties of the scanner and of the pipeline

    What follows holds for every tree, every scanner state and every
    outcome of the regular expressions, unless a hypothesis says otherwise. *)

Set Warnings "-clear-no-such-hyp".

(** * What the scan writes *)

(** ** The assignments of the scan

    One constructor for each assignment that [_scan_tree], the parsers it
    calls and the rest of [scan] after [_scan_license] make to
    [self.metadata], with the condition under which the source makes it. *)

Definition LANGUAGES : list string := ["Python"; "Node.js"; "Java"; "Go"].

(** [for ep in sorted(endpoints): if ep not in api_endpoints: append] *)
Definition add_endpoints (fresh eps : list string) : list string :=
  fold_left (fun acc ep => if in_list ep acc then acc else acc ++ [ep]) fresh eps.

(** The counters of a source file: [stats[files]] by extension, then
    [stats[test_files]] when the name or the directory says test. *)
Definition count_code_file (root name ext : string) (m : metadata) : metadata :=
  let m := upd_stats (upd_files (count_file ext)) m in
  if is_test_file root name ext then upd_stats (upd_test_files S) m else m.

Inductive write : metadata -> metadata -> Prop :=
| write_project_name m v : write m (upd_project_name (fun _ => v) m)
| write_description m v : write m (upd_description (fun _ => v) m)
| write_scripts m v : write m (upd_scripts (fun _ => v) m)
| write_entry_point m v :
    truthy (entry_point m) = false -> write m (upd_entry_point (fun _ => v) m)
| write_entry_Python m v :
    truthy (Python (entry_points m)) = false ->
    write m (upd_entry_points (upd_Python (fun _ => v)) m)
| write_entry_Node_js m v :
    truthy (Node_js (entry_points m)) = false ->
    write m (upd_entry_points (upd_Node_js (fun _ => v)) m)
| write_entry_Java m v :
    truthy (Java (entry_points m)) = false ->
    write m (upd_entry_points (upd_Java (fun _ => v)) m)
| write_entry_Go m v :
    truthy (Go (entry_points m)) = false ->
    write m (upd_entry_points (upd_Go (fun _ => v)) m)
| write_entry_point_cmd m v : write m (upd_entry_point_cmd (fun _ => v) m)
| write_language m l : In l LANGUAGES -> write m (upd_languages (add_one l) m)
| write_deps_Python m l : write m (upd_dependencies (upd_Python (add_all l)) m)
| write_deps_Node_js m l : write m (upd_dependencies (upd_Node_js (add_all l)) m)
| write_deps_Java m l : write m (upd_dependencies (upd_Java (add_all l)) m)
| write_deps_Go m l : write m (upd_dependencies (upd_Go (add_all l)) m)
| write_modules m l : write m (upd_modules (fun x => x ++ l) m)
| write_env_vars m l :
    List.Forall (fun n => n <> "") l -> write m (upd_env_vars (add_all l) m)
| write_api_endpoints m fresh : write m (upd_api_endpoints (add_endpoints fresh) m)
| write_tests m l : write m (upd_tests (fun t => t ++ l) m)
| write_build_tools m x : write m (upd_build_tools (add_one x) m)
| write_requirements_path m p :
    write m (upd_python_requirements_path (first_path p) m)
| write_package_json_path m p :
    write m (upd_node_package_json_path (first_path p) m)
| write_go_mod_path m p : write m (upd_go_mod_path (first_path p) m)
| write_dockerfile m : write m (upd_docker (upd_dockerfile (fun _ => true)) m)
| write_compose m : write m (upd_docker (upd_compose_yml (fun _ => true)) m)
| write_has_ci m : write m (upd_stats (upd_has_ci (fun _ => true)) m)
| write_linting m x : write m (upd_stats (upd_linting (add_one x)) m)
| write_code_file m root name ext :
    in_list ext [".py"; ".js"; ".ts"; ".java"; ".go"] = true ->
    write m (count_code_file root name ext m)
| write_structure m text : write m (upd_structure (fun _ => text) m)
| write_service m svc : write m (upd_services (append_one svc) m)
| write_tech_stack m : write m (_infer_tech_stack m).

(** A run of assignments. *)
Inductive writes : metadata -> metadata -> Prop :=
| writes_refl m : writes m m
| writes_step m1 m2 m3 : writes m1 m2 -> write m2 m3 -> writes m1 m3.

Lemma writes_one (m m' : metadata) : write m m' -> writes m m'.
Proof. intros Hw. eapply writes_step; [apply writes_refl | exact Hw]. Qed.

Lemma writes_trans (m1 m2 m3 : metadata) : writes m1 m2 -> writes m2 m3 -> writes m1 m3.
Proof.
  intros H12 H23. induction H23 as [| m2 m3 m4 _ IH Hw]; [exact H12 |].
  eapply writes_step; [apply IH, H12 | exact Hw].
Qed.

Lemma writes_if (c : bool) (f : metadata -> metadata) (m : metadata) :
  writes m (f m) -> writes m (if c then f m else m).
Proof. destruct c; [auto | intros _; apply writes_refl]. Qed.

(** What holds before a run of assignments and is kept by each of them
    holds after it. *)
Lemma writes_invariant (P : metadata -> Prop) :
  (forall m m', write m m' -> P m -> P m') ->
  forall m m', writes m m' -> P m -> P m'.
Proof. intros Hstep m m' Hw. induction Hw; eauto. Qed.

(** ** The parsers as runs of assignments *)

Lemma writes_note_name_and_main (kv : list (string * pyval)) (m : metadata) :
  writes m (note_name_and_main kv m).
Proof.
  unfold note_name_and_main. cbv zeta.
  set (m1 := if truthy (dict_get kv "name") then _ else m).
  assert (H1 : writes m m1).
  { unfold m1. destruct (truthy _); [apply writes_one, write_project_name | apply writes_refl]. }
  clearbody m1. destruct (truthy (dict_get kv "main")); [| exact H1].
  set (m2 := if negb (truthy (Node_js (entry_points m1))) then _ else m1).
  assert (H2 : writes m1 m2).
  { unfold m2. destruct (truthy (Node_js (entry_points m1))) eqn:Hn; cbn [negb];
      [apply writes_refl | now apply writes_one, write_entry_Node_js]. }
  clearbody m2. apply (writes_trans _ _ _ H1). apply (writes_trans _ _ _ H2).
  destruct (truthy (entry_point m2)) eqn:He; cbn [negb];
    [apply writes_refl | now apply writes_one, write_entry_point].
Qed.

(** What [_parse_package_json] leaves behind: nothing when the file is not
    a JSON object; the name and the entry point when [dependencies] or
    [devDependencies] is not an object; everything otherwise. *)
Lemma parse_package_json_cases (f : file) (m : metadata) :
  exec (_parse_package_json f) m = m
  \/ exists kv, read_json f = Some (PDict kv)
       /\ (exec (_parse_package_json f) m = note_name_and_main kv m
           \/ exists deps devs,
                dict_get_or kv "dependencies" (PDict []) = PDict deps
                /\ dict_get_or kv "devDependencies" (PDict []) = PDict devs
                /\ exec (_parse_package_json f) m
                   = upd_tests (fun t => t ++ List.filter
                        (fun d => in_list d ["jest"; "mocha"; "chai"; "supertest"])
                        (map fst deps ++ map fst devs))
                       (let m2 := upd_scripts (fun _ => dict_get_or kv "scripts" (PDict []))
                                    (upd_dependencies (upd_Node_js (add_all (map fst deps)))
                                       (note_name_and_main kv m)) in
                        if truthy (dict_get kv "description")
                        then upd_description (fun _ => dict_get kv "description") m2 else m2)).
Proof.
  destruct (read_json f) as [data |] eqn:Hf.
  2:{ left. unfold exec, _parse_package_json, try_pass, parse_package_json_body.
      now rewrite Hf. }
  destruct data as [| b | z | t | l | kv];
    try (left; unfold exec, _parse_package_json, try_pass, parse_package_json_body;
         now rewrite Hf).
  right. exists kv. split; [reflexivity |].
  destruct (dict_get_or kv "dependencies" (PDict [])) as [| b | z | t | l | deps] eqn:Hd;
    [left | left | left | left | left |];
    try (apply exec_try_pass_raise with (e := AttributeError);
         unfold parse_package_json_body; rewrite Hf;
         erewrite bind_step by reflexivity;
         erewrite bind_step by apply when_modify;
         erewrite bind_step by reflexivity;
         erewrite bind_step by apply note_main_block;
         erewrite bind_step by reflexivity; rewrite Hd; reflexivity).
  destruct (dict_get_or kv "devDependencies" (PDict [])) as [| b | z | t | l | devs] eqn:Hv;
    [left | left | left | left | left |];
    try (apply exec_try_pass_raise with (e := AttributeError);
         unfold parse_package_json_body; rewrite Hf;
         erewrite bind_step by reflexivity;
         erewrite bind_step by apply when_modify;
         erewrite bind_step by reflexivity;
         erewrite bind_step by apply note_main_block;
         erewrite bind_step by reflexivity; rewrite Hd;
         erewrite bind_step by reflexivity;
         erewrite bind_step by reflexivity; rewrite Hv; reflexivity).
  right. exists deps, devs. split; [reflexivity |]. split; [reflexivity |].
  unfold exec. now rewrite (parse_package_json_effect f kv deps devs m Hf Hd Hv).
Qed.

Lemma writes_parse_package_json (f : file) (m : metadata) :
  writes m (exec (_parse_package_json f) m).
Proof.
  destruct (parse_package_json_cases f m) as [-> | (kv & _ & [-> | (deps & devs & _ & _ & ->)])].
  - apply writes_refl.
  - apply writes_note_name_and_main.
  - eapply writes_step; [| apply write_tests]. cbv zeta.
    eapply writes_trans;
      [| apply (writes_if _ (upd_description (fun _ => dict_get kv "description")));
         apply writes_one, write_description].
    eapply writes_step; [| apply write_scripts].
    eapply writes_step; [| apply write_deps_Node_js].
    apply writes_note_name_and_main.
Qed.

Lemma exec_parse_requirements (f : file) (m : metadata) :
  exec (_parse_requirements f) m
  = match read_utf8 f with
    | Some text =>
        let deps := requirement_names (readlines text) in
        upd_tests (fun t => t ++ List.filter
                     (fun d => in_list d ["pytest"; "unittest"; "nose"; "mock"]) deps)
          (upd_dependencies (upd_Python (add_all deps)) m)
    | None => m
    end.
Proof.
  destruct (read_utf8 f) as [text |] eqn:Hf.
  - unfold exec. now rewrite (parse_requirements_effect f text m Hf).
  - unfold exec, _parse_requirements, try_pass, parse_requirements_body. now rewrite Hf.
Qed.

Lemma writes_parse_requirements (f : file) (m : metadata) :
  writes m (exec (_parse_requirements f) m).
Proof.
  rewrite exec_parse_requirements. destruct (read_utf8 f); [| apply writes_refl].
  cbv zeta. eapply writes_step; [| apply write_tests].
  apply writes_one, write_deps_Python.
Qed.

Ltac note_entry_writes c :=
  unfold note_entry; cbv zeta;
  match goal with
  | |- writes ?m (if truthy (entry_point ?m1) then _ else _) =>
      let H1 := fresh "H1" in
      assert (H1 : writes m m1)
        by (destruct (truthy (_ (entry_points m))) eqn:?;
            [apply writes_refl | now apply writes_one, c]);
      apply (writes_trans _ _ _ H1);
      destruct (truthy (entry_point m1)) eqn:?;
      [apply writes_refl | now apply writes_one, write_entry_point]
  end.

Lemma writes_note_entry_Python (fname : string) (m : metadata) :
  writes m (note_entry Python upd_Python fname m).
Proof. note_entry_writes write_entry_Python. Qed.

Lemma writes_note_entry_Node_js (fname : string) (m : metadata) :
  writes m (note_entry Node_js upd_Node_js fname m).
Proof. note_entry_writes write_entry_Node_js. Qed.

Lemma writes_note_entry_Java (fname : string) (m : metadata) :
  writes m (note_entry Java upd_Java fname m).
Proof. note_entry_writes write_entry_Java. Qed.

Lemma writes_note_entry_Go (fname : string) (m : metadata) :
  writes m (note_entry Go upd_Go fname m).
Proof. note_entry_writes write_entry_Go. Qed.

Lemma writes_language (l : string) (m : metadata) :
  In l LANGUAGES -> writes m (upd_languages (add_one l) m).
Proof. intros Hl. now apply writes_one, write_language. Qed.

Lemma writes_analyze_python (E : pyenv) (fname content : string) (m : metadata) :
  writes m (analyze_python E fname content m).
Proof.
  unfold analyze_python. cbv zeta.
  eapply writes_step; [| apply write_deps_Python].
  eapply writes_step; [| apply write_modules].
  eapply writes_trans; [| apply writes_if, writes_note_entry_Python].
  apply writes_language. cbn. auto.
Qed.

Lemma writes_analyze_node (E : pyenv) (fname content : string) (m : metadata) :
  writes m (analyze_node E fname content m).
Proof.
  unfold analyze_node. cbv zeta.
  eapply writes_step; [| apply write_deps_Node_js].
  eapply writes_trans; [| apply writes_if, writes_note_entry_Node_js].
  apply writes_language. cbn. auto.
Qed.

Lemma writes_analyze_go (E : pyenv) (fname content : string) (m : metadata) :
  writes m (analyze_go E fname content m).
Proof.
  unfold analyze_go. cbv zeta.
  eapply writes_step; [| apply write_deps_Go].
  eapply writes_trans; [| apply writes_if, writes_note_entry_Go].
  apply writes_language. cbn. auto.
Qed.

Lemma writes_analyze_java (E : pyenv) (fname content : string) (m : metadata) :
  writes m (analyze_java E fname content m).
Proof.
  unfold analyze_java. cbv zeta.
  eapply writes_step; [| apply write_deps_Java].
  assert (Hl : writes m (upd_languages (add_one "Java") m))
    by (apply writes_language; cbn; auto).
  destruct (head (findall1 E RePyClass content)) as [c |];
    destruct (contains "public static void main" content).
  - eapply writes_step; [| apply write_entry_point_cmd].
    eapply writes_trans; [| apply writes_note_entry_Java].
    eapply writes_step; [exact Hl | apply (write_modules _ [c])].
  - eapply writes_step; [exact Hl | apply (write_modules _ [c])].
  - eapply writes_trans; [exact Hl | apply writes_note_entry_Java].
  - exact Hl.
Qed.

Lemma env_names_not_empty (l : list string) :
  List.Forall (fun n => n <> "") (List.filter (fun n => negb (String.eqb n "")) l).
Proof.
  apply List.Forall_forall. intros n Hn. apply filter_In in Hn as [_ Hn].
  apply negb_true_iff, String.eqb_neq in Hn. exact Hn.
Qed.

Lemma writes_detect_env_vars (E : pyenv) (content : string) (m : metadata) :
  writes m (_detect_env_vars E content m).
Proof.
  unfold _detect_env_vars. cbv zeta. apply writes_one, write_env_vars, env_names_not_empty.
Qed.

Lemma writes_detect_api_endpoints (E : pyenv) (content ext fname : string) (m : metadata) :
  writes m (_detect_api_endpoints E content ext fname m).
Proof.
  unfold _detect_api_endpoints. cbv zeta. apply writes_one.
  match goal with
  | |- write _ (upd_api_endpoints (fun eps => fold_left _ ?fresh eps) _) =>
      exact (write_api_endpoints m fresh)
  end.
Qed.

(** [_analyze_code], once the file is read, is a sequence of assignments;
    a file that cannot be read leaves the metadata as they were. *)
Lemma exec_analyze_code (E : pyenv) (f : file) (ext : string) (m : metadata) :
  exec (_analyze_code E f ext) m
  = match read_lossy f with
    | Some content =>
        _detect_api_endpoints E content ext (fname f)
          (_detect_env_vars E content
             ((if String.eqb ext ".py" then analyze_python E (fname f) content
               else if in_list ext [".js"; ".ts"] then analyze_node E (fname f) content
               else if String.eqb ext ".go" then analyze_go E (fname f) content
               else if String.eqb ext ".java" then analyze_java E (fname f) content
               else fun m => m) m))
    | None => m
    end.
Proof.
  unfold exec, _analyze_code, try_pass, analyze_code_body.
  destruct (read_lossy f); reflexivity.
Qed.

Lemma writes_analyze_code (E : pyenv) (f : file) (ext : string) (m : metadata) :
  writes m (exec (_analyze_code E f ext) m).
Proof.
  rewrite exec_analyze_code. destruct (read_lossy f) as [content |]; [| apply writes_refl].
  eapply writes_trans; [| apply writes_detect_api_endpoints].
  eapply writes_trans; [| apply writes_detect_env_vars].
  destruct (String.eqb ext ".py"); [apply writes_analyze_python |].
  destruct (in_list ext [".js"; ".ts"]); [apply writes_analyze_node |].
  destruct (String.eqb ext ".go"); [apply writes_analyze_go |].
  destruct (String.eqb ext ".java"); [apply writes_analyze_java | apply writes_refl].
Qed.

(** ** The file loop and the walk as runs of assignments *)

Lemma meta_mark_service top f (s : scanner) : meta (mark_service top f s) = meta s.
Proof. destruct top; reflexivity. Qed.

Lemma writes_scan_manifest top rel (f : file) (s : scanner) :
  writes (meta s) (meta (scan_manifest top rel f s)).
Proof.
  unfold scan_manifest. cbv zeta.
  destruct (String.eqb (fname f) "package.json").
  { cbn [meta upd_meta]. rewrite meta_mark_service. cbn [meta upd_meta].
    eapply writes_trans; [| apply writes_parse_package_json].
    eapply writes_step; [| apply write_language; cbn; auto].
    apply writes_one, write_package_json_path. }
  destruct (String.eqb (fname f) "requirements.txt").
  { cbn [meta upd_meta]. rewrite meta_mark_service. cbn [meta upd_meta].
    eapply writes_trans; [| apply writes_parse_requirements].
    eapply writes_step; [| apply write_language; cbn; auto].
    apply writes_one, write_requirements_path. }
  destruct (String.eqb (fname f) "pom.xml").
  { rewrite meta_mark_service. cbn [meta upd_meta].
    eapply writes_step; [| apply write_build_tools].
    apply writes_language. cbn. auto. }
  destruct (String.eqb (fname f) "build.gradle").
  { cbn [meta upd_meta].
    eapply writes_step; [| apply write_build_tools].
    apply writes_language. cbn. auto. }
  destruct (String.eqb (fname f) "go.mod").
  { rewrite meta_mark_service. cbn [meta upd_meta].
    eapply writes_step; [| apply write_go_mod_path].
    apply writes_language. cbn. auto. }
  apply writes_refl.
Qed.

Lemma writes_scan_code (E : pyenv) (root : string) (f : file) (s : scanner) :
  writes (meta s) (meta (scan_code E root f s)).
Proof.
  unfold scan_code. cbv zeta.
  destruct (in_list (lower (splitext_ext (fname f))) [".py"; ".js"; ".ts"; ".java"; ".go"])
    eqn:Hext; [| apply writes_refl].
  cbn [meta upd_meta].
  eapply writes_trans; [| apply writes_analyze_code].
  apply writes_one.
  replace (meta (if is_test_file root (fname f) (lower (splitext_ext (fname f))) then _ else _))
    with (count_code_file root (fname f) (lower (splitext_ext (fname f))) (meta s)).
  - now apply write_code_file.
  - unfold count_code_file. cbv zeta. now destruct (is_test_file _ _ _).
Qed.

Lemma writes_meta_if (c : bool) (g : metadata -> metadata) (s : scanner) :
  (forall m, write m (g m)) -> writes (meta s) (meta (if c then upd_meta g s else s)).
Proof. intros Hg. destruct c; [apply writes_one, Hg | apply writes_refl]. Qed.

Lemma writes_scan_file (E : pyenv) root rel top (s : scanner) (f : file) :
  writes (meta s) (meta (scan_file E root rel top s f)).
Proof.
  unfold scan_file. cbv zeta.
  eapply writes_trans; [| apply writes_scan_code].
  eapply writes_trans; [| apply writes_scan_manifest].
  do 6 (eapply writes_trans; [| apply writes_meta_if; intros; constructor]).
  apply writes_refl.
Qed.

Lemma writes_fold_scan_file (E : pyenv) root rel top (fl : list file) (s : scanner) :
  writes (meta s) (meta (fold_left (scan_file E root rel top) fl s)).
Proof.
  revert s. induction fl as [| f fl IH]; intros s; [apply writes_refl |].
  cbn [fold_left]. eapply writes_trans; [apply writes_scan_file | apply IH].
Qed.

Lemma writes_scan_visit (E : pyenv) (st : scanner * list string) (v : visit) :
  writes (meta (fst st)) (meta (fst (scan_visit E st v))).
Proof.
  destruct st as [s tl]. unfold scan_visit. cbn [fst].
  eapply writes_trans; [| apply writes_fold_scan_file].
  destruct (head (v_rel v)) as [t |].
  - destruct (has_key t _); cbn [meta upd_service_info];
      apply writes_meta_if; intros; constructor.
  - apply writes_meta_if; intros; constructor.
Qed.

Lemma writes_fold_scan_visit (E : pyenv) (vs : list visit) (st : scanner * list string) :
  writes (meta (fst st)) (meta (fst (fold_left (scan_visit E) vs st))).
Proof.
  revert st. induction vs as [| v vs IH]; intros st; [apply writes_refl |].
  cbn [fold_left]. eapply writes_trans; [apply writes_scan_visit | apply IH].
Qed.

Lemma writes_scan_tree (E : pyenv) (entries : list node) (s : scanner) :
  writes (meta s) (meta (_scan_tree E entries s)).
Proof.
  unfold _scan_tree.
  pose proof (writes_fold_scan_visit E (walk (path s) entries) (s, [])) as Hw.
  destruct (fold_left _ _ _) as [s' tl]. cbn [fst] in Hw. cbn [meta upd_meta].
  eapply writes_step; [exact Hw | apply write_structure].
Qed.

Lemma writes_finalize_services (s : scanner) :
  writes (meta s) (meta (_finalize_services s)).
Proof.
  unfold _finalize_services. generalize (_service_info s) as l. intros l.
  revert s. induction l as [| x l IH]; intros s; [apply writes_refl |].
  cbn [fold_left]. eapply writes_trans; [| apply IH].
  cbn [meta upd_meta]. apply writes_one, write_service.
Qed.

(** [scan]: after [_scan_license], a run of assignments, whether [scan]
    returns or raises. *)
Lemma writes_scan (E : pyenv) (entries : list node) (s : scanner) :
  writes (_scan_license entries (meta s)) (meta (snd (scan E (Directory entries) s))).
Proof.
  unfold scan. run.
  set (s1 := upd_meta _infer_tech_stack _).
  assert (H1 : writes (_scan_license entries (meta s)) (meta s1)).
  { unfold s1. cbn [meta upd_meta].
    eapply writes_step; [| apply write_tech_stack].
    eapply writes_trans; [| apply writes_finalize_services].
    eapply writes_trans; [| apply writes_scan_tree]. apply writes_refl. }
  destruct (negb (truthy _)); run; [| exact H1].
  unfold _generate_smart_description, str_of. run.
  destruct (project_name _); run; try exact H1.
  eapply writes_step; [exact H1 | apply write_description].
Qed.

(** ** What every scan result satisfies *)

Lemma in_list_iff (x : string) (l : list string) : in_list x l = true <-> In x l.
Proof.
  split; [apply in_list_In |]. intros Hx. unfold in_list. apply existsb_exists.
  exists x. split; [exact Hx | apply String.eqb_refl].
Qed.

Lemma scan_license_only_license (entries : list node) (m : metadata) :
  exists l, _scan_license entries m = upd_license (fun _ => l) m
    /\ (l = license m \/ In l ["MIT"; "Apache 2.0"; "GPL"; "See LICENSE file"]).
Proof.
  unfold _scan_license.
  assert (Hid : upd_license (fun _ => license m) m = m) by now destruct m.
  destruct (find _ entries) as [[f | d sub | d] |];
    try (exists (license m); split; [now rewrite Hid | now left]).
  destruct (read_lossy f) as [text |];
    [| exists (license m); split; [now rewrite Hid | now left]].
  eexists. split; [reflexivity |]. right. unfold license_of. cbn [In].
  split_ifs; auto.
Qed.

Lemma writes_license (m m' : metadata) : writes m m' -> license m' = license m.
Proof.
  intros Hw. apply (writes_invariant (fun x => license x = license m)) with (m := m);
    [| exact Hw | reflexivity].
  clear. intros a b Hw Ha. rewrite <- Ha. destruct Hw; try reflexivity.
  unfold count_code_file. cbv zeta. now destruct (is_test_file _ _ _).
Qed.

(** The license of a scan is decided by the listing of the top directory
    alone, in [_scan_license]: nothing that [scan] does afterwards writes
    it, so a license file further down the tree is never looked at.  For a
    fresh scanner it is one of five texts. *)
Theorem scan_license_from_top_listing (E : pyenv) (entries : list node) (s : scanner)
    (p ctx : string) :
  license (meta (snd (scan E (Directory entries) s)))
  = license (_scan_license entries (meta s))
  /\ In (license (meta (snd (scan E (Directory entries) (DeepScanner p ctx)))))
       ["Unlicensed"; "MIT"; "Apache 2.0"; "GPL"; "See LICENSE file"]
  /\ (List.Forall (fun n => is_license_name (entry_name n) = false) entries ->
      license (meta (snd (scan E (Directory entries) s))) = license (meta s)).
Proof.
  assert (Hl : forall s0, license (meta (snd (scan E (Directory entries) s0)))
                          = license (_scan_license entries (meta s0)))
    by (intros s0; apply writes_license, writes_scan).
  split; [apply Hl |]. split.
  - rewrite Hl. destruct (scan_license_only_license entries (meta (DeepScanner p ctx)))
      as (l & -> & [-> | Hin]); cbn [license upd_license]; cbn in *; tauto.
  - intros Hno. rewrite Hl. clear Hl. unfold _scan_license.
    replace (find (fun n => is_license_name (entry_name n)) entries) with (@None node);
      [reflexivity |].
    symmetry. induction Hno as [| n r Hn _ IH]; [reflexivity |].
    cbn [find]. rewrite Hn. exact IH.
Qed.

(** Two top-level files, neither a license, and a license file one level
    down: the project stays unlicensed. *)
Definition nested_license_tree : list node :=
  [NFile (text_file "README.md" "hello");
   NDir "docs" [NFile (text_file "LICENSE" "MIT License")]].

Lemma scan_license_from_top_listing_witness :
  license (meta (snd (scan plain_env (Directory nested_license_tree) (DeepScanner "proj" ""))))
  = "Unlicensed".
Proof.
  destruct (scan_license_from_top_listing plain_env nested_license_tree
              (DeepScanner "proj" "") "proj" "") as (_ & _ & Hno).
  apply Hno. repeat constructor.
Defined.

(** *** Languages *)

Lemma writes_languages (m m' : metadata) :
  writes m m' ->
  languages m ⊆ languages m' /\ languages m' ⊆ languages m ∪ list_to_set LANGUAGES.
Proof.
  intros Hw.
  apply (writes_invariant
           (fun x => languages m ⊆ languages x
                     /\ languages x ⊆ languages m ∪ list_to_set LANGUAGES)) with (m := m);
    [| exact Hw | set_solver].
  clear. intros a b Hw Ha. destruct Hw; try exact Ha.
  - cbn [languages upd_languages]. unfold add_one.
    assert (Hl : l ∈ (list_to_set LANGUAGES : gset string))
      by now apply elem_of_list_to_set, list_elem_of_In.
    set_solver.
  - unfold count_code_file. cbv zeta. now destruct (is_test_file _ _ _).
Qed.

Lemma scan_license_languages (entries : list node) (m : metadata) :
  languages (_scan_license entries m) = languages m.
Proof.
  destruct (scan_license_only_license entries m) as (l & -> & _). reflexivity.
Qed.

(** A scan reports no language other than Python, Node.js, Java and Go,
    whatever the tree holds and whatever the regular expressions match,
    and it never withdraws a language. *)
Theorem scan_languages_known (E : pyenv) (t : target) (s : scanner) :
  languages (meta s) ⊆ languages (meta (snd (scan E t s)))
  /\ languages (meta (snd (scan E t s)))
     ⊆ languages (meta s) ∪ {[ "Python"; "Node.js"; "Java"; "Go" ]}.
Proof.
  destruct t as [entries |]; [| cbn; set_solver].
  pose proof (writes_languages _ _ (writes_scan E entries s)) as Hw.
  rewrite scan_license_languages in Hw. unfold LANGUAGES in Hw.
  cbn [list_to_set] in Hw. set_solver.
Qed.

(** *** Endpoints *)

Lemma add_endpoints_NoDup (fresh eps : list string) :
  NoDup eps -> NoDup (add_endpoints fresh eps).
Proof.
  unfold add_endpoints. revert eps. induction fresh as [| ep fresh IH]; intros eps Hn;
    [exact Hn |].
  cbn [fold_left]. apply IH. destruct (in_list ep eps) eqn:Hin; [exact Hn |].
  apply NoDup_app. split; [exact Hn |]. split; [| apply NoDup_singleton].
  intros x Hx Hx'. apply list_elem_of_singleton in Hx'. subst x.
  apply list_elem_of_In, in_list_iff in Hx. congruence.
Qed.

Lemma add_endpoints_prefix (fresh eps : list string) : eps `prefix_of` add_endpoints fresh eps.
Proof.
  unfold add_endpoints. revert eps. induction fresh as [| ep fresh IH]; intros eps;
    [reflexivity |].
  cbn [fold_left]. etransitivity; [| apply IH].
  destruct (in_list ep eps); [reflexivity | now apply prefix_app_r].
Qed.

Lemma add_endpoints_In (fresh eps : list string) (x : string) :
  In x fresh -> In x (add_endpoints fresh eps).
Proof.
  unfold add_endpoints. revert eps. induction fresh as [| ep fresh IH]; intros eps Hx;
    [contradiction |].
  cbn [fold_left]. destruct Hx as [-> | Hx]; [| now apply IH].
  set (eps' := if in_list x eps then eps else eps ++ [x]).
  assert (Hin : In x eps').
  { unfold eps'. destruct (in_list x eps) eqn:Hin; [now apply in_list_iff |].
    apply in_or_app. right. now left. }
  destruct (add_endpoints_prefix fresh eps') as [k Hk]. unfold add_endpoints in Hk.
  rewrite Hk. apply in_or_app. now left.
Qed.

Lemma writes_endpoints_NoDup (m m' : metadata) :
  writes m m' -> NoDup (api_endpoints m) -> NoDup (api_endpoints m').
Proof.
  apply (writes_invariant (fun x => NoDup (api_endpoints x))).
  clear. intros a b Hw Ha. destruct Hw; try exact Ha.
  - cbn [api_endpoints upd_api_endpoints]. now apply add_endpoints_NoDup.
  - unfold count_code_file. cbv zeta. now destruct (is_test_file _ _ _).
Qed.

Lemma scan_license_endpoints (entries : list node) (m : metadata) :
  api_endpoints (_scan_license entries m) = api_endpoints m.
Proof.
  destruct (scan_license_only_license entries m) as (l & -> & _). reflexivity.
Qed.

(** No endpoint is listed twice: a scan that starts with distinct
    endpoints ends with distinct endpoints, however many files declare the
    same route and whatever the regular expressions match. *)
Theorem scan_endpoints_distinct (E : pyenv) (t : target) (s : scanner) :
  NoDup (api_endpoints (meta s)) ->
  NoDup (api_endpoints (meta (snd (scan E t s)))).
Proof.
  intros Hn. destruct t as [entries |]; [| exact Hn].
  apply (writes_endpoints_NoDup _ _ (writes_scan E entries s)).
  now rewrite scan_license_endpoints.
Qed.

(** *** Counters *)

Lemma scan_license_stats (entries : list node) (m : metadata) :
  stats (_scan_license entries m) = stats m.
Proof.
  destruct (scan_license_only_license entries m) as (l & -> & _). reflexivity.
Qed.

Lemma writes_test_files (m m' : metadata) :
  writes m m' ->
  test_files (stats m') + Python (files (stats m)) + Node_js (files (stats m))
  <= test_files (stats m) + Python (files (stats m')) + Node_js (files (stats m')).
Proof.
  intros Hw.
  apply (writes_invariant
           (fun x => test_files (stats x) + Python (files (stats m)) + Node_js (files (stats m))
                     <= test_files (stats m) + Python (files (stats x))
                        + Node_js (files (stats x)))) with (m := m);
    [| exact Hw | lia].
  clear. intros a b Hw Ha. destruct Hw; try exact Ha.
  unfold count_code_file, is_test_file, count_file. cbv zeta.
  destruct (String.eqb ext ".py").
  - destruct (_ || _); cbn; lia.
  - destruct (in_list ext [".js"; ".ts"]).
    + destruct (_ || _); cbn; lia.
    + destruct (String.eqb ext ".java"); [cbn; lia |].
      destruct (String.eqb ext ".go"); cbn; lia.
Qed.

(** The test files counted by a scan are Python or Node.js source files
    counted by the same scan: the test counter never grows by more than
    those two file counters together. *)
Theorem scan_test_files_bounded (E : pyenv) (t : target) (s : scanner) :
  let before := stats (meta s) in
  let after := stats (meta (snd (scan E t s))) in
  test_files after + Python (files before) + Node_js (files before)
  <= test_files before + Python (files after) + Node_js (files after).
Proof.
  cbv zeta. destruct t as [entries |]; [| cbn; lia].
  pose proof (writes_test_files _ _ (writes_scan E entries s)) as Hw.
  now rewrite scan_license_stats in Hw.
Qed.

(** *** Entry points *)

(** A value that is set stays as it is. *)
Definition kept (v v' : pyval) : Prop := truthy v = true -> v' = v.

Definition entry_points_kept (m m' : metadata) : Prop :=
  kept (entry_point m) (entry_point m')
  /\ kept (Python (entry_points m)) (Python (entry_points m'))
  /\ kept (Node_js (entry_points m)) (Node_js (entry_points m'))
  /\ kept (Java (entry_points m)) (Java (entry_points m'))
  /\ kept (Go (entry_points m)) (Go (entry_points m')).

Lemma writes_entry_points (m m' : metadata) : writes m m' -> entry_points_kept m m'.
Proof.
  intros Hw.
  apply (writes_invariant (entry_points_kept m)) with (m := m);
    [| exact Hw | repeat split; intros _; reflexivity].
  clear. intros a b Hw (H0 & H1 & H2 & H3 & H4). unfold entry_points_kept, kept in *.
  destruct Hw; try (repeat split; assumption);
    try (unfold count_code_file; cbv zeta; destruct (is_test_file _ _ _);
         repeat split; assumption);
    cbn; repeat split; try assumption; intros Ht;
    match goal with
    | Hk : truthy ?x = true -> ?y = ?x, Hf : truthy ?y = false |- _ =>
        rewrite (Hk Ht) in Hf; congruence
    end.
Qed.

Lemma scan_license_entry_points (entries : list node) (m : metadata) :
  entry_point (_scan_license entries m) = entry_point m
  /\ entry_points (_scan_license entries m) = entry_points m.
Proof.
  destruct (scan_license_only_license entries m) as (l & -> & _). now split.
Qed.

(** The first entry point wins.  Once the legacy entry point or the entry
    point of a language is set, no file scanned later replaces it: not a
    [main] of a package manifest, not a source file with a main block. *)
Theorem entry_point_first_wins (E : pyenv) :
  (forall root rel top s f,
     entry_points_kept (meta s) (meta (scan_file E root rel top s f)))
  /\ (forall t s, entry_points_kept (meta s) (meta (snd (scan E t s)))).
Proof.
  split.
  - intros. apply writes_entry_points, writes_scan_file.
  - intros [entries |] s; [| repeat split; intros _; reflexivity].
    pose proof (writes_entry_points _ _ (writes_scan E entries s)) as Hw.
    unfold entry_points_kept in *.
    destruct (scan_license_entry_points entries (meta s)) as [-> ->] in Hw. exact Hw.
Qed.

(** Two servers in one directory: the one listed first is the entry point. *)
Definition two_servers : list file :=
  [text_file "server.js" "app.listen(3000)"; text_file "other.js" "app.listen(4000)"].

Lemma entry_point_first_wins_witness :
  entry_point (meta (fold_left (scan_file plain_env "proj" [] None) two_servers
                       (DeepScanner "proj" "")))
  = PStr "server.js".
Proof.
  destruct (entry_point_first_wins plain_env) as [Hfile _].
  destruct (Hfile "proj" [] None
              (scan_file plain_env "proj" [] None (DeepScanner "proj" "")
                 (text_file "server.js" "app.listen(3000)"))
              (text_file "other.js" "app.listen(4000)")) as [Hk _].
  exact (Hk eq_refl).
Defined.

(** *** Nothing is withdrawn *)

(** Every collection of [m] is found again in [m'], every counter is at
    least what it was, every flag that was raised still is. *)
Record grows (m m' : metadata) : Prop := Grows {
  grows_languages : languages m ⊆ languages m';
  grows_deps_Python : Python (dependencies m) ⊆ Python (dependencies m');
  grows_deps_Node_js : Node_js (dependencies m) ⊆ Node_js (dependencies m');
  grows_deps_Java : Java (dependencies m) ⊆ Java (dependencies m');
  grows_deps_Go : Go (dependencies m) ⊆ Go (dependencies m');
  grows_env_vars : env_vars m ⊆ env_vars m';
  grows_build_tools : build_tools m ⊆ build_tools m';
  grows_tech_stack : tech_stack m ⊆ tech_stack m';
  grows_frameworks : frameworks (tech_stack_details m) ⊆ frameworks (tech_stack_details m');
  grows_databases : databases (tech_stack_details m) ⊆ databases (tech_stack_details m');
  grows_auth : auth (tech_stack_details m) ⊆ auth (tech_stack_details m');
  grows_cache : cache (tech_stack_details m) ⊆ cache (tech_stack_details m');
  grows_linting : linting (stats m) ⊆ linting (stats m');
  grows_modules : modules m `prefix_of` modules m';
  grows_tests : tests m `prefix_of` tests m';
  grows_api_endpoints : api_endpoints m `prefix_of` api_endpoints m';
  grows_services : services m `prefix_of` services m';
  grows_files_Python : Python (files (stats m)) <= Python (files (stats m'));
  grows_files_Node_js : Node_js (files (stats m)) <= Node_js (files (stats m'));
  grows_files_Java : Java (files (stats m)) <= Java (files (stats m'));
  grows_files_Go : Go (files (stats m)) <= Go (files (stats m'));
  grows_test_files : test_files (stats m) <= test_files (stats m');
  grows_has_ci : has_ci (stats m) = true -> has_ci (stats m') = true;
  grows_dockerfile : dockerfile (docker m) = true -> dockerfile (docker m') = true;
  grows_compose : compose_yml (docker m) = true -> compose_yml (docker m') = true
}.

Lemma grows_refl (m : metadata) : grows m m.
Proof. constructor; auto; reflexivity. Qed.

Lemma grows_trans (m1 m2 m3 : metadata) : grows m1 m2 -> grows m2 m3 -> grows m1 m3.
Proof.
  intros [] []. constructor; auto; try (etransitivity; eassumption).
Qed.

Lemma add_if_grows (c : bool) (x : string) (s : gset string) : s ⊆ add_if c x s.
Proof. unfold add_if, add_one. destruct c; set_solver. Qed.

Ltac grows_field :=
  match goal with
  | |- _ ⊆ _ => unfold add_all, add_one; set_solver
  | |- _ `prefix_of` _ => first [reflexivity | apply prefix_app_r; reflexivity
                                 | apply add_endpoints_prefix]
  | |- _ <= _ => lia
  | |- _ = true -> _ = true => auto
  | _ => idtac
  end.

Lemma infer_tech_stack_grows (m : metadata) : grows m (_infer_tech_stack m).
Proof.
  unfold _infer_tech_stack. cbv zeta.
  constructor; cbn; try reflexivity; try lia; auto;
    try (repeat (etransitivity; [| apply add_if_grows]); reflexivity).
  set_solver.
Qed.

Lemma write_grows (m m' : metadata) : write m m' -> grows m m'.
Proof.
  intros Hw. destruct Hw; try apply infer_tech_stack_grows;
    try (unfold count_code_file, count_file; cbv zeta;
         destruct (is_test_file _ _ _); split_ifs);
    constructor; cbn; try reflexivity; grows_field.
Qed.

Lemma writes_grows (m m' : metadata) : writes m m' -> grows m m'.
Proof.
  intros Hw. induction Hw as [| m1 m2 m3 _ IH Hw]; [apply grows_refl |].
  eapply grows_trans; [exact IH | now apply write_grows].
Qed.

Lemma scan_license_grows (entries : list node) (m : metadata) :
  grows m (_scan_license entries m).
Proof.
  destruct (scan_license_only_license entries m) as (l & -> & _).
  constructor; cbn; auto; reflexivity.
Qed.

(** A scan only adds.  Whatever the metadata held before is found again
    after [scan], whether [scan] returns or raises: no language,
    dependency, environment variable, build tool or tech-stack label is
    withdrawn, the lists of modules, test tools, endpoints and services
    keep what they held at the front, no counter goes down and no flag is
    reset. *)
Theorem scan_only_adds (E : pyenv) (t : target) (s : scanner) :
  grows (meta s) (meta (snd (scan E t s))).
Proof.
  destruct t as [entries |]; [| apply grows_refl].
  eapply grows_trans; [apply scan_license_grows | apply writes_grows, writes_scan].
Qed.

(** * Counters and services *)

(** ** What the parsers leave alone *)

Ltac split_matches :=
  repeat match goal with
         | |- context [if ?c then _ else _] => destruct c
         | |- context [match ?o with Some _ => _ | None => _ end] => destruct o
         end.

Lemma parse_package_json_quiet (f : file) (m : metadata) :
  stats (exec (_parse_package_json f) m) = stats m
  /\ services (exec (_parse_package_json f) m) = services m.
Proof.
  destruct (parse_package_json_cases f m) as [-> | (kv & _ & [-> | (deps & devs & _ & _ & ->)])];
    [now split | |]; cbv zeta; unfold note_name_and_main; split_matches; now split.
Qed.

Lemma parse_requirements_quiet (f : file) (m : metadata) :
  stats (exec (_parse_requirements f) m) = stats m
  /\ services (exec (_parse_requirements f) m) = services m.
Proof. rewrite exec_parse_requirements. destruct (read_utf8 f); now split. Qed.

Lemma analyze_code_quiet (E : pyenv) (f : file) (ext : string) (m : metadata) :
  stats (exec (_analyze_code E f ext) m) = stats m
  /\ services (exec (_analyze_code E f ext) m) = services m.
Proof.
  rewrite exec_analyze_code. destruct (read_lossy f) as [content |]; [| now split].
  unfold _detect_api_endpoints, _detect_env_vars. cbv zeta.
  cbn [stats services upd_api_endpoints upd_env_vars].
  destruct (String.eqb ext ".py");
    [unfold analyze_python, note_entry; cbv zeta; split_matches; now split |].
  destruct (in_list ext [".js"; ".ts"]);
    [unfold analyze_node, note_entry; cbv zeta; split_matches; now split |].
  destruct (String.eqb ext ".go");
    [unfold analyze_go, note_entry; cbv zeta; split_matches; now split |].
  destruct (String.eqb ext ".java"); [| now split].
  unfold analyze_java, note_entry; cbv zeta.
  destruct (head _); split_matches; now split.
Qed.

(** ** The counters of the project health section *)

(** The lower-cased extension by which [_scan_tree] classifies a file. *)
Definition ext_of (f : file) : string := lower (splitext_ext (fname f)).

Definition is_source (f : file) : bool := in_list (ext_of f) [".py"; ".js"; ".ts"; ".java"; ".go"].

(** The files of the walk, each with the directory that holds it. *)
Definition walked_files (root : string) (entries : list node) : list (string * file) :=
  List.flat_map (fun v => map (fun f => (v_root v, f)) (v_files v)) (walk root entries).

(** What one file adds to [stats[files]] and [stats[test_files]]. *)
Definition bump (rf : string * file) (c : per_lang nat * nat) : per_lang nat * nat :=
  if is_source (snd rf)
  then (count_file (ext_of (snd rf)) (fst c),
        if is_test_file (fst rf) (fname (snd rf)) (ext_of (snd rf)) then S (snd c) else snd c)
  else c.

Definition counters (m : metadata) : per_lang nat * nat :=
  (files (stats m), test_files (stats m)).

Lemma counters_scan_manifest top rel (f : file) (s : scanner) :
  counters (meta (scan_manifest top rel f s)) = counters (meta s)
  /\ services (meta (scan_manifest top rel f s)) = services (meta s).
Proof.
  unfold scan_manifest, counters. cbv zeta.
  destruct (String.eqb (fname f) "package.json").
  { cbn [meta upd_meta]. destruct (parse_package_json_quiet f
      (meta (mark_service top
               (fun i => ServiceInfo (si_path i) true (has_requirements i) (has_pom i)
                           (has_go_mod i))
               (upd_meta (upd_languages (add_one "Node.js"))
                  (upd_meta (upd_node_package_json_path
                               (first_path (relpath_of rel (fname f)))) s)))))
      as [-> ->].
    rewrite meta_mark_service. now split. }
  destruct (String.eqb (fname f) "requirements.txt").
  { cbn [meta upd_meta]. destruct (parse_requirements_quiet f
      (meta (mark_service top
               (fun i => ServiceInfo (si_path i) (has_package_json i) true (has_pom i)
                           (has_go_mod i))
               (upd_meta (upd_languages (add_one "Python"))
                  (upd_meta (upd_python_requirements_path
                               (first_path (relpath_of rel (fname f)))) s)))))
      as [-> ->].
    rewrite meta_mark_service. now split. }
  split_ifs; rewrite ?meta_mark_service; now split.
Qed.

Lemma counters_scan_code (E : pyenv) (root : string) (f : file) (s : scanner) :
  counters (meta (scan_code E root f s)) = bump (root, f) (counters (meta s))
  /\ services (meta (scan_code E root f s)) = services (meta s).
Proof.
  unfold scan_code, bump, counters, is_source, ext_of. cbv zeta. cbn [fst snd].
  destruct (in_list (lower (splitext_ext (fname f))) [".py"; ".js"; ".ts"; ".java"; ".go"]);
    [| now split].
  cbn [meta upd_meta].
  match goal with
  | |- context [exec (_analyze_code E f ?ext) ?m] =>
      destruct (analyze_code_quiet E f ext m) as [-> ->]
  end.
  destruct (is_test_file _ _ _); now split.
Qed.

Lemma counters_scan_file (E : pyenv) root rel top (s : scanner) (f : file) :
  counters (meta (scan_file E root rel top s f)) = bump (root, f) (counters (meta s))
  /\ services (meta (scan_file E root rel top s f)) = services (meta s).
Proof.
  unfold scan_file. cbv zeta.
  match goal with
  | |- context [scan_code E root f ?s1] =>
      destruct (counters_scan_code E root f s1) as [-> ->]
  end.
  match goal with
  | |- context [scan_manifest top rel f ?s1] =>
      destruct (counters_scan_manifest top rel f s1) as [-> ->]
  end.
  split_ifs; now split.
Qed.

Lemma counters_fold_scan_file (E : pyenv) root rel top (fl : list file) (s : scanner) :
  counters (meta (fold_left (scan_file E root rel top) fl s))
  = fold_left (fun c f => bump (root, f) c) fl (counters (meta s))
  /\ services (meta (fold_left (scan_file E root rel top) fl s)) = services (meta s).
Proof.
  revert s. induction fl as [| f fl IH]; intros s; [now split |].
  cbn [fold_left]. destruct (IH (scan_file E root rel top s f)) as [-> ->].
  destruct (counters_scan_file E root rel top s f) as [-> ->]. now split.
Qed.

Lemma fold_bump_map (root : string) (fl : list file) (c : per_lang nat * nat) :
  fold_left (fun c f => bump (root, f) c) fl c
  = fold_left (fun c rf => bump rf c) (map (fun f => (root, f)) fl) c.
Proof. revert c. induction fl as [| f fl IH]; intros c; [reflexivity | apply IH]. Qed.

Lemma counters_scan_visit (E : pyenv) (st : scanner * list string) (v : visit) :
  counters (meta (fst (scan_visit E st v)))
  = fold_left (fun c rf => bump rf c) (map (fun f => (v_root v, f)) (v_files v))
      (counters (meta (fst st)))
  /\ services (meta (fst (scan_visit E st v))) = services (meta (fst st)).
Proof.
  destruct st as [s tl]. unfold scan_visit. cbn [fst].
  match goal with
  | |- context [fold_left (scan_file E ?root ?rel ?top) ?fl ?s1] =>
      destruct (counters_fold_scan_file E root rel top fl s1) as [-> ->]
  end.
  rewrite fold_bump_map. destruct (head (v_rel v)); split_ifs; now split.
Qed.

Lemma counters_fold_scan_visit (E : pyenv) (vs : list visit) (st : scanner * list string) :
  counters (meta (fst (fold_left (scan_visit E) vs st)))
  = fold_left (fun c rf => bump rf c)
      (List.flat_map (fun v => map (fun f => (v_root v, f)) (v_files v)) vs)
      (counters (meta (fst st)))
  /\ services (meta (fst (fold_left (scan_visit E) vs st))) = services (meta (fst st)).
Proof.
  revert st. induction vs as [| v vs IH]; intros st; [now split |].
  cbn [fold_left List.flat_map]. destruct (IH (scan_visit E st v)) as [-> ->].
  destruct (counters_scan_visit E st v) as [-> ->]. now rewrite fold_left_app.
Qed.

Lemma counters_scan_tree (E : pyenv) (entries : list node) (s : scanner) :
  counters (meta (_scan_tree E entries s))
  = fold_left (fun c rf => bump rf c) (walked_files (path s) entries) (counters (meta s))
  /\ services (meta (_scan_tree E entries s)) = services (meta s).
Proof.
  unfold _scan_tree, walked_files.
  destruct (counters_fold_scan_visit E (walk (path s) entries) (s, [])) as [Hc Hs].
  destruct (fold_left _ _ _) as [s' tl]. cbn [fst] in Hc, Hs. now split.
Qed.

Lemma finalize_services_effect (s : scanner) :
  meta (_finalize_services s)
  = upd_services
      (fun l => l ++ map (fun ni : string * service_info =>
                  Service (fst ni) (si_path (snd ni))
                    ((if has_package_json (snd ni) then ["Node.js"] else [])
                     ++ (if has_requirements (snd ni) then ["Python"] else [])
                     ++ (if has_pom (snd ni) then ["Java"] else [])
                     ++ (if has_go_mod (snd ni) then ["Go"] else [])))
                  (_service_info s))
      (meta s).
Proof.
  unfold _finalize_services. generalize (_service_info s) as l. intros l.
  revert s. induction l as [| x l IH]; intros s.
  - cbn. destruct (meta s). unfold upd_services. cbn. now rewrite app_nil_r.
  - cbn [fold_left map]. rewrite IH. cbn [meta upd_meta].
    destruct (meta s). unfold upd_services, append_one. cbn. now rewrite <- app_assoc.
Qed.

(** What [scan] has written when it is over, whether it returned or
    raised: the tree, the services, the tech stack and, when none was
    found, a description. *)
Lemma scan_meta (E : pyenv) (entries : list node) (s : scanner) :
  let m1 := _infer_tech_stack
              (meta (_finalize_services (_scan_tree E entries
                       (upd_meta (_scan_license entries) s)))) in
  exists d, meta (snd (scan E (Directory entries) s)) = upd_description d m1.
Proof.
  cbv zeta. unfold scan. run.
  set (s1 := upd_meta _infer_tech_stack _).
  assert (Hid : upd_description (fun v => v) (meta s1) = meta s1) by now destruct (meta s1).
  destruct (negb (truthy _)); run; [| now exists (fun v => v)].
  unfold _generate_smart_description, str_of. run.
  destruct (project_name _); run; try (now exists (fun v => v)).
  eexists. reflexivity.
Qed.

Lemma count_file_Python (ext : string) (c : per_lang nat) :
  Python (count_file ext c) = Python c + (if String.eqb ext ".py" then 1 else 0).
Proof. unfold count_file. split_ifs; cbn; lia. Qed.

Lemma count_file_Node_js (ext : string) (c : per_lang nat) :
  Node_js (count_file ext c)
  = Node_js c + (if negb (String.eqb ext ".py") && in_list ext [".js"; ".ts"] then 1 else 0).
Proof.
  unfold count_file. destruct (String.eqb ext ".py"); cbn [negb andb]; [cbn; lia |].
  destruct (in_list ext [".js"; ".ts"]); [cbn; lia |]. split_ifs; cbn; lia.
Qed.

Lemma fold_bump_count (g : per_lang nat * nat -> nat) (h : string * file -> bool)
    (l : list (string * file)) (c : per_lang nat * nat) :
  (forall rf c, g (bump rf c) = g c + (if h rf then 1 else 0)) ->
  g (fold_left (fun c rf => bump rf c) l c) = g c + length (List.filter h l).
Proof.
  intros Hg. revert c. induction l as [| rf l IH]; intros c; [cbn; lia |].
  cbn [fold_left List.filter]. rewrite IH, Hg. destruct (h rf); cbn; lia.
Qed.

(** The file counters of the project health section are exact.  After
    [scan], [stats[files]] has grown, for each language, by the number of
    files of the walk (the files outside ignored directories) whose
    lower-cased extension belongs to the language, and [stats[test_files]]
    by the number of those that the test heuristics accept. *)
Theorem scan_counts_walked_files (E : pyenv) (entries : list node) (s : scanner) :
  let fl := walked_files (path s) entries in
  let n (p : string * file -> bool) := length (List.filter p fl) in
  let before := stats (meta s) in
  let after := stats (meta (snd (scan E (Directory entries) s))) in
  Python (files after)
  = Python (files before) + n (fun rf => String.eqb (ext_of (snd rf)) ".py")
  /\ Node_js (files after)
     = Node_js (files before) + n (fun rf => in_list (ext_of (snd rf)) [".js"; ".ts"])
  /\ Java (files after)
     = Java (files before) + n (fun rf => String.eqb (ext_of (snd rf)) ".java")
  /\ Go (files after)
     = Go (files before) + n (fun rf => String.eqb (ext_of (snd rf)) ".go")
  /\ test_files after
     = test_files before
       + n (fun rf => is_test_file (fst rf) (fname (snd rf)) (ext_of (snd rf))).
Proof.
  cbv zeta. destruct (scan_meta E entries s) as [d ->].
  cbn [stats upd_description].
  change (stats (_infer_tech_stack ?m)) with (stats m).
  rewrite finalize_services_effect. cbn [stats upd_services].
  destruct (counters_scan_tree E entries (upd_meta (_scan_license entries) s)) as [Hc _].
  cbn [path upd_meta] in Hc. change (path (upd_meta ?f s)) with (path s) in Hc.
  assert (Hl : counters (meta (upd_meta (_scan_license entries) s)) = counters (meta s)).
  { unfold counters. cbn [meta upd_meta]. now rewrite scan_license_stats. }
  rewrite Hl in Hc. clear Hl. unfold counters in Hc at 1.
  set (st' := stats (meta (_scan_tree E entries _))) in *.
  set (fl := walked_files (path s) entries) in *.
  pose proof (f_equal fst Hc) as Hf. pose proof (f_equal snd Hc) as Ht.
  cbn [fst snd] in Hf, Ht. clear Hc.
  assert (Hext : forall e, in_list e [".js"; ".ts"] = true -> String.eqb e ".py" = false).
  { intros e He. apply in_list_In in He. destruct He as [<- | [<- | []]]; reflexivity. }
  repeat split.
  - rewrite Hf.
    apply (fold_bump_count (fun c => Python (fst c))
             (fun rf => String.eqb (ext_of (snd rf)) ".py")).
    intros [root f] [c t]. unfold bump, is_source. cbn [fst snd].
    destruct (String.eqb (ext_of f) ".py") eqn:He.
    + apply String.eqb_eq in He. rewrite He. cbn. lia.
    + destruct (in_list (ext_of f) [".py"; ".js"; ".ts"; ".java"; ".go"]); cbn [fst]; [| cbn; lia].
      rewrite count_file_Python, He. cbn; lia.
  - rewrite Hf.
    apply (fold_bump_count (fun c => Node_js (fst c))
             (fun rf => in_list (ext_of (snd rf)) [".js"; ".ts"])).
    intros [root f] [c t]. unfold bump, is_source. cbn [fst snd].
    destruct (in_list (ext_of f) [".js"; ".ts"]) eqn:He.
    + assert (Hs : in_list (ext_of f) [".py"; ".js"; ".ts"; ".java"; ".go"] = true).
      { apply in_list_iff. apply in_list_In in He. cbn in *. tauto. }
      rewrite Hs. cbn [fst]. rewrite count_file_Node_js, He, (Hext _ He). cbn. lia.
    + destruct (in_list (ext_of f) [".py"; ".js"; ".ts"; ".java"; ".go"]); cbn [fst]; [| cbn; lia].
      rewrite count_file_Node_js, He, andb_false_r. cbn; lia.
  - rewrite Hf.
    apply (fold_bump_count (fun c => Java (fst c))
             (fun rf => String.eqb (ext_of (snd rf)) ".java")).
    intros [root f] [c t]. unfold bump, is_source. cbn [fst snd].
    destruct (String.eqb (ext_of f) ".java") eqn:He.
    + apply String.eqb_eq in He. rewrite He. cbn. lia.
    + destruct (in_list (ext_of f) [".py"; ".js"; ".ts"; ".java"; ".go"]); cbn [fst]; [| cbn; lia].
      unfold count_file. rewrite He. split_ifs; cbn; lia.
  - rewrite Hf.
    apply (fold_bump_count (fun c => Go (fst c))
             (fun rf => String.eqb (ext_of (snd rf)) ".go")).
    intros [root f] [c t]. unfold bump, is_source. cbn [fst snd].
    destruct (String.eqb (ext_of f) ".go") eqn:He.
    + apply String.eqb_eq in He. rewrite He. cbn. lia.
    + destruct (in_list (ext_of f) [".py"; ".js"; ".ts"; ".java"; ".go"]); cbn [fst]; [| cbn; lia].
      unfold count_file. rewrite He. split_ifs; cbn; lia.
  - rewrite Ht.
    apply (fold_bump_count snd
             (fun rf => is_test_file (fst rf) (fname (snd rf)) (ext_of (snd rf)))).
    intros [root f] [c t]. unfold bump, is_source. cbn [fst snd].
    destruct (in_list (ext_of f) [".py"; ".js"; ".ts"; ".java"; ".go"]) eqn:Hs.
    + cbn [snd]. destruct (is_test_file _ _ _); lia.
    + cbn [snd]. unfold is_test_file.
      destruct (String.eqb (ext_of f) ".py") eqn:Hp.
      { apply String.eqb_eq in Hp. rewrite Hp in Hs. discriminate. }
      destruct (in_list (ext_of f) [".js"; ".ts"]) eqn:Hj; [| cbn; lia].
      apply in_list_In in Hj. exfalso.
      assert (Hin : In (ext_of f) [".py"; ".js"; ".ts"; ".java"; ".go"])
        by (cbn in *; tauto).
      apply in_list_iff in Hin. congruence.
Qed.

(** ** Services *)

(** [if top_service not in self._service_info: ...]: the keys of
    [_service_info], in the order in which they were first seen. *)
Definition note_dir (ks : list string) (d : string) : list string :=
  if in_list d ks then ks else ks ++ [d].

Definition note_top (ks : list string) (v : visit) : list string :=
  match head (v_rel v) with
  | Some t => note_dir ks t
  | None => ks
  end.

Definition info_keys (s : scanner) : list string := map fst (_service_info s).

(** Every value of [_service_info] has its key as [path]. *)
Definition info_paths (s : scanner) : Prop :=
  Forall (fun ni : string * service_info => si_path (snd ni) = fst ni) (_service_info s).

Lemma assoc_alter_keys {A : Type} (g : A -> A) (k : string) (l : list (string * A)) :
  map fst (assoc_alter g k l) = map fst l.
Proof.
  induction l as [| [k' v] l IH]; [reflexivity |]. cbn [assoc_alter].
  destruct (String.eqb k k'); cbn [map fst]; now rewrite ?IH.
Qed.

Lemma assoc_alter_paths (g : service_info -> service_info) (k : string)
    (l : list (string * service_info)) :
  (forall i, si_path (g i) = si_path i) ->
  Forall (fun ni : string * service_info => si_path (snd ni) = fst ni) l ->
  Forall (fun ni : string * service_info => si_path (snd ni) = fst ni) (assoc_alter g k l).
Proof.
  intros Hg Hl. induction Hl as [| [k' v] l Hv Hl IH]; [constructor |].
  cbn [assoc_alter]. destruct (String.eqb k k'); constructor; auto.
  cbn [fst snd] in *. now rewrite Hg.
Qed.

Lemma mark_service_info top (g : service_info -> service_info) (s : scanner) :
  (forall i, si_path (g i) = si_path i) ->
  info_keys (mark_service top g s) = info_keys s
  /\ (info_paths s -> info_paths (mark_service top g s)).
Proof.
  intros Hg. unfold info_keys, info_paths. destruct top as [t |]; [| now split].
  cbn [mark_service _service_info upd_service_info]. split.
  - apply assoc_alter_keys.
  - now apply assoc_alter_paths.
Qed.

Lemma info_scan_manifest top rel (f : file) (s : scanner) :
  info_keys (scan_manifest top rel f s) = info_keys s
  /\ (info_paths s -> info_paths (scan_manifest top rel f s)).
Proof.
  unfold scan_manifest. cbv zeta.
  split_ifs; try (now split);
    match goal with
    | |- context [mark_service top ?g ?s1] =>
        destruct (mark_service_info top g s1) as [Hk Hp]; [reflexivity |]
    end;
    (split; [exact Hk | exact Hp]).
Qed.

Lemma info_scan_code (E : pyenv) (root : string) (f : file) (s : scanner) :
  info_keys (scan_code E root f s) = info_keys s
  /\ (info_paths s -> info_paths (scan_code E root f s)).
Proof. unfold scan_code. cbv zeta. split_ifs; now split. Qed.

Lemma info_scan_file (E : pyenv) root rel top (s : scanner) (f : file) :
  info_keys (scan_file E root rel top s f) = info_keys s
  /\ (info_paths s -> info_paths (scan_file E root rel top s f)).
Proof.
  unfold scan_file. cbv zeta.
  match goal with
  | |- context [scan_code E root f ?s1] =>
      destruct (info_scan_code E root f s1) as [-> Hp1]
  end.
  match goal with
  | |- context [scan_manifest top rel f ?s1] =>
      destruct (info_scan_manifest top rel f s1) as [-> Hp2]
  end.
  split; [split_ifs; reflexivity |].
  intros Hs. apply Hp1, Hp2. revert Hs. split_ifs; auto.
Qed.

Lemma info_fold_scan_file (E : pyenv) root rel top (fl : list file) (s : scanner) :
  info_keys (fold_left (scan_file E root rel top) fl s) = info_keys s
  /\ (info_paths s -> info_paths (fold_left (scan_file E root rel top) fl s)).
Proof.
  revert s. induction fl as [| f fl IH]; intros s; [now split |].
  cbn [fold_left]. destruct (IH (scan_file E root rel top s f)) as [-> Hp].
  destruct (info_scan_file E root rel top s f) as [-> Hp']. split; auto.
Qed.

Lemma has_key_in_list {A : Type} (k : string) (l : list (string * A)) :
  has_key k l = in_list k (map fst l).
Proof.
  unfold has_key, in_list. induction l as [| x l IH]; [reflexivity |].
  cbn [existsb map]. now rewrite IH.
Qed.

Lemma info_scan_visit (E : pyenv) (st : scanner * list string) (v : visit) :
  info_keys (fst (scan_visit E st v)) = note_top (info_keys (fst st)) v
  /\ (info_paths (fst st) -> info_paths (fst (scan_visit E st v))).
Proof.
  destruct st as [s tl]. unfold scan_visit, note_top. cbn [fst].
  match goal with
  | |- context [fold_left (scan_file E ?root ?rel ?top) ?fl ?s1] =>
      destruct (info_fold_scan_file E root rel top fl s1) as [-> Hp]
  end.
  assert (Hci : forall (c : bool) (s0 : scanner),
             _service_info (if c then upd_meta (upd_stats (upd_has_ci (fun _ => true))) s0
                            else s0) = _service_info s0)
    by (intros [] s0; reflexivity).
  unfold info_keys, info_paths in *.
  destruct (head (v_rel v)) as [t |].
  - unfold note_dir. rewrite <- has_key_in_list. rewrite Hci in *.
    destruct (has_key t (_service_info s)) eqn:Hk.
    + rewrite Hci in *. split; [reflexivity | exact Hp].
    + cbn [_service_info upd_service_info] in *. rewrite Hci in *.
      split; [now rewrite List.map_app |].
      intros Hs. apply Hp. apply Forall_app. split; [exact Hs | now constructor].
  - rewrite Hci in *. split; [reflexivity | exact Hp].
Qed.

Lemma info_fold_scan_visit (E : pyenv) (vs : list visit) (st : scanner * list string) :
  info_keys (fst (fold_left (scan_visit E) vs st)) = fold_left note_top vs (info_keys (fst st))
  /\ (info_paths (fst st) -> info_paths (fst (fold_left (scan_visit E) vs st))).
Proof.
  revert st. induction vs as [| v vs IH]; intros st; [now split |].
  cbn [fold_left]. destruct (IH (scan_visit E st v)) as [-> Hp].
  destruct (info_scan_visit E st v) as [-> Hp']. split; auto.
Qed.

(** All the visits below a top-level directory have it as their first
    component. *)
Lemma walk_node_top (n : node) :
  forall root rel t, head rel = Some t ->
    Forall (fun v => head (v_rel v) = Some t) (walk_node root rel n).
Proof.
  induction n as [f | d entries IH | d] using node_rect'; intros root rel t Ht;
    cbn [walk_node].
  - constructor.
  - destruct (ignored d); [constructor |].
    assert (Ht' : head (rel ++ [d]) = Some t) by (destruct rel; [discriminate | exact Ht]).
    constructor; [exact Ht' |].
    induction IH as [| x r Hx _ IHr]; cbn [List.flat_map]; [constructor |].
    apply Forall_app. split; [now apply Hx | exact IHr].
  - constructor.
Qed.

Lemma note_dir_twice (ks : list string) (d : string) :
  note_dir (note_dir ks d) d = note_dir ks d.
Proof.
  unfold note_dir. destruct (in_list d ks) eqn:Hd; [now rewrite Hd |].
  replace (in_list d (ks ++ [d])) with true; [reflexivity |].
  symmetry. apply in_list_iff, in_or_app. right. now left.
Qed.

Lemma fold_note_top_same (vs : list visit) (t : string) (ks : list string) :
  Forall (fun v => head (v_rel v) = Some t) vs ->
  fold_left note_top vs (note_dir ks t) = note_dir ks t.
Proof.
  intros Hvs. induction Hvs as [| v vs Hv _ IH]; [reflexivity |].
  cbn [fold_left]. replace (note_top (note_dir ks t) v) with (note_dir ks t); [exact IH |].
  unfold note_top. now rewrite Hv, note_dir_twice.
Qed.

(** The directories of a listing that the walk enters. *)
Fixpoint entered_dirs (entries : list node) : list string :=
  match entries with
  | [] => []
  | NDir d _ :: r => if ignored d then entered_dirs r else d :: entered_dirs r
  | _ :: r => entered_dirs r
  end.

Lemma fold_note_top_walk (root : string) (entries : list node) (ks : list string) :
  fold_left note_top (List.flat_map (walk_node root []) entries) ks
  = fold_left note_dir (entered_dirs entries) ks.
Proof.
  revert ks. induction entries as [| [f | d sub | d] r IH]; intros ks;
    [reflexivity | apply IH | | apply IH].
  cbn [List.flat_map entered_dirs walk_node]. destruct (ignored d); [apply IH |].
  rewrite fold_left_app. cbn [fold_left app].
  match goal with
  | |- context [note_top ks ?v] => change (note_top ks v) with (note_dir ks d)
  end.
  rewrite fold_note_top_same; [apply IH |].
  clear. induction sub as [| x sub IHs]; cbn [List.flat_map]; [constructor |].
  apply Forall_app. split; [now apply walk_node_top | exact IHs].
Qed.

Lemma fold_note_dir_fresh (l ks : list string) :
  NoDup (ks ++ l) -> fold_left note_dir l ks = ks ++ l.
Proof.
  revert ks. induction l as [| d l IH]; intros ks Hn; [now rewrite app_nil_r |].
  cbn [fold_left]. unfold note_dir at 2.
  replace (in_list d ks) with false.
  - rewrite IH; rewrite <- app_assoc; [reflexivity | exact Hn].
  - symmetry. apply not_true_is_false. intros Hd. apply in_list_iff in Hd.
    apply NoDup_app in Hn as (_ & Hdis & _).
    apply (Hdis d); [now apply list_elem_of_In | left].
Qed.

(** The top-level directories that the walk enters, in the order of the
    walk: the visits one level below the root. *)
Definition entered_top (vs : list visit) : list string :=
  List.flat_map (fun v => match v_rel v with
                          | [d] => [d]
                          | _ => []
                          end) vs.

Lemma walk_node_depth (n : node) :
  forall root rel k, k <= length rel ->
    Forall (fun v => S k <= length (v_rel v)) (walk_node root rel n).
Proof.
  induction n as [f | d entries IH | d] using node_rect'; intros root rel k Hk;
    cbn [walk_node].
  - constructor.
  - destruct (ignored d); [constructor |].
    assert (Hk' : S k <= length (rel ++ [d])) by (rewrite length_app; cbn; lia).
    constructor; [exact Hk' |].
    induction IH as [| x r Hx _ IHr]; cbn [List.flat_map]; [constructor |].
    apply Forall_app. split; [apply Hx; lia | exact IHr].
  - constructor.
Qed.

Lemma entered_top_deep (vs : list visit) :
  Forall (fun v => 2 <= length (v_rel v)) vs -> entered_top vs = [].
Proof.
  intros Hvs. induction Hvs as [| v vs Hv _ IH]; [reflexivity |].
  unfold entered_top in *. cbn [List.flat_map]. rewrite IH.
  destruct (v_rel v) as [| a [| b l]]; cbn in Hv; try lia; reflexivity.
Qed.

Lemma entered_top_app (a b : list visit) :
  entered_top (a ++ b) = entered_top a ++ entered_top b.
Proof. unfold entered_top. apply flat_map_app. Qed.

Lemma entered_top_walk (root : string) (entries : list node) :
  entered_top (walk root entries) = entered_dirs entries.
Proof.
  unfold walk.
  change (entered_top (?v :: ?vs)) with (entered_top ([v] ++ vs)).
  rewrite entered_top_app. change (entered_top [_]) with (@nil string). cbn [app].
  induction entries as [| [f | d sub | d] r IH];
    cbn [List.flat_map entered_dirs walk_node app];
    [reflexivity | exact IH | | exact IH].
  destruct (ignored d); [exact IH |].
  rewrite entered_top_app, IH.
  assert (Hdeep : entered_top (List.flat_map (walk_node (os_path_join root d) [d]) sub) = []).
  { apply entered_top_deep. clear.
    induction sub as [| x sub IHs]; cbn [List.flat_map]; [constructor |].
    apply Forall_app. split; [apply walk_node_depth; cbn; lia | exact IHs]. }
  unfold entered_top in *. cbn [List.flat_map v_rel app]. now rewrite Hdeep.
Qed.

(** Every top-level directory that the walk enters is a service.  A scan
    that starts without service records adds one service for each of
    them, in the order of the walk, with the directory name as its name
    and as its path; a directory without any manifest is a service as
    well. *)
Theorem services_are_entered_directories (E : pyenv) (entries : list node) (s : scanner) :
  _service_info s = [] -> NoDup (entered_top (walk (path s) entries)) ->
  exists svcs,
    services (meta (snd (scan E (Directory entries) s))) = services (meta s) ++ svcs
    /\ map svc_name svcs = entered_top (walk (path s) entries)
    /\ map svc_path svcs = entered_top (walk (path s) entries).
Proof.
  rewrite entered_top_walk.
  intros Hinfo Hnd. destruct (scan_meta E entries s) as [d ->].
  cbn [services upd_description]. change (services (_infer_tech_stack ?m)) with (services m).
  rewrite finalize_services_effect. cbn [services upd_services].
  set (s0 := upd_meta (_scan_license entries) s).
  destruct (counters_scan_tree E entries s0) as [_ ->].
  assert (Hs0 : services (meta s0) = services (meta s)).
  { unfold s0. cbn [meta upd_meta].
    destruct (scan_license_only_license entries (meta s)) as (l & -> & _). reflexivity. }
  rewrite Hs0. eexists. split; [reflexivity |].
  rewrite !map_map. cbn [svc_name svc_path].
  assert (Hkeys : info_keys (_scan_tree E entries s0) = entered_dirs entries
                  /\ info_paths (_scan_tree E entries s0)).
  { unfold _scan_tree.
    destruct (info_fold_scan_visit E (walk (path s0) entries) (s0, [])) as [Hk Hp].
    destruct (fold_left _ _ _) as [s' tl]. cbn [fst] in Hk, Hp.
    assert (H0 : _service_info s0 = []) by exact Hinfo.
    unfold info_keys, info_paths in *. cbn [_service_info upd_meta]. rewrite H0 in *.
    split; [| apply Hp; constructor].
    rewrite Hk. unfold walk. cbn [fold_left map].
    match goal with
    | |- context [note_top [] ?v] => change (note_top [] v) with (@nil string)
    end.
    rewrite fold_note_top_walk. now apply fold_note_dir_fresh. }
  destruct Hkeys as [Hk Hp]. unfold info_keys in Hk. split; [exact Hk |].
  rewrite <- Hk. apply map_ext_in. intros ni Hni.
  unfold info_paths in Hp. rewrite List.Forall_forall in Hp. now apply Hp.
Qed.

(** A project with a service directory, a directory without manifest, a
    link to a directory, which the walk does not enter, and an ignored
    directory. *)
Definition monorepo_tree : list node :=
  [NDir "api" [NFile express_package_json];
   NDir "docs" [NFile (text_file "guide.md" "how to")];
   NLink "shared";
   NDir "node_modules" [NFile express_package_json];
   NFile (text_file "README.md" "hello")].

Lemma services_are_entered_directories_witness :
  exists svcs,
    services (meta (snd (scan plain_env (Directory monorepo_tree) (DeepScanner "proj" ""))))
    = svcs
    /\ map svc_name svcs = ["api"; "docs"]
    /\ map svc_path svcs = ["api"; "docs"].
Proof.
  apply (services_are_entered_directories plain_env monorepo_tree (DeepScanner "proj" "")).
  - reflexivity.
  - vm_compute. repeat constructor; set_solver.
Defined.

(** * The structure text *)

Lemma tree_lines_fold_scan_visit (E : pyenv) (vs : list visit) (s : scanner)
    (lines : list string) :
  snd (fold_left (scan_visit E) vs (s, lines)) = lines ++ List.flat_map tree_lines_of vs.
Proof.
  revert s lines. induction vs as [| v vs IH]; intros s lines.
  - cbn. now rewrite app_nil_r.
  - cbn [fold_left List.flat_map]. unfold scan_visit at 2. cbv zeta.
    rewrite IH. now rewrite <- app_assoc.
Qed.

Lemma structure_scan_tree (E : pyenv) (entries : list node) (s : scanner) :
  structure (meta (_scan_tree E entries s))
  = esc "```text\n.\n" +:+ join nl (List.flat_map tree_lines_of (walk (path s) entries))
    +:+ esc "\n```".
Proof.
  unfold _scan_tree.
  pose proof (tree_lines_fold_scan_visit E (walk (path s) entries) s []) as Hl.
  destruct (fold_left _ _ _) as [s' tl]. cbn [snd app] in Hl. now rewrite Hl.
Qed.

Lemma structure_finalize_services (s : scanner) :
  structure (meta (_finalize_services s)) = structure (meta s).
Proof.
  unfold _finalize_services. generalize (_service_info s) as l. intros l.
  revert s. induction l as [| x l IH]; intros s; [reflexivity |].
  cbn [fold_left]. now rewrite IH.
Qed.

(** The structure text of a scan is a function of the names met on the
    walk alone: a fenced block with one line per directory and per listed
    file, in the order of the walk.  What the scanner held before is
    discarded, no file is opened for it, and a directory four or more
    levels down adds no line, neither for itself nor for its files. *)
Theorem scan_structure_from_walk (E : pyenv) (entries : list node) (s : scanner) :
  structure (meta (snd (scan E (Directory entries) s)))
  = esc "```text\n.\n" +:+ join nl (List.flat_map tree_lines_of (walk (path s) entries))
    +:+ esc "\n```"
  /\ (forall v, 4 <= length (v_rel v) -> tree_lines_of v = []).
Proof.
  split.
  - pose proof (structure_scan_tree E entries (upd_meta (_scan_license entries) s)) as Ht.
    change (path (upd_meta (_scan_license entries) s)) with (path s) in Ht.
    transitivity (structure (meta (_finalize_services
                    (_scan_tree E entries (upd_meta (_scan_license entries) s)))));
      [| now rewrite structure_finalize_services].
    clear Ht.
    unfold scan. run.
    set (s1 := upd_meta _infer_tech_stack _).
    change (structure (meta (_finalize_services
              (_scan_tree E entries (upd_meta (_scan_license entries) s)))))
      with (structure (meta s1)).
    clearbody s1.
    destruct (negb (truthy _)); run; [| reflexivity].
    unfold _generate_smart_description, str_of. run.
    destruct (project_name _); run; reflexivity.
  - intros v Hv. unfold tree_lines_of. cbv zeta.
    replace (length (v_rel v) <? 4) with false; [reflexivity |].
    symmetry. apply Nat.ltb_ge. exact Hv.
Qed.

(** * Names of environment variables *)

Lemma writes_env_vars_named (m m' : metadata) :
  writes m m' -> "" ∉ env_vars m -> "" ∉ env_vars m'.
Proof.
  apply (writes_invariant (fun x => "" ∉ env_vars x)).
  clear. intros a b Hw Ha. destruct Hw; try exact Ha.
  - cbn [env_vars upd_env_vars]. unfold add_all. intros Hin.
    apply elem_of_union in Hin as [Hin | Hin]; [now apply Ha |].
    apply elem_of_list_to_set, list_elem_of_In in Hin.
    rewrite List.Forall_forall in H. now apply (H "" Hin).
  - unfold count_code_file. cbv zeta. now destruct (is_test_file _ _ _).
Qed.

(** No scan records an environment variable without a name: the groups
    that the alternatives of the pattern leave empty are skipped, whatever
    the files hold and whatever the pattern matches. *)
Theorem scan_env_vars_named (E : pyenv) (t : target) (s : scanner) :
  "" ∉ env_vars (meta s) -> "" ∉ env_vars (meta (snd (scan E t s))).
Proof.
  intros Hn. destruct t as [entries |]; [| exact Hn].
  apply (writes_env_vars_named _ _ (writes_scan E entries s)).
  destruct (scan_license_only_license entries (meta s)) as (l & -> & _). exact Hn.
Qed.

(** An environment in which the pattern of the Express routes and the
    pattern of the environment variables match one call each. *)
Definition route_env : pyenv :=
  {| re_findall := fun p content =>
       match p with
       | ReExpressApp =>
           if contains "app.get('/users'" content then [["get"; "/users"]] else []
       | ReEnvVars =>
           if contains "process.env.API_KEY" content then [["API_KEY"; ""; ""; ""]] else []
       | _ => []
       end;
     set_iter := elements; py_str := py_repr |}.

(** Two files that declare the same route and read the same variable. *)
Definition two_routes : list node :=
  [NFile (text_file "a.js" "app.get('/users', list); process.env.API_KEY");
   NFile (text_file "b.js" "app.get('/users', list); process.env.API_KEY")].

Lemma scan_env_vars_named_witness :
  env_vars (meta (snd (scan route_env (Directory two_routes) (DeepScanner "proj" ""))))
  = {[ "API_KEY" ]}
  /\ "" ∉ env_vars (meta (snd (scan route_env (Directory two_routes) (DeepScanner "proj" "")))).
Proof.
  split; [vm_compute; reflexivity |].
  apply (scan_env_vars_named route_env (Directory two_routes) (DeepScanner "proj" "")).
  apply not_elem_of_empty.
Defined.

Lemma scan_endpoints_distinct_witness :
  api_endpoints (meta (snd (scan route_env (Directory two_routes) (DeepScanner "proj" ""))))
  = ["GET /users"]
  /\ NoDup (api_endpoints
              (meta (snd (scan route_env (Directory two_routes) (DeepScanner "proj" ""))))).
Proof.
  split; [vm_compute; reflexivity |].
  apply (scan_endpoints_distinct route_env (Directory two_routes) (DeepScanner "proj" "")).
  constructor.
Defined.

(** * What [scan] returns *)

Lemma smart_description_outcome (m : metadata) :
  match project_name m with
  | PStr pn => exists d, _generate_smart_description m = (Ok ("**" +:+ d), m)
  | _ => _generate_smart_description m = (Raise AttributeError, m)
  end.
Proof.
  destruct (project_name m) as [| b | z | pn | l | kv] eqn:Hpn;
    try (unfold _generate_smart_description, str_of; run; rewrite Hpn; reflexivity).
  now apply smart_description_nonempty with (pn := pn).
Qed.

(** [scan] of a directory either returns the metadata it leaves in the
    scanner, with a description that is not empty, or raises
    [AttributeError]; it raises exactly when, after the walk, there is no
    description and the project name is not a string (only a string has
    [replace]). *)
Theorem scan_describes_or_fails (E : pyenv) (entries : list node) (s : scanner) :
  let out := scan E (Directory entries) s in
  match fst out with
  | Ok m => m = meta (snd out) /\ truthy (description m) = true
  | Raise e => e = AttributeError
               /\ truthy (description (meta (snd out))) = false
               /\ forall pn, project_name (meta (snd out)) <> PStr pn
  end.
Proof.
  cbv zeta. unfold scan. run.
  set (s1 := upd_meta _infer_tech_stack _).
  match goal with
  | |- context [truthy (description ?m1)] => change (description m1) with (description (meta s1))
  end.
  clearbody s1.
  destruct (truthy (description (meta s1))) eqn:Hd; cbn [negb]; run.
  - now split.
  - pose proof (smart_description_outcome (meta s1)) as Ho.
    destruct (project_name (meta s1)) as [| b | z | pn | l | kv] eqn:Hpn;
      try (rewrite Ho; run; split; [reflexivity |]; split; [exact Hd |];
           intros pn; rewrite Hpn; discriminate).
    destruct Ho as [d ->]. run. split; [reflexivity |].
    cbn [description upd_description truthy]. reflexivity.
Qed.

(** * The context note *)

Section ContextNote.

Variable E : pyenv.
Variable H : host.

Lemma cleanup_context (st : state) :
  custom_context (sc (snd (cleanup H st))) = custom_context (sc st).
Proof.
  unfold cleanup, path_exists. run. destruct (temp_dir (sc st)) as [d |]; [| reflexivity].
  destruct (String.eqb d ""); [reflexivity |]. run.
  destruct (bool_decide _); run; [| reflexivity]. now destruct (rmtree_removes H).
Qed.

Lemma clone_body_context (d : string) (st : state) :
  custom_context (sc (snd (clone_body H d st))) = custom_context (sc st).
Proof.
  unfold clone_body. run.
  destruct (clone_from H _) as [entries | msg partial]; run; [| reflexivity].
  destruct (2 <=? length _); run; [| reflexivity].
  unfold item_before_last. destruct (@rev string _) as [| a [| b l]]; reflexivity.
Qed.

Lemma origin_body_context (st : state) :
  custom_context (sc (snd (origin_body H st))) = custom_context (sc st).
Proof.
  unfold origin_body. run. destruct (origin_url H _) as [url |]; run; [| reflexivity].
  unfold item_before_last. destruct (@rev string _) as [| a [| b l]]; reflexivity.
Qed.

Lemma setup_path_context (st : state) :
  custom_context (sc (snd (setup_path H st))) = custom_context (sc st).
Proof.
  unfold setup_path. run.
  destruct (is_remote (sc st)); run.
  - match goal with
    | |- context [clone_body H ?d ?st0] =>
        pose proof (clone_body_context d st0) as Hb;
        destruct (clone_body H d st0) as [[u | e] st1]
    end; cbn [snd] in Hb; [exact Hb |].
    pose proof (cleanup_context st1) as Hc.
    destruct (cleanup H st1) as [[u | e'] st2]; cbn [snd] in Hc; cbn [snd sc];
      now rewrite Hc, Hb.
  - unfold path_exists. run. destruct (bool_decide _); run; [| reflexivity].
    match goal with
    | |- context [origin_body H ?st0] => exact (origin_body_context st0)
    end.
Qed.

Definition context_label (template : string) : string :=
  if String.eqb template "Minimal" then "> **Context:** " else "> **Developer Note:** ".

Lemma build_markdown_context (s : scanner) (template md : string) :
  custom_context s <> "" ->
  build_markdown E s template = Ok md ->
  contains (context_label template +:+ custom_context s +:+ esc "\n\n") md = true.
Proof.
  intros Hc. apply String.eqb_neq in Hc. unfold build_markdown, context_label. cbv zeta.
  destruct (String.eqb template "Minimal").
  - destruct (_generate_strict_usage _ _) as [usage | e]; [| discriminate].
    cbn [rbind]. intros [= <-]. unfold minimal_markdown. cbv zeta. rewrite Hc. cbn [negb].
    do 8 apply contains_app_r. apply contains_here.
  - destruct (_generate_strict_usage _ _) as [usage | e]; [| discriminate].
    cbn [rbind]. destruct (scripts_section _ _) as [table | e]; [| discriminate].
    cbn [rbind]. intros [= <-]. unfold detailed_markdown. cbv zeta. rewrite Hc. cbn [negb].
    do 7 apply contains_app_r. apply contains_here.
Qed.

(** A context that is not empty reaches every document the pipeline
    returns, on a local and on a remote path: as a quoted line that the
    minimal template labels [Context] and any other template
    [Developer Note]. *)
Theorem context_reaches_document (p template ctx : string) (fs0 : filesystem) (md : string) :
  ctx <> "" ->
  fst (generate_readme E H p template ctx fs0) = Ok md ->
  contains (context_label template +:+ ctx +:+ esc "\n\n") md = true.
Proof.
  intros Hctx. unfold generate_readme, try_finally.
  pose proof (setup_path_context (State (DeepScanner p ctx) fs0 [])) as Hs.
  cbn [sc custom_context DeepScanner] in Hs.
  unfold bind at 1.
  destruct (setup_path H _) as [[x | e] st1]; cbn [snd] in Hs.
  - unfold bind, run_scan, run_build, lift_sc.
    pose proof (frame_scan E (target_at st1) (sc st1)) as Hf.
    destruct (scan E (target_at st1) (sc st1)) as [[m | e] s2]; cbn [snd] in Hf.
    + cbn [sc]. destruct (cleanup H _) as [[u | e] st3]; cbn [fst]; [| discriminate].
      intros Hb. unfold frame in Hf. injection Hf as _ _ Hf _ _.
      rewrite <- Hs, <- Hf. apply build_markdown_context; [| exact Hb].
      now rewrite Hf, Hs.
    + destruct (cleanup H _) as [[u | e'] st3]; discriminate.
  - destruct (cleanup H _) as [[u | e'] st3]; discriminate.
Qed.

End ContextNote.

Definition labelled_project : filesystem :=
  {[ "proj" := FsDir [NFile (text_file "notes.txt" "remember the milk")] ]}.

Lemma context_reaches_document_witness :
  exists md,
    fst (generate_readme plain_env clone_host "proj" "Minimal" "internal tool" labelled_project)
    = Ok md
    /\ contains ("> **Context:** internal tool" +:+ esc "\n\n") md = true.
Proof.
  eexists. split; [vm_compute; reflexivity |].
  apply (context_reaches_document plain_env clone_host "proj" "Minimal" "internal tool"
           labelled_project); [discriminate | vm_compute; reflexivity].
Defined.

(** * The host: what a run does to the file system *)

Section HostEffects.

Variable E : pyenv.
Variable H : host.

Lemma cleanup_nothing (st : state) :
  temp_dir (sc st) = None -> cleanup H st = (Ok tt, st).
Proof. intros Ht. unfold cleanup. run. now rewrite Ht. Qed.

Lemma cleanup_absent (st : state) (d : string) :
  temp_dir (sc st) = Some d -> fs st !! d = None -> cleanup H st = (Ok tt, st).
Proof.
  intros Ht Hd. unfold cleanup, path_exists. run. rewrite Ht.
  destruct (String.eqb d ""); [reflexivity |]. run.
  rewrite bool_decide_eq_false_2; [reflexivity |].
  rewrite Hd. intros [x Hx]. discriminate.
Qed.

Lemma cleanup_removes (st : state) (d : string) (o : fsobj) :
  temp_dir (sc st) = Some d -> d <> "" -> fs st !! d = Some o ->
  rmtree_removes H = true ->
  cleanup H st = (Ok tt, State (sc st) (delete d (fs st)) (calls st ++ [CallRmtree d])).
Proof.
  intros Ht Hd Ho Hrm. unfold cleanup, path_exists. run. rewrite Ht.
  apply String.eqb_neq in Hd. rewrite Hd. run.
  rewrite bool_decide_eq_true_2 by (rewrite Ho; eauto). run. rewrite Hrm. reflexivity.
Qed.

(** The scan and the build leave the file system, the log of host calls
    and the scanner's own paths as they were. *)
Lemma scan_and_build_frame (template : string) (st : state) :
  exists r s2, (run_scan E ;;; run_build E template) st = (r, State s2 (fs st) (calls st))
    /\ frame s2 = frame (sc st).
Proof.
  unfold bind, run_scan, run_build, lift_sc.
  pose proof (frame_scan E (target_at st) (sc st)) as Hf.
  destruct (scan E (target_at st) (sc st)) as [[m | e] s2]; cbn [snd] in Hf;
    do 2 eexists; (split; [reflexivity | exact Hf]).
Qed.

Lemma setup_path_local_state (s : scanner) (fs0 : filesystem) (log : list host_call) :
  is_remote s = false ->
  exists r st, setup_path H (State s fs0 log) = (r, st)
    /\ fs st = fs0 /\ calls st = log /\ temp_dir (sc st) = temp_dir s
    /\ (fs0 !! path s = None -> r = Raise (Exception "Local path does not exist." None)).
Proof.
  intros Hr. destruct (fs0 !! path s) as [o |] eqn:Hp.
  - destruct (setup_path_local_exists H s fs0 log o Hr Hp) as (st & -> & _ & ? & ? & ? & _).
    do 2 eexists. split; [reflexivity |]. repeat split; auto. discriminate.
  - unfold setup_path, path_exists. run. rewrite Hr. run. rewrite Hp.
    rewrite bool_decide_eq_false_2 by (intros [x Hx]; discriminate). run.
    do 2 eexists. split; [reflexivity |]. repeat split; reflexivity.
Qed.

(** A run on a local path does nothing to the host: no temporary
    directory is made, nothing is cloned, nothing is removed and the file
    system is as it was, whether the document is returned or the run
    raises; a path that does not exist is reported as such. *)
Theorem local_run_leaves_host_alone (p template ctx : string) (fs0 : filesystem) :
  is_remote (DeepScanner p ctx) = false ->
  let out := generate_readme E H p template ctx fs0 in
  calls (snd out) = []
  /\ fs (snd out) = fs0
  /\ (fs0 !! p = None -> fst out = Raise (Exception "Local path does not exist." None)).
Proof.
  intros Hr out.
  assert (Hout : exists r st, out = (r, st) /\ calls st = [] /\ fs st = fs0
            /\ (fs0 !! p = None -> r = Raise (Exception "Local path does not exist." None))).
  { subst out. unfold generate_readme, try_finally.
    destruct (setup_path_local_state (DeepScanner p ctx) fs0 [] Hr)
      as (r & st1 & Hs & Hfs & Hc & Ht & Hmiss).
    unfold bind at 1. rewrite Hs. destruct r as [x | e].
    - destruct (scan_and_build_frame template st1) as (r2 & s2 & -> & Hf).
      assert (Ht2 : temp_dir s2 = None).
      { unfold frame in Hf. injection Hf as _ _ _ _ Hf. now rewrite Hf, Ht. }
      rewrite cleanup_nothing by exact Ht2. do 2 eexists. split; [reflexivity |].
      cbn [fs calls]. split; [exact Hc |]. split; [exact Hfs |].
      intros Hp. specialize (Hmiss Hp). discriminate.
    - rewrite cleanup_nothing by (now rewrite Ht). do 2 eexists. split; [reflexivity |].
      split; [exact Hc |]. split; [exact Hfs | exact Hmiss]. }
  destruct Hout as (r & st & -> & H1 & H2 & H3). cbn [fst snd]. auto.
Qed.

(** A run on a remote path, when the temporary directory is new and the
    removal succeeds, leaves the file system exactly as it found it and
    makes three host calls, in this order: the temporary directory, the
    clone, the removal; and this on every path, whether the clone fails,
    the scan or the build raises, or the document is returned. *)
Theorem remote_run_restores_filesystem (p template ctx : string) (fs0 : filesystem) :
  is_remote (DeepScanner p ctx) = true ->
  mkdtemp H <> "" -> rmtree_removes H = true -> fs0 !! mkdtemp H = None ->
  let out := generate_readme E H p template ctx fs0 in
  fs (snd out) = fs0
  /\ calls (snd out)
     = [CallMkdtemp (mkdtemp H); CallClone p (mkdtemp H); CallRmtree (mkdtemp H)].
Proof.
  intros Hr Hd Hrm Hnew out.
  set (s := DeepScanner p ctx) in *.
  assert (Hout : exists r st, out = (r, st) /\ fs st = fs0
            /\ calls st = [CallMkdtemp (mkdtemp H); CallClone p (mkdtemp H);
                           CallRmtree (mkdtemp H)]).
  { subst out. unfold generate_readme, try_finally. fold s.
    destruct (clone_from H p) as [entries | msg partial] eqn:Hc.
    - pose proof (setup_path_remote H s fs0 [] Hr) as Hs.
      change (original_path s) with p in Hs. rewrite Hc in Hs.
      destruct Hs as (st1 & Hs & _ & Ht & Hfs & Hcalls).
      unfold bind at 1. rewrite Hs.
      destruct (scan_and_build_frame template st1) as (r2 & s2 & -> & Hf).
      assert (Ht2 : temp_dir s2 = Some (mkdtemp H)).
      { unfold frame in Hf. injection Hf as _ _ _ _ Hf. now rewrite Hf. }
      rewrite (cleanup_removes (State s2 (fs st1) (calls st1)) (mkdtemp H) (FsDir entries) Ht2 Hd);
        [| cbn [fs]; rewrite Hfs; apply lookup_insert_eq | exact Hrm].
      do 2 eexists. split; [reflexivity |]. cbn [fs calls]. rewrite Hfs, Hcalls.
      split; [| reflexivity]. rewrite !delete_insert_eq. now apply delete_id.
    - assert (Hs : setup_path H (State s fs0 [])
                   = (Raise (Exception ("Clone failed: " +:+ msg) (Some (GitError msg))),
                      State (upd_temp_dir (fun _ => Some (mkdtemp H)) s) fs0
                        [CallMkdtemp (mkdtemp H); CallClone p (mkdtemp H);
                         CallRmtree (mkdtemp H)])).
      { unfold setup_path, clone_body. run. rewrite Hr. run.
        change (original_path s) with p. rewrite Hc. run.
        match goal with
        | |- context [cleanup H ?st] =>
            rewrite (cleanup_removes st (mkdtemp H) (FsDir partial) eq_refl Hd);
            [| cbn [fs]; apply lookup_insert_eq | exact Hrm]
        end.
        run. cbn [app exn_str].
        rewrite !delete_insert_eq, delete_id by exact Hnew. reflexivity. }
      unfold bind at 1. rewrite Hs.
      rewrite (cleanup_absent _ (mkdtemp H)) by (cbn; auto). do 2 eexists.
      split; [reflexivity |]. now split. }
  destruct Hout as (r & st & -> & H1 & H2). cbn [fst snd]. auto.
Qed.

End HostEffects.

Lemma local_run_leaves_host_alone_witness :
  calls (snd (generate_readme plain_env clone_host "proj" "Detailed" "" notes_project)) = []
  /\ fs (snd (generate_readme plain_env clone_host "proj" "Detailed" "" notes_project))
     = notes_project
  /\ (notes_project !! "proj" = None ->
      fst (generate_readme plain_env clone_host "proj" "Detailed" "" notes_project)
      = Raise (Exception "Local path does not exist." None)).
Proof.
  apply (local_run_leaves_host_alone plain_env clone_host "proj" "Detailed" "" notes_project).
  reflexivity.
Defined.

Lemma remote_run_restores_filesystem_witness :
  fs (snd (generate_readme plain_env failing_host "https://github.com/a/b.git"
             "Detailed" "" notes_project))
  = notes_project
  /\ calls (snd (generate_readme plain_env failing_host "https://github.com/a/b.git"
                   "Detailed" "" notes_project))
     = [CallMkdtemp "/tmp/tmpclone"; CallClone "https://github.com/a/b.git" "/tmp/tmpclone";
        CallRmtree "/tmp/tmpclone"].
Proof.
  apply (remote_run_restores_filesystem plain_env failing_host "https://github.com/a/b.git"
           "Detailed" "" notes_project).
  - reflexivity.
  - discriminate.
  - reflexivity.
  - reflexivity.
Defined.

(** * Names read off the repository address *)

Definition not_slash (c : ascii) : bool := negb (Ascii.eqb c "/"%char).

(** A path component: no separator in it. *)
Definition component (s : string) : Prop := str_forall not_slash s = true.

Lemma split_slash_step (acc : string) (c : ascii) (r : string) :
  split_aux "/" 0 acc (String c r)
  = if Ascii.eqb c "/"%char then acc :: split_aux "/" 0 "" r
    else split_aux "/" 0 (acc +:+ String c "") r.
Proof.
  cbn [split_aux String.prefix String.length Nat.sub].
  destruct (ascii_dec "/" c) as [<- | Hne].
  - now destruct r.
  - destruct (Ascii.eqb c "/"%char) eqn:Hc; [| reflexivity].
    apply Ascii.eqb_eq in Hc. congruence.
Qed.

Lemma split_component (s acc : string) :
  component s -> split_aux "/" 0 acc s = [acc +:+ s].
Proof.
  unfold component. revert acc. induction s as [| c s IH]; intros acc Hs.
  - now rewrite append_nil_r.
  - cbn in Hs. apply andb_true_iff in Hs as [Hc Hs]. rewrite split_slash_step.
    unfold not_slash in Hc. apply negb_true_iff in Hc. rewrite Hc.
    rewrite IH by exact Hs. now rewrite append_assoc.
Qed.

(** Splitting [a/b] at the separators: the pieces of [a], then those of
    [b]. *)
Lemma split_slash_app (a b acc : string) :
  split_aux "/" 0 acc (a +:+ "/" +:+ b) = split_aux "/" 0 acc a ++ split_aux "/" 0 "" b.
Proof.
  revert acc. induction a as [| c a IH]; intros acc.
  - rewrite append_nil_l. change ("/" +:+ b) with (String "/"%char b).
    now rewrite split_slash_step.
  - rewrite append_cons, !split_slash_step.
    destruct (Ascii.eqb c "/"%char); [| apply IH].
    cbn [app]. now rewrite IH.
Qed.

Lemma split_aux_not_nil (sep : string) (k : nat) (acc s : string) :
  split_aux sep k acc s <> [].
Proof.
  revert k acc. induction s as [| c s IH]; intros k acc; [discriminate |].
  cbn [split_aux]. destruct k; [| apply IH].
  destruct (String.prefix sep (String c s)); [discriminate | apply IH].
Qed.

(** The last two components of [pre/a/b]. *)
Lemma split_last_two (pre a b : string) :
  component a -> component b ->
  exists front, split (pre +:+ "/" +:+ a +:+ "/" +:+ b) "/" = front ++ [a; b].
Proof.
  intros Ha Hb. unfold split.
  rewrite split_slash_app. rewrite split_slash_app.
  rewrite (split_component a "" Ha), (split_component b "" Hb), !append_nil_l.
  now exists (split_aux "/" 0 "" pre).
Qed.

Lemma rstrip_by_keep_end (p : ascii -> bool) (a b : string) :
  rstrip_by p b <> "" -> rstrip_by p (a +:+ b) = a +:+ rstrip_by p b.
Proof.
  intros Hb. induction a as [| c a IH]; [reflexivity |].
  rewrite !append_cons. cbn [rstrip_by]. rewrite IH.
  destruct (a +:+ rstrip_by p b) eqn:Heq; [| reflexivity].
  destruct a; [now rewrite append_nil_l in Heq | discriminate].
Qed.

Lemma rstrip_slash_component (b : string) : component b -> rstrip_chars b "/" = b.
Proof.
  intros Hb. unfold rstrip_chars. rewrite <- (append_nil_r b) at 1.
  apply rstrip_by_app; [| reflexivity].
  revert Hb. apply str_forall_impl. intros c Hc. unfold not_slash in Hc. cbn.
  now rewrite orb_false_r.
Qed.

Lemma rstrip_slash_address (a b : string) :
  component b -> b <> "" -> rstrip_chars (a +:+ b) "/" = a +:+ b.
Proof.
  intros Hb Hne. unfold rstrip_chars.
  pose proof (rstrip_slash_component b Hb) as Hr. unfold rstrip_chars in Hr.
  rewrite rstrip_by_keep_end; rewrite Hr; [reflexivity | exact Hne].
Qed.

Lemma item_before_last_two {S : Type} (front : list string) (a b : string) (s : S) :
  item_before_last (front ++ [a; b]) s = (Ok a, s).
Proof.
  unfold item_before_last. rewrite rev_app_distr. reflexivity.
Qed.

Lemma last_item_two (front : list string) (a b : string) : last_item (front ++ [a; b]) = b.
Proof.
  unfold last_item. change (front ++ [a; b]) with (front ++ [a] ++ [b]).
  rewrite app_assoc. apply List.last_last.
Qed.

(** After a clone of [pre/user/name], where [user] and [name] hold no
    separator: the user name is [user], and the repository and project
    name is [name] with every occurrence of [.git] taken out, not only a
    final one. *)
Theorem remote_names_from_address (H : host) (pre user name ctx : string)
    (fs0 : filesystem) (entries : list node) :
  let url := pre +:+ "/" +:+ user +:+ "/" +:+ name in
  is_remote (DeepScanner url ctx) = true ->
  component user -> component name -> name <> "" ->
  clone_from H url = Cloned entries ->
  let m := meta (sc (snd (setup_path H (State (DeepScanner url ctx) fs0 [])))) in
  username m = user
  /\ repo_name m = replace name ".git" ""
  /\ project_name m = PStr (replace name ".git" "")
  /\ repo_url m = url.
Proof.
  intros url Hr Hu Hn Hne Hc.
  assert (Hstrip : rstrip_chars url "/" = url).
  { unfold url. rewrite <- !append_assoc. now apply rstrip_slash_address. }
  destruct (split_last_two pre user name Hu Hn) as [front Hsplit]. fold url in Hsplit.
  cbv zeta. unfold setup_path, clone_body. run. rewrite Hr. run.
  change (original_path (DeepScanner url ctx)) with url. rewrite Hc. run.
  rewrite Hstrip, Hsplit.
  replace (2 <=? length (front ++ [user; name])) with true
    by (symmetry; apply Nat.leb_le; rewrite length_app; cbn; lia).
  run. rewrite item_before_last_two, last_item_two. run. cbn. auto.
Qed.

Definition pages_address : string :=
  "https://github.com" +:+ "/" +:+ "octo" +:+ "/" +:+ "octo.github.io".

(** A repository whose name holds [.git] in the middle loses it there. *)
Lemma remote_names_from_address_witness :
  username (meta (sc (snd (setup_path clone_host (State (DeepScanner pages_address "") ∅ [])))))
  = "octo"
  /\ repo_name (meta (sc (snd (setup_path clone_host
                                 (State (DeepScanner pages_address "") ∅ [])))))
     = "octohub.io"
  /\ project_name (meta (sc (snd (setup_path clone_host
                                    (State (DeepScanner pages_address "") ∅ [])))))
     = PStr "octohub.io"
  /\ repo_url (meta (sc (snd (setup_path clone_host
                                (State (DeepScanner pages_address "") ∅ [])))))
     = pages_address.
Proof.
  apply (remote_names_from_address clone_host "https://github.com" "octo" "octo.github.io"
           "" ∅ []); try reflexivity. discriminate.
Defined.

(** * The tech stack *)

Lemma add_if_union (c : bool) (x : string) (s : gset string) :
  add_if c x s = s ∪ (if c then {[ x ]} else ∅).
Proof. unfold add_if, add_one. destruct c; set_solver. Qed.

Lemma add_if_here (c : bool) (x : string) (s : gset string) : c = true -> x ∈ add_if c x s.
Proof. intros ->. unfold add_if, add_one. set_solver. Qed.

Lemma add_if_later (c : bool) (x y : string) (s : gset string) : y ∈ s -> y ∈ add_if c x s.
Proof. intros Hy. unfold add_if, add_one. destruct c; set_solver. Qed.

Lemma with_prefix_elem (p x : string) (s : gset string) : x ∈ s -> (p +:+ x) ∈ with_prefix p s.
Proof.
  intros Hx. unfold with_prefix. apply elem_of_list_to_set, list_elem_of_In.
  apply (in_map (fun y => p +:+ y)). now apply list_elem_of_In, elem_of_elements.
Qed.

Lemma union_absorb (X a : gset string) : a ⊆ X -> X ∪ a = X.
Proof. set_solver. Qed.

Ltac sub_union X :=
  subst X; repeat first [apply union_subseteq_r | apply union_subseteq_l'].

(** A chain of [if c: s.add(x)] applied twice adds nothing the second
    time. *)
Ltac absorb_unions :=
  intros; rewrite !add_if_union;
  match goal with
  | |- _ = ?rhs =>
      let X := fresh "X" in
      set (X := rhs);
      repeat (rewrite (union_absorb _ _) by sub_union X);
      reflexivity
  end.

Lemma framework_labels_twice (py nd jv go s : gset string) :
  framework_labels py nd jv go (framework_labels py nd jv go s)
  = framework_labels py nd jv go s.
Proof. unfold framework_labels. absorb_unions. Qed.

Lemma database_labels_twice (py nd s : gset string) :
  database_labels py nd (database_labels py nd s) = database_labels py nd s.
Proof. unfold database_labels. absorb_unions. Qed.

Lemma auth_labels_twice (py nd s : gset string) :
  auth_labels py nd (auth_labels py nd s) = auth_labels py nd s.
Proof. unfold auth_labels. absorb_unions. Qed.

Lemma cache_labels_twice (py nd s : gset string) :
  cache_labels py nd (cache_labels py nd s) = cache_labels py nd s.
Proof. unfold cache_labels. absorb_unions. Qed.

Lemma union_twice (t a b c d : gset string) :
  t ∪ a ∪ b ∪ c ∪ d ∪ a ∪ b ∪ c ∪ d = t ∪ a ∪ b ∪ c ∪ d.
Proof.
  set (X := t ∪ a ∪ b ∪ c ∪ d).
  repeat (rewrite (union_absorb _ _) by sub_union X). reflexivity.
Qed.

(** [_infer_tech_stack] mirrors every structured label into the flat
    labels, with the prefix of its kind, and running it a second time
    changes nothing. *)
Theorem infer_tech_stack_mirrors (m : metadata) :
  let m' := _infer_tech_stack m in
  let d := tech_stack_details m' in
  (forall x, x ∈ frameworks d -> ("Framework: " +:+ x) ∈ tech_stack m')
  /\ (forall x, x ∈ databases d -> ("Database: " +:+ x) ∈ tech_stack m')
  /\ (forall x, x ∈ auth d -> ("Auth: " +:+ x) ∈ tech_stack m')
  /\ (forall x, x ∈ cache d -> ("Cache: " +:+ x) ∈ tech_stack m')
  /\ _infer_tech_stack m' = m'.
Proof.
  cbv zeta. rewrite (infer_tech_stack_shape (_infer_tech_stack m)).
  rewrite (infer_tech_stack_shape m). cbv zeta.
  cbn [tech_stack tech_stack_details upd_tech_stack upd_tech_stack_details dependencies
       frameworks databases auth cache].
  repeat split.
  - intros x Hx. pose proof (with_prefix_elem "Framework: " x _ Hx). set_solver.
  - intros x Hx. pose proof (with_prefix_elem "Database: " x _ Hx). set_solver.
  - intros x Hx. pose proof (with_prefix_elem "Auth: " x _ Hx). set_solver.
  - intros x Hx. pose proof (with_prefix_elem "Cache: " x _ Hx). set_solver.
  - rewrite framework_labels_twice, database_labels_twice, auth_labels_twice,
      cache_labels_twice.
    destruct m as [pn un rn ru la ts [f0 d0 a0 c0] deps sc st de ep eps epc api li mo ev te bt
                     p1 p2 p3 dk sv sa].
    unfold upd_tech_stack, upd_tech_stack_details.
    cbn [dependencies tech_stack tech_stack_details frameworks databases auth cache
         project_name username repo_name repo_url languages scripts structure description
         entry_point entry_points entry_point_cmd api_endpoints license modules env_vars
         tests build_tools python_requirements_path node_package_json_path go_mod_path
         docker services stats].
    now rewrite union_twice.
Qed.

(** * What a scan never rewrites *)

(** The repository identity and the manifest paths of [m] as [m'] has
    them: the three names are the same, and a path that was recorded is
    still the recorded one. *)
Definition identity_kept (m m' : metadata) : Prop :=
  username m' = username m /\ repo_name m' = repo_name m /\ repo_url m' = repo_url m
  /\ (forall p, python_requirements_path m = Some p -> python_requirements_path m' = Some p)
  /\ (forall p, node_package_json_path m = Some p -> node_package_json_path m' = Some p)
  /\ (forall p, go_mod_path m = Some p -> go_mod_path m' = Some p).

Lemma writes_identity_kept (m m' : metadata) : writes m m' -> identity_kept m m'.
Proof.
  intros Hw.
  apply (writes_invariant (identity_kept m)) with (m := m);
    [| exact Hw | repeat split; auto].
  clear. intros a b Hw (H0 & H1 & H2 & H3 & H4 & H5). unfold identity_kept.
  destruct Hw; try (repeat split; assumption);
    try (unfold count_code_file; cbv zeta; destruct (is_test_file _ _ _);
         repeat split; assumption);
    cbn; repeat split; try assumption; intros q Hq;
    [rewrite (H3 q Hq) | rewrite (H4 q Hq) | rewrite (H5 q Hq)]; reflexivity.
Qed.

(** A scan leaves the user name, the repository name and the repository
    address as [setup_path] set them, and it records the path of a
    manifest once: the first [requirements.txt], [package.json] and
    [go.mod] of the walk are the ones named, a later one never replaces
    them. *)
Theorem scan_keeps_identity_and_paths (E : pyenv) (t : target) (s : scanner) :
  identity_kept (meta s) (meta (snd (scan E t s))).
Proof.
  destruct t as [entries |]; [| repeat split; auto].
  pose proof (writes_identity_kept _ _ (writes_scan E entries s)) as Hk.
  destruct (scan_license_only_license entries (meta s)) as (l & Hl & _).
  rewrite Hl in Hk. exact Hk.
Qed.

(** * FastAPI: detected whatever the case, run only in lower case *)

Lemma lowered_elem (d : string) (s : gset string) : d ∈ s -> lower d ∈ lowered s.
Proof.
  intros Hd. unfold lowered. apply elem_of_list_to_set, list_elem_of_In.
  apply in_map. now apply list_elem_of_In, elem_of_elements.
Qed.

(** [_infer_tech_stack] compares the lower-cased names of the
    dependencies, [_generate_strict_usage] the names as they are written.
    So a requirement spelled other than [fastapi] in lower case is reported
    as the framework FastAPI, and the usage section still starts the
    program with [python], not with [uvicorn]. *)
Theorem fastapi_case_mismatch (E : pyenv) (m : metadata) (d : string) :
  d ∈ Python (dependencies m) -> lower d = "fastapi" ->
  "fastapi" ∉ Python (dependencies m) ->
  let m' := _infer_tech_stack m in
  "FastAPI" ∈ frameworks (tech_stack_details m')
  /\ "Framework: FastAPI" ∈ tech_stack m'
  /\ usage_python E m'
     = Ok (esc "**Python:**\n" +:+ esc "```bash\npython "
           +:+ fmt E (py_or (Python (entry_points m)) (py_or (entry_point m) (PStr "main.py")))
           +:+ esc "\n```\n").
Proof.
  intros Hd Hl Hno. cbv zeta.
  assert (Hfw : "FastAPI" ∈ frameworks (tech_stack_details (_infer_tech_stack m))).
  { rewrite (infer_tech_stack_shape m). cbv zeta.
    cbn [tech_stack_details upd_tech_stack upd_tech_stack_details frameworks].
    unfold framework_labels. do 8 apply add_if_later. apply add_if_here.
    unfold in_set. apply bool_decide_eq_true_2. rewrite <- Hl. now apply lowered_elem. }
  split; [exact Hfw |]. split.
  - rewrite (infer_tech_stack_shape m). cbv zeta.
    cbn [tech_stack tech_stack_details upd_tech_stack upd_tech_stack_details frameworks].
    rewrite (infer_tech_stack_shape m) in Hfw. cbv zeta in Hfw.
    cbn [tech_stack_details upd_tech_stack upd_tech_stack_details frameworks] in Hfw.
    pose proof (with_prefix_elem "Framework: " "FastAPI" _ Hfw) as Hp.
    change ("Framework: " +:+ "FastAPI") with "Framework: FastAPI" in Hp. set_solver.
  - unfold usage_python. cbv zeta.
    change (dependencies (_infer_tech_stack m)) with (dependencies m).
    change (entry_points (_infer_tech_stack m)) with (entry_points m).
    change (entry_point (_infer_tech_stack m)) with (entry_point m).
    unfold in_set. now rewrite bool_decide_eq_false_2 by exact Hno.
Qed.

Definition capitalised_requirement : metadata :=
  upd_dependencies (upd_Python (add_all ["FastAPI"])) initial_metadata.

Lemma fastapi_case_mismatch_witness :
  "FastAPI" ∈ frameworks (tech_stack_details (_infer_tech_stack capitalised_requirement))
  /\ "Framework: FastAPI" ∈ tech_stack (_infer_tech_stack capitalised_requirement)
  /\ usage_python plain_env (_infer_tech_stack capitalised_requirement)
     = Ok (esc "**Python:**\n" +:+ esc "```bash\npython " +:+ "main.py" +:+ esc "\n```\n").
Proof.
  apply (fastapi_case_mismatch plain_env capitalised_requirement "FastAPI").
  - apply (bool_decide_eq_true_1 ("FastAPI" ∈ Python (dependencies capitalised_requirement))).
    vm_compute. reflexivity.
  - reflexivity.
  - apply (bool_decide_eq_false_1 ("fastapi" ∈ Python (dependencies capitalised_requirement))).
    vm_compute. reflexivity.
Defined.
